(** * BizObs LoadRunner journey scripts: a shallow embedding

  The repository holds three LoadRunner scripts generated from one
  template ([loadrunner-tests/*/BizObsJourneyTest.c]).  Each script has
  the three LoadRunner entry points [vuser_init], [Action] and
  [vuser_end]; [Action] replays the steps of one customer journey.

  The scripts are straight-line C over the LoadRunner runtime API
  ([web_api.h], [lrun.h]).  The runtime is modelled here as an explicit
  state (parameter table, pending request headers, cookie jar, open
  transactions, event log) threaded through a state-and-error monad;
  the C globals of the script are fields of the same state. *)

From Stdlib Require Import ZArith String Ascii List Lia Bool.
From Stdlib Require Import DecimalString DecimalZ DecimalPos DecimalN.
From stdpp Require Import base option gmap strings.
Import ListNotations.

#[local] Open Scope string_scope.
#[local] Open Scope list_scope.
#[local] Open Scope Z_scope.

(** ** C library pieces used by the scripts *)

Module CLib.

(** [(int)x]: conversion of a wider integer to a 32-bit [int]. *)
Definition INT_MAX : Z := 2147483647.
Definition INT_MIN : Z := -2147483648.

Definition cast_int (x : Z) : Z :=
  (x + 2147483648) mod 4294967296 - 2147483648.

Definition in_int_range (x : Z) : Prop := INT_MIN <= x <= INT_MAX.

(** [(unsigned int)x], the conversion an argument of [srand] gets. *)
Definition cast_uint (x : Z) : Z := x mod 4294967296.

(** [a % b] on ints: the remainder takes the sign of the dividend. *)
Definition c_rem (a b : Z) : Z := Z.rem a b.

(** The [%d] conversion of [sprintf]. *)
Definition fmt_d (z : Z) : string := NilZero.string_of_int (Z.to_int z).

(** The double quote character, for the JSON and log texts. *)
Definition dquote : string := String (ascii_of_nat 34) EmptyString.

Definition is_digit (c : ascii) : bool :=
  let n := nat_of_ascii c in (48 <=? n)%nat && (n <=? 57)%nat.

Definition digit_val (c : ascii) : Z := Z.of_nat (nat_of_ascii c) - 48.

(** [isspace] in the C locale: space, and the controls 9 to 13. *)
Definition is_space (c : ascii) : bool :=
  let n := nat_of_ascii c in
  (n =? 32)%nat || ((9 <=? n)%nat && (n <=? 13)%nat).

(** The number a text starts with, as [strtol] reads it in base 10:
    skip white space, take an optional sign, then accumulate the
    leading run of digits; anything after it is ignored and a text with
    no digit gives [0]. *)
Fixpoint atoi_digits (acc : Z) (s : string) : Z :=
  match s with
  | String c s' =>
      if is_digit c then atoi_digits (acc * 10 + digit_val c) s' else acc
  | EmptyString => acc
  end.

Definition atoi_signed (s : string) : Z :=
  match s with
  | String c s' =>
      if Ascii.eqb c "-" then - atoi_digits 0 s'
      else if Ascii.eqb c "+" then atoi_digits 0 s'
      else atoi_digits 0 s
  | EmptyString => 0
  end.

Fixpoint atoi_value (s : string) : Z :=
  match s with
  | String c s' => if is_space c then atoi_value s' else atoi_signed s
  | EmptyString => 0
  end.

(** [strtol(s, NULL, 10)] with a 64-bit [long]: the value, kept within
    [LONG_MIN] and [LONG_MAX]. *)
Definition LONG_MAX : Z := 9223372036854775807.
Definition LONG_MIN : Z := -9223372036854775808.

Definition strtol (s : string) : Z :=
  Z.max LONG_MIN (Z.min LONG_MAX (atoi_value s)).

(** [atoi] returns an [int].  C defines it only when the number fits;
    beyond that the value here is what [(int) strtol(s, NULL, 10)]
    gives, and the theorems on the status check keep to numbers that
    fit. *)
Definition atoi (s : string) : Z := cast_int (strtol s).

(** Writing a formatted string into a [char buf[cap]]: the text and its
    terminating NUL must fit. *)
Definition fits (cap : nat) (s : string) : bool :=
  (String.length s <? cap)%nat.

(** [s] has only characters accepted by [p]. *)
Fixpoint all_chars (p : ascii -> bool) (s : string) : bool :=
  match s with
  | EmptyString => true
  | String c s' => p c && all_chars p s'
  end.

(** The characters [%d] can produce. *)
Definition decimal_char (c : ascii) : bool := is_digit c || Ascii.eqb c "-".

(** Any character but the underscore that separates the fields of an
    identifier. *)
Definition not_sep (c : ascii) : bool := negb (Ascii.eqb c "_").

End CLib.

(** ** The LoadRunner runtime

  [web_api.h] and [lrun.h] belong to LoadRunner, not to the repository.
  The model below follows the documented behaviour of the calls the
  scripts make:
  - [lr_save_string] binds a parameter; [lr_eval_string] replaces every
    [{name}] whose name is bound and leaves other text as it is;
  - the string arguments of the [web_*] calls are parameterised (the
    runtime evaluates them), those of the [lr_*] calls are not;
  - [web_add_header] attaches a header to the next request only, while
    automatic headers stay until [web_revert_auto_header] names them;
  - a transaction is opened by name and closed by name with a status. *)

Module LR.

Inductive tx_status : Set := LR_PASS | LR_FAIL | LR_AUTO.

(** JSON request bodies, with object fields in source order. *)
#[warnings="-register-all"] Inductive json : Type :=
| JStr (s : string)
| JNum (z : Z)
| JBool (b : bool)
| JArr (items : list json)
| JObj (fields : list (string * json)).

Fixpoint json_map (f : string -> string) (j : json) : json :=
  match j with
  | JStr s => JStr (f s)
  | JNum z => JNum z
  | JBool b => JBool b
  | JArr items => JArr (List.map (json_map f) items)
  | JObj fields =>
      JObj (List.map (fun kv => (fst kv, json_map f (snd kv))) fields)
  end.

(** Field access along a path of object keys. *)
Fixpoint assoc {A} (k : string) (l : list (string * A)) : option A :=
  match l with
  | [] => None
  | (k', v) :: l' => if String.eqb k k' then Some v else assoc k l'
  end.

Definition json_field (k : string) (j : json) : option json :=
  match j with
  | JObj fields => assoc k fields
  | _ => None
  end.

Record request : Type := {
  req_name : string;
  req_url : string;
  req_method : string;
  req_headers : list (string * string);
  req_body : json
}.

Inductive event : Type :=
| EvOutput (msg : string)
| EvError (msg : string)
| EvTxStart (name : string)
| EvTxEnd (name : string) (st : tx_status)
| EvTxMisuse (name : string)
| EvRequest (r : request)
| EvThink (seconds : Z).

(** What the script cannot decide: the identity of the virtual user,
    the clock, the pseudo-random generator, the parameters the script
    never saves itself ([{status}], [{pIteration}], [{TimeNow}]) and
    what the server answers.  Counters in the state index the oracles,
    so successive calls may see different values.  [http_status e k] is
    the status of the response to the [k]-th request, [k] requests
    having been sent when it arrives; no call the scripts make reads
    it, and [ext_param e name k] is what the runtime holds under [name]
    at that moment. *)
Record env : Type := {
  vuser_id : Z;
  iteration_number : Z;
  time_now : nat -> Z;
  rand_out : Z -> nat -> Z;
  ext_param : string -> nat -> option string;
  set_cookies : nat -> list string;
  tx_duration : string -> nat -> Z;
  http_status : nat -> Z
}.

Record state : Type := {
  (* runtime *)
  params : gmap string string;
  hdr_next : list (string * string);
  hdr_auto : list (string * string);
  cookies : list string;
  tx_open : list string;
  settings : list (string * string);
  log : list event;
  n_requests : nat;
  n_time : nat;
  n_rand : nat;
  rand_seed : Z;
  (* globals of the script *)
  dt_test_header : string;
  correlation_id : string;
  customer_id : string;
  session_id : string;
  trace_id : string
}.

Definition initial_state : state := {|
  params := ∅; hdr_next := []; hdr_auto := []; cookies := [];
  tx_open := []; settings := []; log := [];
  n_requests := 0; n_time := 0; n_rand := 0; rand_seed := 1;
  dt_test_header := EmptyString; correlation_id := EmptyString;
  customer_id := EmptyString; session_id := EmptyString;
  trace_id := EmptyString |}.

Definition set_params (f : gmap string string -> gmap string string) (σ : state) : state :=
  {| params := f (params σ); hdr_next := hdr_next σ; hdr_auto := hdr_auto σ;
     cookies := cookies σ; tx_open := tx_open σ; settings := settings σ;
     log := log σ; n_requests := n_requests σ; n_time := n_time σ;
     n_rand := n_rand σ; rand_seed := rand_seed σ;
     dt_test_header := dt_test_header σ; correlation_id := correlation_id σ;
     customer_id := customer_id σ; session_id := session_id σ;
     trace_id := trace_id σ |}.

Definition set_hdr_next (f : list (string * string) -> list (string * string)) (σ : state) : state :=
  {| params := params σ; hdr_next := f (hdr_next σ); hdr_auto := hdr_auto σ;
     cookies := cookies σ; tx_open := tx_open σ; settings := settings σ;
     log := log σ; n_requests := n_requests σ; n_time := n_time σ;
     n_rand := n_rand σ; rand_seed := rand_seed σ;
     dt_test_header := dt_test_header σ; correlation_id := correlation_id σ;
     customer_id := customer_id σ; session_id := session_id σ;
     trace_id := trace_id σ |}.

Definition set_hdr_auto (f : list (string * string) -> list (string * string)) (σ : state) : state :=
  {| params := params σ; hdr_next := hdr_next σ; hdr_auto := f (hdr_auto σ);
     cookies := cookies σ; tx_open := tx_open σ; settings := settings σ;
     log := log σ; n_requests := n_requests σ; n_time := n_time σ;
     n_rand := n_rand σ; rand_seed := rand_seed σ;
     dt_test_header := dt_test_header σ; correlation_id := correlation_id σ;
     customer_id := customer_id σ; session_id := session_id σ;
     trace_id := trace_id σ |}.

Definition set_cookie_jar (f : list string -> list string) (σ : state) : state :=
  {| params := params σ; hdr_next := hdr_next σ; hdr_auto := hdr_auto σ;
     cookies := f (cookies σ); tx_open := tx_open σ; settings := settings σ;
     log := log σ; n_requests := n_requests σ; n_time := n_time σ;
     n_rand := n_rand σ; rand_seed := rand_seed σ;
     dt_test_header := dt_test_header σ; correlation_id := correlation_id σ;
     customer_id := customer_id σ; session_id := session_id σ;
     trace_id := trace_id σ |}.

Definition set_tx_open (f : list string -> list string) (σ : state) : state :=
  {| params := params σ; hdr_next := hdr_next σ; hdr_auto := hdr_auto σ;
     cookies := cookies σ; tx_open := f (tx_open σ); settings := settings σ;
     log := log σ; n_requests := n_requests σ; n_time := n_time σ;
     n_rand := n_rand σ; rand_seed := rand_seed σ;
     dt_test_header := dt_test_header σ; correlation_id := correlation_id σ;
     customer_id := customer_id σ; session_id := session_id σ;
     trace_id := trace_id σ |}.

Definition set_settings (f : list (string * string) -> list (string * string)) (σ : state) : state :=
  {| params := params σ; hdr_next := hdr_next σ; hdr_auto := hdr_auto σ;
     cookies := cookies σ; tx_open := tx_open σ; settings := f (settings σ);
     log := log σ; n_requests := n_requests σ; n_time := n_time σ;
     n_rand := n_rand σ; rand_seed := rand_seed σ;
     dt_test_header := dt_test_header σ; correlation_id := correlation_id σ;
     customer_id := customer_id σ; session_id := session_id σ;
     trace_id := trace_id σ |}.

Definition emit (ev : event) (σ : state) : state :=
  {| params := params σ; hdr_next := hdr_next σ; hdr_auto := hdr_auto σ;
     cookies := cookies σ; tx_open := tx_open σ; settings := settings σ;
     log := log σ ++ [ev]; n_requests := n_requests σ; n_time := n_time σ;
     n_rand := n_rand σ; rand_seed := rand_seed σ;
     dt_test_header := dt_test_header σ; correlation_id := correlation_id σ;
     customer_id := customer_id σ; session_id := session_id σ;
     trace_id := trace_id σ |}.

Definition tick_requests (σ : state) : state :=
  {| params := params σ; hdr_next := hdr_next σ; hdr_auto := hdr_auto σ;
     cookies := cookies σ; tx_open := tx_open σ; settings := settings σ;
     log := log σ; n_requests := S (n_requests σ); n_time := n_time σ;
     n_rand := n_rand σ; rand_seed := rand_seed σ;
     dt_test_header := dt_test_header σ; correlation_id := correlation_id σ;
     customer_id := customer_id σ; session_id := session_id σ;
     trace_id := trace_id σ |}.

Definition tick_time (σ : state) : state :=
  {| params := params σ; hdr_next := hdr_next σ; hdr_auto := hdr_auto σ;
     cookies := cookies σ; tx_open := tx_open σ; settings := settings σ;
     log := log σ; n_requests := n_requests σ; n_time := S (n_time σ);
     n_rand := n_rand σ; rand_seed := rand_seed σ;
     dt_test_header := dt_test_header σ; correlation_id := correlation_id σ;
     customer_id := customer_id σ; session_id := session_id σ;
     trace_id := trace_id σ |}.

Definition set_rand (seed : Z) (n : nat) (σ : state) : state :=
  {| params := params σ; hdr_next := hdr_next σ; hdr_auto := hdr_auto σ;
     cookies := cookies σ; tx_open := tx_open σ; settings := settings σ;
     log := log σ; n_requests := n_requests σ; n_time := n_time σ;
     n_rand := n; rand_seed := seed;
     dt_test_header := dt_test_header σ; correlation_id := correlation_id σ;
     customer_id := customer_id σ; session_id := session_id σ;
     trace_id := trace_id σ |}.

(** The five global buffers. *)
Inductive buffer : Set :=
| Buf_dt_test_header | Buf_correlation_id | Buf_customer_id
| Buf_session_id | Buf_trace_id.

(** [char dt_test_header[1024]]; the four identifiers are [char x[64]]. *)
Definition capacity (b : buffer) : nat :=
  match b with
  | Buf_dt_test_header => 1024
  | _ => 64
  end.

Definition store (b : buffer) (s : string) (σ : state) : state :=
  {| params := params σ; hdr_next := hdr_next σ; hdr_auto := hdr_auto σ;
     cookies := cookies σ; tx_open := tx_open σ; settings := settings σ;
     log := log σ; n_requests := n_requests σ; n_time := n_time σ;
     n_rand := n_rand σ; rand_seed := rand_seed σ;
     dt_test_header :=
       match b with Buf_dt_test_header => s | _ => dt_test_header σ end;
     correlation_id :=
       match b with Buf_correlation_id => s | _ => correlation_id σ end;
     customer_id :=
       match b with Buf_customer_id => s | _ => customer_id σ end;
     session_id :=
       match b with Buf_session_id => s | _ => session_id σ end;
     trace_id :=
       match b with Buf_trace_id => s | _ => trace_id σ end |}.

Definition load (b : buffer) (σ : state) : string :=
  match b with
  | Buf_dt_test_header => dt_test_header σ
  | Buf_correlation_id => correlation_id σ
  | Buf_customer_id => customer_id σ
  | Buf_session_id => session_id σ
  | Buf_trace_id => trace_id σ
  end.

(** *** The monad: state, and a fault where C has no defined behaviour *)

Inductive fault : Type :=
| BufferOverflow (b : buffer) (text : string)
| IndexOutOfBounds (array : string) (index : Z).

Inductive result (A : Type) : Type :=
| Ok (a : A) (σ : state)
| Fault (f : fault).
Arguments Ok {A} a σ.
Arguments Fault {A} f.

Definition M (A : Type) : Type := state -> result A.

Definition ret {A} (a : A) : M A := fun σ => Ok a σ.

Definition bind {A B} (m : M A) (k : A -> M B) : M B :=
  fun σ => match m σ with
           | Ok a σ' => k a σ'
           | Fault f => Fault f
           end.

Definition gets {A} (f : state -> A) : M A := fun σ => Ok (f σ) σ.
Definition modify (f : state -> state) : M unit := fun σ => Ok tt (f σ).
Definition raise {A} (f : fault) : M A := fun _ => Fault f.

#[global] Instance M_ret : MRet M := @ret.
#[global] Instance M_bind : MBind M := fun A B k m => bind m k.

(** *** Parameters *)

(** Replacement of [{name}] by the value of the parameter [name].  The
    scan keeps the text of a name being read in [pending]; a second
    opening brace restarts the name, a name that is not bound stays in
    the output with its braces, and replaced text is not scanned
    again. *)
Fixpoint subst_params (value : string -> option string) (s : string)
    (pending : option string) : string :=
  match s with
  | EmptyString =>
      match pending with
      | None => EmptyString
      | Some nm => "{" +:+ nm
      end
  | String c s' =>
      match pending with
      | None =>
          if Ascii.eqb c "{" then subst_params value s' (Some EmptyString)
          else String c (subst_params value s' None)
      | Some nm =>
          if Ascii.eqb c "}" then
            match value nm with
            | Some v => v
            | None => "{" +:+ nm +:+ "}"
            end +:+ subst_params value s' None
          else if Ascii.eqb c "{" then
            "{" +:+ nm +:+ subst_params value s' (Some EmptyString)
          else subst_params value s' (Some (nm +:+ String c EmptyString))
      end
  end.

(** A parameter saved by the script hides one of the same name that the
    runtime would supply; [k] is the number of requests sent so far. *)
Definition param_value (e : env) (P : gmap string string) (k : nat)
    (name : string) : option string :=
  match P !! name with
  | Some v => Some v
  | None => ext_param e name k
  end.

Definition eval_with (e : env) (P : gmap string string) (k : nat)
    (s : string) : string :=
  subst_params (param_value e P k) s None.

Definition eval_in (e : env) (σ : state) (s : string) : string :=
  eval_with e (params σ) (n_requests σ) s.

Definition lr_eval_string (e : env) (s : string) : M string :=
  gets (fun σ => eval_in e σ s).

Definition lr_save_string (value name : string) : M unit :=
  modify (set_params (insert name value)).

(** *** Messages, identity, clock, random numbers, pauses *)

Definition lr_output_message (msg : string) : M unit :=
  modify (emit (EvOutput msg)).

Definition lr_error_message (msg : string) : M unit :=
  modify (emit (EvError msg)).

Definition lr_get_vuser_id (e : env) : M Z := ret (vuser_id e).

Definition lr_get_iteration_number (e : env) : M Z :=
  ret (iteration_number e).

(** [time(NULL)] *)
Definition c_time (e : env) : M Z :=
  fun σ => Ok (time_now e (n_time σ)) (tick_time σ).

(** [srand] takes an [unsigned int]: the seed is its argument modulo
    2^32. *)
Definition c_srand (seed : Z) : M unit :=
  modify (set_rand (CLib.cast_uint seed) 0).

Definition c_rand (e : env) : M Z :=
  fun σ => Ok (rand_out e (rand_seed σ) (n_rand σ))
              (set_rand (rand_seed σ) (S (n_rand σ)) σ).

Definition lr_think_time (seconds : Z) : M unit :=
  modify (emit (EvThink seconds)).

(** [sprintf(buf, ...)] with the formatted text already built: writing
    past the end of the array is a fault. *)
Definition sprintf (b : buffer) (text : string) : M unit :=
  if CLib.fits (capacity b) text then modify (store b text)
  else raise (BufferOverflow b text).

(** Reading [array[index]]. *)
Definition index_array (array : string) (l : list string) (index : Z) : M string :=
  match (if 0 <=? index then nth_error l (Z.to_nat index) else None) with
  | Some s => ret s
  | None => raise (IndexOutOfBounds array index)
  end.

(** *** Transactions *)

Definition is_open (name : string) (σ : state) : bool :=
  existsb (String.eqb name) (tx_open σ).

(** Starting a transaction that is open, or ending one that is not, is
    reported and changes nothing else. *)
Definition start_tx (name : string) (σ : state) : state :=
  emit (if is_open name σ then EvTxMisuse name else EvTxStart name)
    (set_tx_open (fun l => if is_open name σ then l else name :: l) σ).

Definition end_tx (name : string) (st : tx_status) (σ : state) : state :=
  emit (if is_open name σ then EvTxEnd name st else EvTxMisuse name)
    (set_tx_open (List.filter (fun n => negb (String.eqb name n))) σ).

Definition lr_start_transaction (name : string) : M unit :=
  modify (start_tx name).

Definition lr_end_transaction (name : string) (st : tx_status) : M unit :=
  modify (end_tx name st).

Definition lr_get_transaction_duration (e : env) (name : string) : M Z :=
  gets (fun σ => tx_duration e name (n_requests σ)).

(** *** Web calls *)

Definition add_header (e : env) (name value : string) (σ : state) : state :=
  set_hdr_next (fun h => h ++ [(name, eval_in e σ value)]) σ.

Definition web_add_header (e : env) (name value : string) : M unit :=
  modify (add_header e name value).

Definition web_revert_auto_header (name : string) : M unit :=
  modify (set_hdr_auto
            (List.filter (fun h => negb (String.eqb name (fst h))))).

Definition web_cleanup_cookies : M unit :=
  modify (set_cookie_jar (fun _ => [])).

(** The request carries the automatic headers and the headers attached
    for it; the latter are used up by the request. *)
Definition make_request (e : env) (name url method : string) (body : json)
    (σ : state) : request :=
  {| req_name := name;
     req_url := eval_in e σ url;
     req_method := method;
     req_headers := hdr_auto σ ++ hdr_next σ;
     req_body := json_map (eval_in e σ) body |}.

Definition send_request (e : env) (name url method : string) (body : json)
    (σ : state) : state :=
  tick_requests
    (set_cookie_jar (fun c => c ++ set_cookies e (n_requests σ))
       (set_hdr_next (fun _ => [])
          (emit (EvRequest (make_request e name url method body σ)) σ))).

Definition web_custom_request (e : env) (name url method : string)
    (body : json) : M unit :=
  modify (send_request e name url method body).

Definition web_set (key value : string) : M unit :=
  modify (set_settings (fun l => l ++ [(key, value)])).

Definition web_set_max_html_param_len (v : string) : M unit :=
  web_set "max_html_param_len" v.
Definition web_set_max_retries (v : string) : M unit :=
  web_set "max_retries" v.
Definition web_set_timeout (which : string) (seconds : Z) : M unit :=
  web_set ("timeout." +:+ which) (CLib.fmt_d seconds).
Definition web_set_user_agent (v : string) : M unit :=
  web_set "user_agent" v.

End LR.

(** ** The generated scripts

  The three files are instances of one template: they differ in the
  company, the labels and the journey steps only, and every step block
  of a file is the same code with another step's data.  [script] holds
  what varies, and [vuser_init], [exec_step], [Action] and [vuser_end]
  are the template. *)

Module Script.
Import LR CLib.

Record step : Type := {
  step_number : Z;
  step_name : string;
  service_name : string;
  description : string;
  estimated_duration : Z;
  substeps : list (string * Z);
  think_time : Z
}.

Record script : Type := {
  company : string;
  domain : string;
  lsn : string;               (* load script name, the journey label *)
  ltn : string;               (* load test name, the run label *)
  init_lsn : string;          (* the labels saved by [vuser_init] *)
  init_ltn : string;
  error_simulation : bool;
  steps : list step;
  total_steps : Z             (* the [totalSteps] literal of the completion event *)
}.

(** *** Customer catalogs *)

Definition customer_names : list string :=
  ["Sarah Johnson"; "Michael Chen"; "Emma Rodriguez"; "David Kim";
   "Ashley Thompson"; "Robert Martinez"; "Jennifer Lee"; "Christopher Brown";
   "Amanda Wilson"; "Joshua Garcia"; "Melissa Davis"; "Andrew Miller";
   "Jessica Anderson"; "Kevin Taylor"; "Lauren Thomas"; "Brian Jackson"].

Definition customer_emails : list string :=
  ["sarah.johnson@email.com"; "michael.chen@email.com"; "emma.rodriguez@email.com";
   "david.kim@email.com"; "ashley.thompson@email.com"; "robert.martinez@email.com";
   "jennifer.lee@email.com"; "christopher.brown@email.com"; "amanda.wilson@email.com";
   "joshua.garcia@email.com"; "melissa.davis@email.com"; "andrew.miller@email.com";
   "jessica.anderson@email.com"; "kevin.taylor@email.com"; "lauren.thomas@email.com";
   "brian.jackson@email.com"].

Definition customer_segments : list string :=
  ["Premium"; "Standard"; "Budget"; "Enterprise"; "SMB"; "Startup"].

Definition traffic_sources : list string :=
  ["Google_Ads"; "Facebook_Campaign"; "Email_Newsletter"; "Direct_Traffic";
   "Referral_Partner"; "Organic_Search"; "Social_Media"; "Content_Marketing"].

(** *** [vuser_init] *)

Definition vuser_init (s : script) (e : env) : M Z :=
  lr_output_message ("Starting LoadRunner test for " +:+ company s);;
  lr_save_string (init_lsn s) "LSN";;
  lr_save_string (init_ltn s) "LTN";;
  t ← c_time e;
  vuser ← lr_get_vuser_id e;
  c_srand (t + vuser);;
  r ← c_rand e;
  let customer_index := c_rem r 16 in
  name ← index_array "customer_names" customer_names customer_index;
  lr_save_string name "customer_name";;
  email ← index_array "customer_emails" customer_emails customer_index;
  lr_save_string email "customer_email";;
  r ← c_rand e;
  segment ← index_array "customer_segments" customer_segments (c_rem r 6);
  lr_save_string segment "customer_segment";;
  r ← c_rand e;
  source ← index_array "traffic_sources" traffic_sources (c_rem r 8);
  lr_save_string source "traffic_source";;
  web_set_max_html_param_len "1024000";;
  web_set_max_retries "3";;
  web_set_timeout "Receive" 30;;
  web_set_user_agent "LoadRunner-BizObs-Agent/1.0";;
  mret 0.

Definition vuser_end (s : script) : M Z :=
  lr_output_message
    ("Completed LoadRunner test for " +:+ company s
       +:+ " - Customer: {customer_name}");;
  mret 0.

(** *** The identifiers of an iteration *)

(** ["LR_<ltn>_%d_%d_%d"] *)
Definition fmt_correlation_id (s : script) (vuser iteration t : Z) : string :=
  "LR_" +:+ ltn s +:+ "_" +:+ fmt_d vuser +:+ "_" +:+ fmt_d iteration
    +:+ "_" +:+ fmt_d t.

(** ["customer_%d_%d_%d"] *)
Definition fmt_customer_id (vuser iteration salt : Z) : string :=
  "customer_" +:+ fmt_d vuser +:+ "_" +:+ fmt_d iteration +:+ "_" +:+ fmt_d salt.

(** ["session_<lsn>_%d_%d"] *)
Definition fmt_session_id (s : script) (vuser iteration : Z) : string :=
  "session_" +:+ lsn s +:+ "_" +:+ fmt_d vuser +:+ "_" +:+ fmt_d iteration.

(** ["trace_%s_%d"] *)
Definition fmt_trace_id (correlation : string) (t : Z) : string :=
  "trace_" +:+ correlation +:+ "_" +:+ fmt_d t.

Definition generate_ids (s : script) (e : env) : M unit :=
  iteration ← lr_get_iteration_number e;
  vuser ← lr_get_vuser_id e;
  t ← c_time e;
  sprintf Buf_correlation_id
    (fmt_correlation_id s vuser iteration (cast_int t));;
  c ← gets correlation_id;
  lr_save_string c "correlation_id";;
  t ← c_time e;
  sprintf Buf_customer_id
    (fmt_customer_id vuser iteration (c_rem (cast_int t) 10000));;
  sprintf Buf_session_id (fmt_session_id s vuser iteration);;
  c ← gets correlation_id;
  t ← c_time e;
  sprintf Buf_trace_id (fmt_trace_id c (cast_int t));;
  c ← gets customer_id;
  lr_save_string c "customer_id";;
  c ← gets session_id;
  lr_save_string c "session_id";;
  c ← gets trace_id;
  lr_save_string c "trace_id".

(** *** One journey step *)

(** ["TSN=%s;LSN=%s;LTN=%s;VU=%d;SI=LoadRunner;PC=BizObs-Demo;AN=<company>;CID=%s"] *)
Definition fmt_dt_test_header (s : script) (tsn : string) (vuser : Z)
    (cid : string) : string :=
  "TSN=" +:+ tsn +:+ ";LSN=" +:+ lsn s +:+ ";LTN=" +:+ ltn s
    +:+ ";VU=" +:+ fmt_d vuser
    +:+ ";SI=LoadRunner;PC=BizObs-Demo;AN=" +:+ company s
    +:+ ";CID=" +:+ cid.

Definition simulate_url : string :=
  "http://localhost:8080/api/journey-simulation/simulate-journey".

Definition substep_json (ss : string * Z) : json :=
  JObj [("substepName", JStr (fst ss)); ("duration", JNum (snd ss))].

Definition step_body (s : script) (st : step) : json :=
  JObj [
    ("journeyId", JStr "{correlation_id}");
    ("customerId", JStr "{customer_id}");
    ("sessionId", JStr "{session_id}");
    ("traceId", JStr "{trace_id}");
    ("chained", JBool true);
    ("thinkTimeMs", JNum 250);
    ("errorSimulationEnabled", JBool (error_simulation s));
    ("journey", JObj [
       ("journeyId", JStr "{correlation_id}");
       ("companyName", JStr (company s));
       ("domain", JStr (domain s));
       ("steps", JArr [
          JObj [
            ("stepNumber", JNum (step_number st));
            ("stepName", JStr (step_name st));
            ("serviceName", JStr (service_name st));
            ("description", JStr (description st));
            ("estimatedDuration", JNum (estimated_duration st));
            ("substeps", JArr (List.map substep_json (substeps st)))]]);
       ("additionalFields", JObj []);
       ("customerProfile", JObj [
          ("name", JStr "{customer_name}");
          ("email", JStr "{customer_email}");
          ("segment", JStr "{customer_segment}");
          ("userId", JStr "{customer_id}");
          ("deviceType", JStr "desktop");
          ("location", JStr "US-East")])])].

(** The status check that closes the step transaction. *)
Definition check_response (e : env) (st : step) : M unit :=
  status ← lr_eval_string e "{status}";
  if 400 <=? atoi status then
    status ← lr_eval_string e "{status}";
    lr_error_message
      ("Step " +:+ step_name st +:+ " failed with status: " +:+ status);;
    lr_end_transaction (step_name st) LR_FAIL
  else
    lr_end_transaction (step_name st) LR_PASS.

(** The block headed "Clear headers for next request". *)
Definition clear_headers : M unit :=
  web_cleanup_cookies;;
  web_revert_auto_header "x-dynatrace-test";;
  web_revert_auto_header "x-correlation-id";;
  web_revert_auto_header "x-customer-id";;
  web_revert_auto_header "x-session-id";;
  web_revert_auto_header "x-trace-id";;
  web_revert_auto_header "x-step-name";;
  web_revert_auto_header "x-customer-segment";;
  web_revert_auto_header "x-traffic-source";;
  web_revert_auto_header "x-test-iteration".

Definition add_step_headers (e : env) (st : step) : M unit :=
  h ← gets dt_test_header;
  web_add_header e "X-dynaTrace" h;;
  web_add_header e "x-correlation-id" "{correlation_id}";;
  web_add_header e "x-customer-id" "{customer_id}";;
  web_add_header e "x-session-id" "{session_id}";;
  web_add_header e "x-trace-id" "{trace_id}";;
  web_add_header e "x-step-name" (step_name st);;
  web_add_header e "x-service-name" (service_name st);;
  web_add_header e "x-customer-segment" "{customer_segment}";;
  web_add_header e "x-traffic-source" "{traffic_source}";;
  it ← lr_eval_string e "{pIteration}";
  web_add_header e "x-test-iteration" it;;
  web_add_header e "Content-Type" "application/json";;
  web_add_header e "User-Agent" "LoadRunner-BizObs-Agent/1.0".

Definition exec_step (s : script) (e : env) (st : step) : M unit :=
  lr_save_string (step_name st) "TSN";;
  vuser ← lr_get_vuser_id e;
  sprintf Buf_dt_test_header
    (fmt_dt_test_header s (step_name st) vuser "{correlation_id}");;
  lr_start_transaction (step_name st);;
  lr_output_message
    ("Executing step: " +:+ step_name st +:+ " (Service: "
       +:+ service_name st +:+ ") for {customer_name}");;
  add_step_headers e st;;
  web_custom_request e (step_name st +:+ "_Journey_Step") simulate_url "POST"
    (step_body s st);;
  check_response e st;;
  clear_headers;;
  lr_end_transaction "{TSN}" LR_AUTO;;
  d ← lr_get_transaction_duration e "{TSN}";
  lr_output_message
    ("Completed step: {TSN} - Response time: " +:+ fmt_d d +:+ " ms");;
  lr_think_time (think_time st).

(** The step blocks of [Action], one after the other. *)
Fixpoint exec_steps (s : script) (e : env) (l : list step) : M unit :=
  match l with
  | [] => mret tt
  | st :: l' => exec_step s e st;; exec_steps s e l'
  end.

(** *** The completion event and [Action] *)

Definition completion_body (s : script) (time_text : string) : json :=
  JObj [
    ("eventType", JStr "journey_completed");
    ("correlationId", JStr "{correlation_id}");
    ("customerId", JStr "{customer_id}");
    ("companyName", JStr (company s));
    ("customerName", JStr "{customer_name}");
    ("customerSegment", JStr "{customer_segment}");
    ("totalSteps", JNum (total_steps s));
    ("loadTest", JBool true);
    ("completionTime", JStr time_text)].

Definition completion_event (s : script) (e : env) : M unit :=
  h ← gets dt_test_header;
  web_add_header e "x-dynatrace-test" h;;
  web_add_header e "x-correlation-id" "{correlation_id}";;
  web_add_header e "Content-Type" "application/json";;
  now ← lr_eval_string e "{TimeNow}";
  web_custom_request e "Journey_Completion_Event" simulate_url "POST"
    (completion_body s now).

Definition Action (s : script) (e : env) : M Z :=
  generate_ids s e;;
  lr_save_string (lsn s) "LSN";;
  lr_save_string (ltn s) "LTN";;
  lr_start_transaction "Full_Customer_Journey";;
  c ← gets correlation_id;
  lr_output_message
    ("Starting journey for customer: {customer_name} ({customer_segment}) - Journey: "
       +:+ c);;
  exec_steps s e (steps s);;
  lr_end_transaction "Full_Customer_Journey" LR_AUTO;;
  d ← lr_get_transaction_duration e "Full_Customer_Journey";
  lr_output_message
    ("Journey completed for {customer_name} - Total time: " +:+ fmt_d d
       +:+ " ms, Correlation: {correlation_id}");;
  completion_event s e;;
  mret 0.

(** *** The three scripts of the repository *)

Definition argos_step1 : step := {|
  step_number := 1;
  step_name := "ProductDiscovery";
  service_name := "ProductDiscoveryService";
  description :=
    "Customer searches for products, views categories, and opens product detail pages.";
  estimated_duration := 4;
  substeps :=
    [("Search for 'Nintendo Switch Console'", 1);
     ("View product detail page SKU: 123/4567 (£259.99)", 1);
     ("Search for 'Dyson V8 Vacuum Cleaner'", 1);
     ("View product detail page SKU: 987/6543 (£299.99)", 1)];
  think_time := 5 |}.

Definition argos_step2 : step := {|
  step_number := 2;
  step_name := "BasketManagement";
  service_name := "BasketManagementService";
  description :=
    "Customer adds multiple products to basket and reviews basket contents.";
  estimated_duration := 3;
  substeps :=
    [("Add Nintendo Switch Console to basket", 1);
     ("Add Dyson V8 Vacuum Cleaner to basket", 1);
     ("Open basket and review items", 1)];
  think_time := 5 |}.

Definition argos_step3 : step := {|
  step_number := 3;
  step_name := "CheckoutInitiation";
  service_name := "CheckoutInitiationService";
  description :=
    "Customer begins checkout, enters email, selects fulfilment options.";
  estimated_duration := 5;
  substeps :=
    [("Enter contact details", 2);
     ("Select delivery for Dyson V8", 2);
     ("Select click & collect for Nintendo Switch", 1)];
  think_time := 5 |}.

Definition argos_step4 : step := {|
  step_number := 4;
  step_name := "PaymentProcessing";
  service_name := "PaymentProcessingService";
  description :=
    "Customer enters payment details and completes payment.";
  estimated_duration := 3;
  substeps :=
    [("Enter card details", 1);
     ("3D Secure authentication", 1);
     ("Payment confirmation", 1)];
  think_time := 5 |}.

Definition argos_step5 : step := {|
  step_number := 5;
  step_name := "FulfilmentAllocation";
  service_name := "FulfilmentAllocationService";
  description :=
    "Argos allocates stock to delivery and click & collect orders.";
  estimated_duration := 2;
  substeps :=
    [("Allocate Dyson V8 to home delivery slot", 1);
     ("Reserve Nintendo Switch at local store", 1)];
  think_time := 5 |}.

Definition argos_step6 : step := {|
  step_number := 6;
  step_name := "DeliveryCompletion";
  service_name := "DeliveryCompletionService";
  description :=
    "Customer receives home delivery and collects in‑store item.";
  estimated_duration := 1440;
  substeps :=
    [("Home delivery of Dyson V8 (next day)", 720);
     ("Click & collect pickup of Nintendo Switch", 720)];
  think_time := 1 |}.

Definition argos : script := {|
  company := "Argos";
  domain := "www.Argos.co.uk";
  lsn := "BizObs_Argos_www.Argos.co.uk_Journey";
  ltn := "Argos_LoadTest_20260106";
  init_lsn := "BizObs-Journey-LoadTest";
  init_ltn := "Argos_Performance_Test_2026-01-06T13-48-03-019Z";
  error_simulation := true;
  steps := [argos_step1; argos_step2; argos_step3; argos_step4; argos_step5; argos_step6];
  total_steps := 6 |}.

Definition argos_short_step1 : step := {|
  step_number := 1;
  step_name := "ProductDiscovery";
  service_name := "ProductDiscoveryService";
  description :=
    "Customer searches for products, views categories, and opens product detail pages.";
  estimated_duration := 4000;
  substeps :=
    [("Search for Nintendo Switch Console", 1000);
     ("View product detail page SKU: 123/4567 (Â£259.99)", 1000)];
  think_time := 4 |}.

Definition argos_short_step2 : step := {|
  step_number := 2;
  step_name := "BasketManagement";
  service_name := "BasketManagementService";
  description :=
    "Customer adds multiple products to basket and reviews basket contents.";
  estimated_duration := 3000;
  substeps :=
    [("Add Nintendo Switch Console to basket", 1000)];
  think_time := 3 |}.

Definition argos_short : script := {|
  company := "Argos";
  domain := "www.Argos.co.uk";
  lsn := "BizObs_Argos_www.Argos.co.uk_Journey";
  ltn := "Argos_LoadTest_20260106";
  init_lsn := "BizObs-Journey-LoadTest";
  init_ltn := "Argos_Performance_Test_2026-01-06T14-00-16-681Z";
  error_simulation := true;
  steps := [argos_short_step1; argos_short_step2];
  total_steps := 2 |}.

Definition bt_step1 : step := {|
  step_number := 1;
  step_name := "ComparisonClickthrough";
  service_name := "ComparisonClickthroughService";
  description :=
    "User arrives from a comparison site (e.g. Uswitch) and clicks through to a BT Full Fibre product such as BTFF500. Generates measurable events: campaign_click, referral_source_identified, product_impression.";
  estimated_duration := 2;
  substeps :=
    [("ReferralLandingPageView", 1);
     ("ProductClickthrough", 1)];
  think_time := 5 |}.

Definition bt_step2 : step := {|
  step_number := 2;
  step_name := "PlanSelection";
  service_name := "PlanSelectionService";
  description :=
    "User compares BT broadband plans (BTFF500, BTFF900) and selects a preferred speed tier. Generates events: product_view, plan_compare, plan_selected.";
  estimated_duration := 4;
  substeps :=
    [("PlanGridLoad", 2);
     ("PlanEvaluationAndSelection", 2)];
  think_time := 5 |}.

Definition bt_step3 : step := {|
  step_number := 3;
  step_name := "IdentityVerification";
  service_name := "IdentityVerificationService";
  description :=
    "User logs in or creates a BT ID, completes email/SMS verification. Generates events: login_success, account_created, identity_verified.";
  estimated_duration := 3;
  substeps :=
    [("LoginOrRegistration", 1);
     ("OTPVerification", 2)];
  think_time := 5 |}.

Definition bt_step4 : step := {|
  step_number := 4;
  step_name := "BasketReview";
  service_name := "BasketReviewService";
  description :=
    "User reviews selected plan, evaluates add-ons (e.g. Complete Wi-Fi), and confirms basket contents. Generates events: basket_viewed, add_on_added, basket_value_updated.";
  estimated_duration := 3;
  substeps :=
    [("BasketSummaryLoad", 1);
     ("AddOnReviewAndConfirmation", 2)];
  think_time := 5 |}.

Definition bt_step5 : step := {|
  step_number := 5;
  step_name := "CheckoutPayment";
  service_name := "CheckoutPaymentService";
  description :=
    "User enters billing details, sets up Direct Debit, and authorises payment. Generates events: checkout_started, payment_method_added, payment_authorised, checkout_completed.";
  estimated_duration := 5;
  substeps :=
    [("BillingDetailsEntry", 2);
     ("DirectDebitSetupAndPayment", 3)];
  think_time := 5 |}.

Definition bt_step6 : step := {|
  step_number := 6;
  step_name := "OrderConfirmationProvisioning";
  service_name := "OrderConfirmationProvisioningService";
  description :=
    "User receives order confirmation, contract summary, and activation date. Generates events: order_confirmed, contract_value_recorded, provisioning_request_created.";
  estimated_duration := 2;
  substeps :=
    [("OrderConfirmationView", 1);
     ("ProvisioningRequestInitiated", 1)];
  think_time := 5 |}.

Definition bt : script := {|
  company := "Bt";
  domain := "www.bt.com";
  lsn := "BizObs_Bt_www.bt.com_Journey";
  ltn := "Bt_LoadTest_20260205";
  init_lsn := "BizObs-Journey-LoadTest";
  init_ltn := "Bt_Performance_Test_2026-02-05T09-19-25-622Z";
  error_simulation := false;
  steps := [bt_step1; bt_step2; bt_step3; bt_step4; bt_step5; bt_step6];
  total_steps := 6 |}.

Definition generated_scripts : list script := [argos; argos_short; bt].

End Script.

(** ** Observations on the event log *)

Module Obs.
Import LR.

Definition request_of (ev : event) : option request :=
  match ev with EvRequest r => Some r | _ => None end.

Definition tx_end_of (ev : event) : option (string * tx_status) :=
  match ev with EvTxEnd n st => Some (n, st) | _ => None end.

Definition error_of (ev : event) : option string :=
  match ev with EvError m => Some m | _ => None end.

Fixpoint collect {A} (f : event -> option A) (l : list event) : list A :=
  match l with
  | [] => []
  | ev :: l' =>
      match f ev with
      | Some a => a :: collect f l'
      | None => collect f l'
      end
  end.

(** The requests sent, the transactions closed and the errors logged,
    each in the order of the log. *)
Definition requests : list event -> list request := collect request_of.
Definition tx_ends : list event -> list (string * tx_status) := collect tx_end_of.
Definition errors : list event -> list string := collect error_of.

Definition header (name : string) (r : request) : option string :=
  assoc name (req_headers r).

Definition header_names (r : request) : list string :=
  List.map fst (req_headers r).

Definition body_field (k : string) (r : request) : option json :=
  json_field k (req_body r).

(** [journey.steps[0].stepNumber] of a step request. *)
Definition step_number_of (r : request) : option Z :=
  match body_field "journey" r with
  | Some j =>
      match json_field "steps" j with
      | Some (JArr (st :: _)) =>
          match json_field "stepNumber" st with
          | Some (JNum n) => Some n
          | _ => None
          end
      | _ => None
      end
  | None => None
  end.

(** What a request shows of the identifiers: the four headers and the
    four body fields. *)
Definition shows_ids (r : request) (c u n t : string) : Prop :=
  header "x-correlation-id" r = Some c
  /\ header "x-customer-id" r = Some u
  /\ header "x-session-id" r = Some n
  /\ header "x-trace-id" r = Some t
  /\ body_field "journeyId" r = Some (JStr c)
  /\ body_field "customerId" r = Some (JStr u)
  /\ body_field "sessionId" r = Some (JStr n)
  /\ body_field "traceId" r = Some (JStr t).

End Obs.

(** ** The events of one iteration, as a function of its inputs

  [step_events] lists what one step block appends to the log when it is
  entered with parameter table [P] (its [TSN] already saved) after [k]
  requests; [action_events] does the same for [Action].  That the code
  produces exactly these events is proved below ([exec_step_run],
  [exec_steps_run], [Action_run]). *)

Module Trace.
Import LR CLib Script.

Definition journey_tx : string := "Full_Customer_Journey".

Definition header_text (s : script) (e : env) (st : step) : string :=
  fmt_dt_test_header s (step_name st) (vuser_id e) "{correlation_id}".

Definition step_headers (e : env) (st : step) (h : string)
    (P : gmap string string) (k : nat) : list (string * string) :=
  let ev := eval_with e P k in
  [("X-dynaTrace", ev h);
   ("x-correlation-id", ev "{correlation_id}");
   ("x-customer-id", ev "{customer_id}");
   ("x-session-id", ev "{session_id}");
   ("x-trace-id", ev "{trace_id}");
   ("x-step-name", ev (step_name st));
   ("x-service-name", ev (service_name st));
   ("x-customer-segment", ev "{customer_segment}");
   ("x-traffic-source", ev "{traffic_source}");
   ("x-test-iteration", ev (ev "{pIteration}"));
   ("Content-Type", ev "application/json");
   ("User-Agent", ev "LoadRunner-BizObs-Agent/1.0")].

Definition step_request (s : script) (e : env) (st : step)
    (P : gmap string string) (k : nat) : request :=
  {| req_name := step_name st +:+ "_Journey_Step";
     req_url := eval_with e P k simulate_url;
     req_method := "POST";
     req_headers := step_headers e st (header_text s e st) P k;
     req_body := json_map (eval_with e P k) (step_body s st) |}.

(** The text of [{status}] once [k] requests have been sent. *)
Definition status_text (e : env) (P : gmap string string) (k : nat) : string :=
  eval_with e P k "{status}".

Definition verdict_events (e : env) (st : step) (P : gmap string string)
    (k : nat) : list event :=
  if 400 <=? atoi (status_text e P k) then
    [EvError ("Step " +:+ step_name st +:+ " failed with status: "
                +:+ status_text e P k);
     EvTxEnd (step_name st) LR_FAIL]
  else [EvTxEnd (step_name st) LR_PASS].

Definition step_events (s : script) (e : env) (st : step)
    (P : gmap string string) (k : nat) : list event :=
  [EvTxStart (step_name st);
   EvOutput ("Executing step: " +:+ step_name st +:+ " (Service: "
               +:+ service_name st +:+ ") for {customer_name}");
   EvRequest (step_request s e st P k)]
  ++ verdict_events e st P (S k)
  ++ [EvTxMisuse "{TSN}";
      EvOutput ("Completed step: {TSN} - Response time: "
                  +:+ fmt_d (tx_duration e "{TSN}" (S k)) +:+ " ms");
      EvThink (think_time st)].

Fixpoint steps_events (s : script) (e : env) (l : list step)
    (P : gmap string string) (k : nat) : list event :=
  match l with
  | [] => []
  | st :: l' =>
      step_events s e st (<["TSN" := step_name st]> P) k
        ++ steps_events s e l' (<["TSN" := step_name st]> P) (S k)
  end.

(** The requests and the verdicts among [steps_events]. *)
Fixpoint steps_requests (s : script) (e : env) (l : list step)
    (P : gmap string string) (k : nat) : list request :=
  match l with
  | [] => []
  | st :: l' =>
      step_request s e st (<["TSN" := step_name st]> P) k
        :: steps_requests s e l' (<["TSN" := step_name st]> P) (S k)
  end.

Definition step_verdict (e : env) (P : gmap string string) (k : nat)
    : tx_status :=
  if 400 <=? atoi (status_text e P k) then LR_FAIL else LR_PASS.

Fixpoint steps_verdicts (e : env) (l : list step)
    (P : gmap string string) (k : nat) : list (string * tx_status) :=
  match l with
  | [] => []
  | st :: l' =>
      (step_name st, step_verdict e (<["TSN" := step_name st]> P) (S k))
        :: steps_verdicts e l' (<["TSN" := step_name st]> P) (S k)
  end.

(** The parameter table and the header buffer after the steps [l]. *)
Fixpoint steps_params (l : list step) (P : gmap string string)
    : gmap string string :=
  match l with
  | [] => P
  | st :: l' => steps_params l' (<["TSN" := step_name st]> P)
  end.

Fixpoint steps_header (s : script) (e : env) (l : list step) (h : string)
    : string :=
  match l with
  | [] => h
  | st :: l' => steps_header s e l' (header_text s e st)
  end.

(** The identifiers written by [generate_ids] when [k] readings of the
    clock have been taken before. *)
Definition correlation_text (s : script) (e : env) (k : nat) : string :=
  fmt_correlation_id s (vuser_id e) (iteration_number e)
    (cast_int (time_now e k)).

Definition customer_text (e : env) (k : nat) : string :=
  fmt_customer_id (vuser_id e) (iteration_number e)
    (c_rem (cast_int (time_now e (S k))) 10000).

Definition session_text (s : script) (e : env) : string :=
  fmt_session_id s (vuser_id e) (iteration_number e).

Definition trace_text (s : script) (e : env) (k : nat) : string :=
  fmt_trace_id (correlation_text s e k) (cast_int (time_now e (S (S k)))).

Definition ids_params (s : script) (e : env) (k : nat)
    (P : gmap string string) : gmap string string :=
  <["trace_id" := trace_text s e k]>
    (<["session_id" := session_text s e]>
       (<["customer_id" := customer_text e k]>
          (<["correlation_id" := correlation_text s e k]> P))).

Definition journey_params (s : script) (e : env) (k : nat)
    (P : gmap string string) : gmap string string :=
  <["LTN" := ltn s]> (<["LSN" := lsn s]> (ids_params s e k P)).

Definition completion_request (s : script) (e : env)
    (P : gmap string string) (k : nat) (h : string) : request :=
  let ev := eval_with e P k in
  {| req_name := "Journey_Completion_Event";
     req_url := ev simulate_url;
     req_method := "POST";
     req_headers :=
       [("x-dynatrace-test", ev h);
        ("x-correlation-id", ev "{correlation_id}");
        ("Content-Type", ev "application/json")];
     req_body := json_map ev (completion_body s (ev "{TimeNow}")) |}.

Definition action_events (s : script) (e : env) (σ : state) : list event :=
  let P := journey_params s e (n_time σ) (params σ) in
  let k := n_requests σ in
  let n := length (steps s) in
  [EvTxStart journey_tx;
   EvOutput ("Starting journey for customer: {customer_name} ({customer_segment}) - Journey: "
               +:+ correlation_text s e (n_time σ))]
  ++ steps_events s e (steps s) P k
  ++ [EvTxEnd journey_tx LR_AUTO;
      EvOutput ("Journey completed for {customer_name} - Total time: "
                  +:+ fmt_d (tx_duration e journey_tx (k + n)%nat)
                  +:+ " ms, Correlation: {correlation_id}");
      EvRequest (completion_request s e (steps_params (steps s) P) (k + n)%nat
                   (steps_header s e (steps s) (dt_test_header σ)))].

(** *** Preconditions *)

(** Every text [sprintf] writes during the iteration fits its array. *)
Definition ids_fit (s : script) (e : env) (k : nat) : bool :=
  fits (capacity Buf_correlation_id) (correlation_text s e k)
  && fits (capacity Buf_customer_id) (customer_text e k)
  && fits (capacity Buf_session_id) (session_text s e)
  && fits (capacity Buf_trace_id) (trace_text s e k).

Definition headers_fit (s : script) (e : env) (l : list step) : bool :=
  forallb (fun st => fits (capacity Buf_dt_test_header) (header_text s e st)) l.

Definition buffers_fit (s : script) (e : env) (σ : state) : bool :=
  ids_fit s e (n_time σ) && headers_fit s e (steps s).

(** The state in which the runtime enters [Action]: no header is
    pending or automatic, no transaction is open, and the script has
    bound no [status] parameter. *)
Definition at_iteration_start (σ : state) : Prop :=
  hdr_next σ = [] /\ hdr_auto σ = [] /\ tx_open σ = []
  /\ params σ !! "status" = None.

(** Texts without an opening brace are left alone by the parameter
    substitution. *)
Definition brace_free (s : string) : bool :=
  all_chars (fun c => negb (Ascii.eqb c "{")) s.

(** A parameter name in a text [{name}]. *)
Definition name_chars (s : string) : bool :=
  all_chars (fun c => negb (Ascii.eqb c "{") && negb (Ascii.eqb c "}")) s.

(** What [{name}] is replaced with. *)
Definition param_or_text (value : string -> option string) (name : string)
    : string :=
  match value name with
  | Some v => v
  | None => "{" +:+ name +:+ "}"
  end.

(** The four identifiers as the parameter table has them. *)
Definition carries (P : gmap string string) (c u n t : string) : Prop :=
  P !! "correlation_id" = Some c /\ P !! "customer_id" = Some u
  /\ P !! "session_id" = Some n /\ P !! "trace_id" = Some t.

Definition step_ok (st : step) : bool :=
  brace_free (step_name st) && brace_free (service_name st)
  && negb (String.eqb (step_name st) journey_tx).

(** What the proofs use of the three scripts: plain labels, steps
    numbered from 1, pairwise different step and service names and a
    [totalSteps]
    literal equal to the number of steps. *)
Definition well_formed (s : script) : bool :=
  forallb step_ok (steps s)
  && brace_free (lsn s) && brace_free (ltn s) && brace_free (company s)
  && bool_decide (List.map step_number (steps s)
                  = List.map Z.of_nat (seq 1 (length (steps s))))
  && bool_decide (NoDup (List.map step_name (steps s)))
  && bool_decide (NoDup (List.map service_name (steps s)))
  && (total_steps s =? Z.of_nat (length (steps s))).

(** Two environments that may differ only in what happens once more
    than [n] requests have been sent, and in the cookies and random
    numbers. *)
Definition agree_until (n : nat) (e e' : env) : Prop :=
  vuser_id e = vuser_id e'
  /\ iteration_number e = iteration_number e'
  /\ (forall k, time_now e k = time_now e' k)
  /\ (forall name k, (k <= n)%nat -> ext_param e name k = ext_param e' name k)
  /\ (forall name k, (k <= n)%nat -> tx_duration e name k = tx_duration e' name k).

(** The names of the headers a step attaches, in the order of the
    calls. *)
Definition step_header_names : list string :=
  ["X-dynaTrace"; "x-correlation-id"; "x-customer-id"; "x-session-id";
   "x-trace-id"; "x-step-name"; "x-service-name"; "x-customer-segment";
   "x-traffic-source"; "x-test-iteration"; "Content-Type"; "User-Agent"].

End Trace.

(** ** The identifier contract in the words of the specification *)

Module Spec.

(** Decimal rendering of an integer. *)
Definition dec (z : Z) : string := NilZero.string_of_int (Z.to_int z).

Definition correlationId (runLabel : string)
    (workerId iterationNumber wallClockSeconds : Z) : string :=
  "LR_" +:+ runLabel +:+ "_" +:+ dec workerId +:+ "_" +:+ dec iterationNumber
    +:+ "_" +:+ dec wallClockSeconds.

Definition customerId (workerId iterationNumber wallClockSeconds : Z) : string :=
  "customer_" +:+ dec workerId +:+ "_" +:+ dec iterationNumber +:+ "_"
    +:+ dec (wallClockSeconds mod 10000).

Definition sessionId (journeyLabel : string) (workerId iterationNumber : Z)
    : string :=
  "session_" +:+ journeyLabel +:+ "_" +:+ dec workerId +:+ "_"
    +:+ dec iterationNumber.

Definition traceId (correlation : string) (wallClockSeconds : Z) : string :=
  "trace_" +:+ correlation +:+ "_" +:+ dec wallClockSeconds.

(** [k1=v1;k2=v2;...] *)
Fixpoint key_values (l : list (string * string)) : string :=
  match l with
  | [] => EmptyString
  | [(k, v)] => k +:+ "=" +:+ v
  | (k, v) :: l' => k +:+ "=" +:+ v +:+ ";" +:+ key_values l'
  end.

(** The tracing header: keys TSN, LSN, LTN, VU, SI, PC, AN, CID. *)
Definition tracing_header (stepName journeyLabel runLabel : string)
    (workerId : Z) (companyName correlation : string) : string :=
  key_values
    [("TSN", stepName); ("LSN", journeyLabel); ("LTN", runLabel);
     ("VU", dec workerId); ("SI", "LoadRunner"); ("PC", "BizObs-Demo");
     ("AN", companyName); ("CID", correlation)].

(** Pass below 400, Fail from 400 on. *)
Definition classify (httpStatus : Z) : LR.tx_status :=
  if httpStatus <? 400 then LR.LR_PASS else LR.LR_FAIL.

(** The address that goes with a catalog name: lower case, the space
    replaced by a dot, at [email.com]. *)
Definition lower (c : ascii) : ascii :=
  let n := nat_of_ascii c in
  if (65 <=? n)%nat && (n <=? 90)%nat then ascii_of_nat (n + 32) else c.

Fixpoint mailbox (name : string) : string :=
  match name with
  | EmptyString => EmptyString
  | String c name' =>
      String (if Ascii.eqb c " " then "."%char else lower c) (mailbox name')
  end.

Definition email_of_name (name : string) : string :=
  mailbox name +:+ "@email.com".

End Spec.

(** ** Sample environments *)

Module Inputs.
Import LR.

(** The status codes the sample server answers: 503 to the fourth
    request, 200 to the others. *)
Definition sample_codes (k : nat) : Z := if Nat.eqb k 4 then 503 else 200.

(** A virtual user 7 in its third iteration, at the second the first
    Argos script was generated, under a runtime that holds the status
    of the last response in [{status}]. *)
Definition sample_env : env := {|
  vuser_id := 7;
  iteration_number := 3;
  time_now := fun _ => 1767707283;
  rand_out := fun _ k => Z.of_nat (37 * k + 5);
  ext_param := fun name k =>
    if String.eqb name "status" then
      Some (if Nat.eqb k 4 then "503" else "200")
    else if String.eqb name "pIteration" then Some "3"
    else if String.eqb name "TimeNow" then Some "2026-01-06 13:48:03"
    else None;
  set_cookies := fun _ => ["JSESSIONID=1"];
  tx_duration := fun _ _ => 12;
  http_status := sample_codes
|}.

(** The same user when the completion event is answered by an error. *)
Definition sample_env_completion_fails : env := {|
  vuser_id := 7;
  iteration_number := 3;
  time_now := fun _ => 1767707283;
  rand_out := fun _ k => Z.of_nat (37 * k + 5);
  ext_param := fun name k =>
    if String.eqb name "status" then
      Some (if Nat.eqb k 4 then "503" else if Nat.eqb k 7 then "500" else "200")
    else if String.eqb name "pIteration" then Some "3"
    else if String.eqb name "TimeNow" then Some "2026-01-06 13:48:03"
    else None;
  set_cookies := fun _ => [];
  tx_duration := fun _ _ => 12;
  http_status := fun k =>
    if Nat.eqb k 4 then 503 else if Nat.eqb k 7 then 500 else 200
|}.

(** The same user under a runtime that holds what the test defines
    ([pIteration], [TimeNow]) and nothing named [status], as the
    scripts register none; the server answers 500 to every request. *)
Definition failing_server_env : env := {|
  vuser_id := 7;
  iteration_number := 3;
  time_now := fun _ => 1767707283;
  rand_out := fun _ k => Z.of_nat (37 * k + 5);
  ext_param := fun name k =>
    if String.eqb name "pIteration" then Some "3"
    else if String.eqb name "TimeNow" then Some "2026-01-06 13:48:03"
    else None;
  set_cookies := fun _ => [];
  tx_duration := fun _ _ => 12;
  http_status := fun _ => 500
|}.

(** Virtual user 1000 in its iteration 1000, same second. *)
Definition busy_env : env := {|
  vuser_id := 1000;
  iteration_number := 1000;
  time_now := fun _ => 1767707283;
  rand_out := fun _ k => Z.of_nat (37 * k + 5);
  ext_param := fun _ _ => None;
  set_cookies := fun _ => [];
  tx_duration := fun _ _ => 12;
  http_status := fun _ => 200
|}.

(** The sample user on 19 January 2038, a hundred seconds after the
    clock has passed [INT_MAX]. *)
Definition late_env : env := {|
  vuser_id := 7;
  iteration_number := 3;
  time_now := fun _ => 2147483748;
  rand_out := fun _ k => Z.of_nat (37 * k + 5);
  ext_param := fun _ _ => None;
  set_cookies := fun _ => [];
  tx_duration := fun _ _ => 12;
  http_status := fun _ => 200
|}.

(** Virtual user 12 when the clock moves on by a second between two
    readings, from 1767709999. *)
Definition ticking_env : env := {|
  vuser_id := 12;
  iteration_number := 3;
  time_now := fun k => 1767709999 + Z.of_nat k;
  rand_out := fun _ k => Z.of_nat (37 * k + 5);
  ext_param := fun _ _ => None;
  set_cookies := fun _ => [];
  tx_duration := fun _ _ => 12;
  http_status := fun _ => 200
|}.

End Inputs.

(** ** The life of a virtual user

  The runtime calls [vuser_init] once, [Action] once per iteration with
  the iteration number counted from 1, and [vuser_end] once. *)

Module Lifecycle.
Import LR CLib Script Trace Obs.

Definition think_of (ev : event) : option Z :=
  match ev with EvThink n => Some n | _ => None end.

Definition tx_start_of (ev : event) : option string :=
  match ev with EvTxStart n => Some n | _ => None end.

Definition misuse_of (ev : event) : option string :=
  match ev with EvTxMisuse n => Some n | _ => None end.

(** The pauses taken, the transactions opened and the transaction
    calls that found nothing to do, in the order of the log. *)
Definition thinks : list event -> list Z := collect think_of.
Definition tx_starts : list event -> list string := collect tx_start_of.
Definition misuses : list event -> list string := collect misuse_of.

(** What the log shows of the course of an iteration: the requests
    sent, the transactions closed and the pauses, in the order of the
    log. *)
Inductive mark : Type :=
| Sent (request_name : string)
| Closed (transaction : string)
| Paused (seconds : Z).

Definition mark_of (ev : event) : option mark :=
  match ev with
  | EvRequest r => Some (Sent (req_name r))
  | EvTxEnd n _ => Some (Closed n)
  | EvThink z => Some (Paused z)
  | _ => None
  end.

Definition timeline : list event -> list mark := collect mark_of.

(** The marks of one step block: its request, the end of its
    transaction, its pause. *)
Definition step_marks (st : step) : list mark :=
  [Sent (step_name st +:+ "_Journey_Step"); Closed (step_name st);
   Paused (think_time st)].

(** The names the block "Clear headers for next request" passes to
    [web_revert_auto_header]. *)
Definition reverted_names : list string :=
  ["x-dynatrace-test"; "x-correlation-id"; "x-customer-id"; "x-session-id";
   "x-trace-id"; "x-step-name"; "x-customer-segment"; "x-traffic-source";
   "x-test-iteration"].

Definition is_reverted (name : string) : bool :=
  existsb (fun n => String.eqb n name) reverted_names.

(** The parameters [Action] saves. *)
Definition saved_by_action : list string :=
  ["correlation_id"; "customer_id"; "session_id"; "trace_id";
   "LSN"; "LTN"; "TSN"].

(** The replay settings of [vuser_init], in the order of the calls. *)
Definition init_settings : list (string * string) :=
  [("max_html_param_len", "1024000"); ("max_retries", "3");
   ("timeout.Receive", "30"); ("user_agent", "LoadRunner-BizObs-Agent/1.0")].

(** The environment of the virtual user in its iteration [i]. *)
Definition with_iteration (e : env) (i : Z) : env := {|
  vuser_id := vuser_id e;
  iteration_number := i;
  time_now := time_now e;
  rand_out := rand_out e;
  ext_param := ext_param e;
  set_cookies := set_cookies e;
  tx_duration := tx_duration e;
  http_status := http_status e
|}.

(** [n] iterations, numbered from [first]. *)
Fixpoint iterations (s : script) (e : env) (first : Z) (n : nat) : M unit :=
  match n with
  | O => mret tt
  | S n' =>
      Action s (with_iteration e first);; iterations s e (first + 1) n'
  end.

Definition run_vuser (s : script) (e : env) (n : nat) : M Z :=
  vuser_init s e;; iterations s e 1 n;; vuser_end s.

(** The texts of [n] iterations numbered from [first] fit their arrays,
    [k] readings of the clock having been taken before. *)
Fixpoint run_fits (s : script) (e : env) (first : Z) (n k : nat) : bool :=
  match n with
  | O => true
  | S n' =>
      ids_fit s (with_iteration e first) k
      && headers_fit s (with_iteration e first) (steps s)
      && run_fits s e (first + 1) n' (S (S (S k)))
  end.

(** The messages of failed steps when [code k] is the status seen after
    [k] requests and [k] requests were sent before the first step of
    [l]. *)
Fixpoint failure_messages (code : nat -> Z) (l : list step) (k : nat)
    : list string :=
  match l with
  | [] => []
  | st :: l' =>
      (if 400 <=? code (S k) then
         ["Step " +:+ step_name st +:+ " failed with status: "
            +:+ fmt_d (code (S k))]
       else [])
      ++ failure_messages code l' (S k)
  end.

(** The cookie jar after the steps [l]: each step block ends by
    emptying it. *)
Definition jar_after_steps (l : list step) (jar : list string) : list string :=
  match l with
  | [] => jar
  | _ => []
  end.

(** *** The state after each block

    [step_state], [ids_state] and [action_state] give every field of
    the state a block leaves when it is entered as [Action] enters it;
    that the code computes them is [exec_step_state],
    [generate_ids_state] and [Action_state] below. *)

Definition step_state (s : script) (e : env) (st : step) (σ : state) : state := {|
  params := <["TSN" := step_name st]> (params σ);
  hdr_next := [];
  hdr_auto := [];
  cookies := [];
  tx_open := [journey_tx];
  settings := settings σ;
  log := log σ
         ++ step_events s e st (<["TSN" := step_name st]> (params σ))
              (n_requests σ);
  n_requests := S (n_requests σ);
  n_time := n_time σ;
  n_rand := n_rand σ;
  rand_seed := rand_seed σ;
  dt_test_header := header_text s e st;
  correlation_id := correlation_id σ;
  customer_id := customer_id σ;
  session_id := session_id σ;
  trace_id := trace_id σ
|}.

Fixpoint steps_state (s : script) (e : env) (l : list step) (σ : state)
    : state :=
  match l with
  | [] => σ
  | st :: l' => steps_state s e l' (step_state s e st σ)
  end.

Definition ids_state (s : script) (e : env) (σ : state) : state := {|
  params := ids_params s e (n_time σ) (params σ);
  hdr_next := hdr_next σ;
  hdr_auto := hdr_auto σ;
  cookies := cookies σ;
  tx_open := tx_open σ;
  settings := settings σ;
  log := log σ;
  n_requests := n_requests σ;
  n_time := S (S (S (n_time σ)));
  n_rand := n_rand σ;
  rand_seed := rand_seed σ;
  dt_test_header := dt_test_header σ;
  correlation_id := correlation_text s e (n_time σ);
  customer_id := customer_text e (n_time σ);
  session_id := session_text s e;
  trace_id := trace_text s e (n_time σ)
|}.

(** The state in which the first step block is entered. *)
Definition journey_state (s : script) (e : env) (σ : state) : state := {|
  params := journey_params s e (n_time σ) (params σ);
  hdr_next := [];
  hdr_auto := [];
  cookies := cookies σ;
  tx_open := [journey_tx];
  settings := settings σ;
  log := log σ
         ++ [EvTxStart journey_tx;
             EvOutput ("Starting journey for customer: {customer_name} ({customer_segment}) - Journey: "
                         +:+ correlation_text s e (n_time σ))];
  n_requests := n_requests σ;
  n_time := S (S (S (n_time σ)));
  n_rand := n_rand σ;
  rand_seed := rand_seed σ;
  dt_test_header := dt_test_header σ;
  correlation_id := correlation_text s e (n_time σ);
  customer_id := customer_text e (n_time σ);
  session_id := session_text s e;
  trace_id := trace_text s e (n_time σ)
|}.

Definition action_state (s : script) (e : env) (σ : state) : state :=
  let σ3 := steps_state s e (steps s) (journey_state s e σ) in
  {| params := params σ3;
     hdr_next := [];
     hdr_auto := [];
     cookies := cookies σ3 ++ set_cookies e (n_requests σ3);
     tx_open := [];
     settings := settings σ3;
     log := log σ3
            ++ [EvTxEnd journey_tx LR_AUTO;
                EvOutput ("Journey completed for {customer_name} - Total time: "
                            +:+ fmt_d (tx_duration e journey_tx (n_requests σ3))
                            +:+ " ms, Correlation: {correlation_id}");
                EvRequest (completion_request s e (params σ3) (n_requests σ3)
                             (dt_test_header σ3))];
     n_requests := S (n_requests σ3);
     n_time := n_time σ3;
     n_rand := n_rand σ3;
     rand_seed := rand_seed σ3;
     dt_test_header := dt_test_header σ3;
     correlation_id := correlation_id σ3;
     customer_id := customer_id σ3;
     session_id := session_id σ3;
     trace_id := trace_id σ3 |}.

(** The transactions open when each request is sent: the name of the
    request with the open transactions, innermost first, starting from
    the open transactions [open]. *)
Fixpoint open_at_requests (l : list event) (open : list string)
    : list (string * list string) :=
  match l with
  | [] => []
  | ev :: l' =>
      match ev with
      | EvTxStart n => open_at_requests l' (n :: open)
      | EvTxEnd n _ =>
          open_at_requests l'
            (List.filter (fun m => negb (String.eqb n m)) open)
      | EvRequest r => (req_name r, open) :: open_at_requests l' open
      | _ => open_at_requests l' open
      end
  end.

Fixpoint open_after (l : list event) (open : list string) : list string :=
  match l with
  | [] => open
  | ev :: l' =>
      match ev with
      | EvTxStart n => open_after l' (n :: open)
      | EvTxEnd n _ =>
          open_after l' (List.filter (fun m => negb (String.eqb n m)) open)
      | _ => open_after l' open
      end
  end.

(** *** The arrays *)

Definition overflows (bt : buffer * string) : bool :=
  negb (fits (capacity (fst bt)) (snd bt)).

(** The texts [Action] formats into the arrays, in the order of the
    [sprintf] calls, when [k] readings of the clock were taken before. *)
Definition formatted_texts (s : script) (e : env) (k : nat)
    : list (buffer * string) :=
  [(Buf_correlation_id, correlation_text s e k);
   (Buf_customer_id, customer_text e k);
   (Buf_session_id, session_text s e);
   (Buf_trace_id, trace_text s e k)]
  ++ List.map (fun st => (Buf_dt_test_header, header_text s e st)) (steps s).

Definition first_overflow (s : script) (e : env) (k : nat)
    : option (buffer * string) :=
  List.find overflows (formatted_texts s e k).

(** [journey.customerProfile.<k>] of a step request. *)
Definition profile_field (k : string) (r : request) : option json :=
  match body_field "journey" r with
  | Some j =>
      match json_field "customerProfile" j with
      | Some p => json_field k p
      | None => None
      end
  | None => None
  end.

End Lifecycle.

(** ** Proof steps used throughout *)

Module Tactics.
Import LR CLib Script Trace.

(** The value of a digit character. *)
Ltac eval_digit :=
  unfold digit_val;
  repeat match goal with
  | |- context [nat_of_ascii ?c] =>
      let v := eval vm_compute in (nat_of_ascii c) in
      change (nat_of_ascii c) with v
  end.


(** Unfolding of the monad and of the runtime calls, down to updates of
    the fields of the state. *)
Ltac run_calls :=
  cbv [mbind mret M_bind M_ret bind ret gets modify
       lr_save_string lr_eval_string lr_output_message lr_error_message
       lr_get_vuser_id lr_get_iteration_number c_time c_srand c_rand
       lr_think_time lr_start_transaction lr_end_transaction
       lr_get_transaction_duration web_add_header web_revert_auto_header
       web_cleanup_cookies web_custom_request web_set
       web_set_max_html_param_len web_set_max_retries web_set_timeout
       web_set_user_agent].

Ltac run_fields :=
  cbv [start_tx end_tx is_open add_header send_request make_request eval_in
       emit store load set_params set_hdr_next set_hdr_auto set_cookie_jar
       set_tx_open set_settings set_rand tick_requests tick_time
       params hdr_next hdr_auto cookies tx_open settings log n_requests
       n_time n_rand rand_seed dt_test_header correlation_id customer_id
       session_id trace_id].

(** Counting the characters of a formatted text: the lengths of the
    [%d] fields are kept as unknowns, [length_app] being the length of
    an append. *)
Ltac hide_decimals :=
  repeat match goal with
  | |- context [String.length (fmt_d ?z)] =>
      let n := fresh "n" in
      let E := fresh "E" in
      remember (String.length (fmt_d z)) as n eqn:E in *; clear E
  end.

Ltac count_chars length_app :=
  unfold trace_text, correlation_text, customer_text, session_text,
    header_text, fmt_correlation_id, fmt_customer_id, fmt_session_id,
    fmt_trace_id, fmt_dt_test_header;
  rewrite !length_app; hide_decimals; simpl; lia.

End Tactics.

(** ** Facts about the C library pieces *)

Module CLibFacts.
Import CLib Tactics.

Lemma all_chars_app p a b :
  all_chars p (a +:+ b) = all_chars p a && all_chars p b.
Proof.
  induction a as [|c a IH]; simpl; [reflexivity|].
  rewrite IH. apply andb_assoc.
Qed.

Lemma all_chars_weaken (p q : ascii -> bool) s :
  (forall c, p c = true -> q c = true) ->
  all_chars p s = true -> all_chars q s = true.
Proof.
  intros Hpq. induction s as [|c s IH]; simpl; [reflexivity|].
  intros [Hc Hs]%andb_true_iff. rewrite (Hpq _ Hc), (IH Hs). reflexivity.
Qed.

Lemma string_of_uint_digits d :
  all_chars is_digit (NilEmpty.string_of_uint d) = true.
Proof. induction d; simpl; auto. Qed.

Lemma nilzero_string_of_uint_digits d :
  all_chars is_digit (NilZero.string_of_uint d) = true.
Proof. destruct d; try reflexivity; apply (string_of_uint_digits (_ _)). Qed.

Lemma fmt_d_chars z : all_chars decimal_char (fmt_d z) = true.
Proof.
  assert (Hd : forall d, all_chars decimal_char (NilZero.string_of_uint d) = true).
  { intros d. apply all_chars_weaken with (p := is_digit).
    - intros c Hc. unfold decimal_char. rewrite Hc. reflexivity.
    - apply nilzero_string_of_uint_digits. }
  unfold fmt_d. destruct z as [|p|p]; simpl; auto.
Qed.

(** *** [atoi] reads back what [%d] wrote *)

Lemma atoi_digits_acc d p :
  atoi_digits (Z.pos p) (NilEmpty.string_of_uint d)
  = Z.pos (Pos.of_uint_acc d p).
Proof.
  revert p. induction d; intros p; simpl; try reflexivity;
    rewrite <- IHd; f_equal; eval_digit; lia.
Qed.

Lemma atoi_digits_uint d :
  atoi_digits 0 (NilEmpty.string_of_uint d) = Z.of_N (Pos.of_uint d).
Proof.
  induction d; simpl; try reflexivity; try exact IHd;
    rewrite <- atoi_digits_acc; f_equal.
Qed.

Lemma atoi_unsigned d :
  atoi_value (NilEmpty.string_of_uint d)
  = atoi_digits 0 (NilEmpty.string_of_uint d).
Proof. destruct d; reflexivity. Qed.

Lemma atoi_value_fmt_d z : atoi_value (fmt_d z) = z.
Proof.
  unfold fmt_d. destruct z as [|p|p]; [reflexivity| |].
  - pose proof (DecimalPos.Unsigned.to_uint_nonnil p) as Hn.
    simpl. unfold NilZero.string_of_uint.
    destruct (Pos.to_uint p) eqn:E; try contradiction;
      rewrite <- E; rewrite atoi_unsigned;
      rewrite atoi_digits_uint, DecimalPos.Unsigned.of_to; reflexivity.
  - pose proof (DecimalPos.Unsigned.to_uint_nonnil p) as Hn.
    simpl. unfold NilZero.string_of_uint.
    destruct (Pos.to_uint p) eqn:E; try contradiction;
      rewrite <- E; change (- atoi_digits 0 (NilEmpty.string_of_uint (Pos.to_uint p)) = Z.neg p);
      rewrite atoi_digits_uint, DecimalPos.Unsigned.of_to; reflexivity.
Qed.

Lemma fmt_d_inj a b : fmt_d a = fmt_d b -> a = b.
Proof.
  intros H. rewrite <- (atoi_value_fmt_d a), <- (atoi_value_fmt_d b), H.
  reflexivity.
Qed.

Lemma cast_int_small z : in_int_range z -> cast_int z = z.
Proof.
  unfold in_int_range, INT_MIN, INT_MAX, cast_int. intros H.
  rewrite Z.mod_small by lia. lia.
Qed.

(** Within [int], [atoi] reads back what [%d] wrote. *)
Lemma atoi_fmt_d z : in_int_range z -> atoi (fmt_d z) = z.
Proof.
  intros H. unfold atoi, strtol. rewrite atoi_value_fmt_d.
  pose proof H as H'. unfold in_int_range, INT_MIN, INT_MAX in H'.
  unfold LONG_MIN, LONG_MAX.
  rewrite Z.min_r, Z.max_r by lia. apply cast_int_small. exact H.
Qed.

End CLibFacts.

(** ** The template against the text of the scripts *)

Module Examples.
Import LR CLib Script Trace Obs Inputs.

Example fmt_d_samples :
  fmt_d 0 = "0" /\ fmt_d 42 = "42" /\ fmt_d (-7) = "-7"
  /\ fmt_d 1767707283 = "1767707283".
Proof. repeat split; reflexivity. Qed.

Example atoi_samples :
  atoi "200" = 200 /\ atoi " -15x" = -15 /\ atoi "{status}" = 0
  /\ atoi "503 Service Unavailable" = 503
  /\ atoi "2147483647" = 2147483647 /\ atoi "2147483648" = -2147483648.
Proof. repeat split; reflexivity. Qed.

Example cast_int_samples :
  cast_int 1767707283 = 1767707283 /\ cast_int 2147483648 = -2147483648
  /\ cast_uint 1767707290 = 1767707290 /\ cast_uint 4294967308 = 12.
Proof. repeat split; reflexivity. Qed.

(** The format strings of [Argos_2026-01-06T13-48-03-019Z]. *)
Example argos_formats v i t tsn c :
  fmt_correlation_id argos v i t
  = "LR_Argos_LoadTest_20260106_" +:+ fmt_d v +:+ "_" +:+ fmt_d i +:+ "_"
      +:+ fmt_d t
  /\ fmt_session_id argos v i
     = "session_BizObs_Argos_www.Argos.co.uk_Journey_" +:+ fmt_d v +:+ "_"
         +:+ fmt_d i
  /\ fmt_dt_test_header argos tsn v c
     = "TSN=" +:+ tsn
         +:+ ";LSN=BizObs_Argos_www.Argos.co.uk_Journey;LTN=Argos_LoadTest_20260106;VU="
         +:+ fmt_d v +:+ ";SI=LoadRunner;PC=BizObs-Demo;AN=Argos;CID=" +:+ c.
Proof. repeat split; reflexivity. Qed.

(** The format strings of [Bt_2026-02-05T09-19-25-621Z]. *)
Example bt_formats v i t tsn c :
  fmt_correlation_id bt v i t
  = "LR_Bt_LoadTest_20260205_" +:+ fmt_d v +:+ "_" +:+ fmt_d i +:+ "_"
      +:+ fmt_d t
  /\ fmt_session_id bt v i
     = "session_BizObs_Bt_www.bt.com_Journey_" +:+ fmt_d v +:+ "_" +:+ fmt_d i
  /\ fmt_dt_test_header bt tsn v c
     = "TSN=" +:+ tsn
         +:+ ";LSN=BizObs_Bt_www.bt.com_Journey;LTN=Bt_LoadTest_20260205;VU="
         +:+ fmt_d v +:+ ";SI=LoadRunner;PC=BizObs-Demo;AN=Bt;CID=" +:+ c.
Proof. repeat split; reflexivity. Qed.

Example journeys :
  List.map step_name (steps argos)
  = ["ProductDiscovery"; "BasketManagement"; "CheckoutInitiation";
     "PaymentProcessing"; "FulfilmentAllocation"; "DeliveryCompletion"]
  /\ List.map think_time (steps argos) = [5; 5; 5; 5; 5; 1]
  /\ List.map step_name (steps argos_short)
     = ["ProductDiscovery"; "BasketManagement"]
  /\ List.map think_time (steps argos_short) = [4; 3]
  /\ List.map step_name (steps bt)
     = ["ComparisonClickthrough"; "PlanSelection"; "IdentityVerification";
        "BasketReview"; "CheckoutPayment"; "OrderConfirmationProvisioning"].
Proof. repeat split; reflexivity. Qed.

Example catalog_pairs :
  List.map Spec.email_of_name customer_names = customer_emails.
Proof. reflexivity. Qed.

(** One iteration of the Argos journey for the sample user, after
    [vuser_init]: the fourth step is answered 503. *)
Example argos_sample_iteration :
  match vuser_init argos sample_env initial_state with
  | Ok _ σ0 =>
      match Action argos sample_env σ0 with
      | Ok r σ =>
          r = 0
          /\ tx_ends (log σ)
             = [("ProductDiscovery", LR_PASS); ("BasketManagement", LR_PASS);
                ("CheckoutInitiation", LR_PASS); ("PaymentProcessing", LR_FAIL);
                ("FulfilmentAllocation", LR_PASS); ("DeliveryCompletion", LR_PASS);
                ("Full_Customer_Journey", LR_AUTO)]
          /\ errors (log σ) = ["Step PaymentProcessing failed with status: 503"]
          /\ List.map req_name (requests (log σ))
             = ["ProductDiscovery_Journey_Step"; "BasketManagement_Journey_Step";
                "CheckoutInitiation_Journey_Step"; "PaymentProcessing_Journey_Step";
                "FulfilmentAllocation_Journey_Step"; "DeliveryCompletion_Journey_Step";
                "Journey_Completion_Event"]
          /\ List.map (header "x-step-name") (requests (log σ))
             = [Some "ProductDiscovery"; Some "BasketManagement";
                Some "CheckoutInitiation"; Some "PaymentProcessing";
                Some "FulfilmentAllocation"; Some "DeliveryCompletion"; None]
          /\ hdr_next σ = [] /\ cookies σ = ["JSESSIONID=1"]
      | Fault _ => False
      end
  | Fault _ => False
  end.
Proof. vm_compute. repeat split; reflexivity. Qed.

(** The trace id of the Argos script outgrows its array as soon as the
    worker id and the iteration number have eight digits together. *)
Example argos_id_lengths :
  String.length (trace_text argos sample_env 0) = 58%nat
  /\ String.length (trace_text argos busy_env 0) = 64%nat
  /\ ids_fit argos sample_env 0 = true
  /\ ids_fit argos busy_env 0 = false
  /\ ids_fit bt busy_env 0 = true.
Proof. vm_compute. repeat split; reflexivity. Qed.

End Examples.

(** ** Running the scripts: what each block does to the state *)

Module Run.
Import LR CLib CLibFacts Script Trace Tactics.

Lemma generated_well_formed s :
  In s generated_scripts -> well_formed s = true.
Proof.
  intros [<-|[<-|[<-|[]]]]; vm_compute; reflexivity.
Qed.

(** *** Stepping through the monad *)

Lemma run_bind {A B} (m : M A) (k : A -> M B) σ :
  (m ≫= k) σ = match m σ with Ok a σ' => k a σ' | Fault f => Fault f end.
Proof. reflexivity. Qed.

Lemma run_sprintf_ok b text σ :
  fits (capacity b) text = true -> sprintf b text σ = Ok tt (store b text σ).
Proof. intros H. unfold sprintf. rewrite H. reflexivity. Qed.

Lemma run_sprintf_overflow b text σ :
  fits (capacity b) text = false ->
  sprintf b text σ = Fault (BufferOverflow b text).
Proof. intros H. unfold sprintf. rewrite H. reflexivity. Qed.

(** *** One step *)

Lemma brace_free_not_tsn name :
  brace_free name = true -> String.eqb "{TSN}" name = false.
Proof.
  intros H. destruct (String.eqb_spec "{TSN}" name) as [<-|]; [|reflexivity].
  discriminate H.
Qed.

Lemma exec_step_run s e st σ :
  step_ok st = true ->
  fits (capacity Buf_dt_test_header) (header_text s e st) = true ->
  hdr_next σ = [] -> hdr_auto σ = [] -> tx_open σ = [journey_tx] ->
  exists σ',
    exec_step s e st σ = Ok tt σ'
    /\ log σ' = log σ
         ++ step_events s e st (<["TSN" := step_name st]> (params σ)) (n_requests σ)
    /\ params σ' = <["TSN" := step_name st]> (params σ)
    /\ n_requests σ' = S (n_requests σ)
    /\ hdr_next σ' = [] /\ hdr_auto σ' = [] /\ tx_open σ' = [journey_tx]
    /\ dt_test_header σ' = header_text s e st
    /\ correlation_id σ' = correlation_id σ
    /\ customer_id σ' = customer_id σ
    /\ session_id σ' = session_id σ
    /\ trace_id σ' = trace_id σ
    /\ n_time σ' = n_time σ
    /\ cookies σ' = [].
Proof.
  intros Hok Hfit Hn Ha Ht.
  apply andb_true_iff in Hok as [Hok Hne]. apply negb_true_iff in Hne.
  destruct σ as [P hn ha ck tx se lg nr nt nrd sd dt co cu ss tr].
  simpl in Hn, Ha, Ht. subst hn ha tx.
  unfold exec_step, add_step_headers, check_response, clear_headers.
  unfold header_text in Hfit.
  run_calls. unfold sprintf. rewrite Hfit. run_calls. run_fields.
  unfold step_events, verdict_events, status_text.
  apply andb_true_iff in Hok as [Hname Hservice].
  pose proof (brace_free_not_tsn _ Hname) as Htsn.
  assert (Hj : String.eqb "{TSN}" journey_tx = false) by reflexivity.
  destruct (400 <=? atoi _) eqn:E; run_fields;
    repeat (progress (rewrite ?Hne, ?String.eqb_refl, ?Htsn, ?Hj;
                      cbn [orb negb app List.filter existsb]));
    (eexists; split; [reflexivity|]); run_fields;
    repeat split; rewrite <- ?app_assoc; reflexivity.
Qed.

(** *** The steps in sequence *)

Lemma exec_steps_run s e l : forall σ,
  forallb step_ok l = true ->
  headers_fit s e l = true ->
  hdr_next σ = [] -> hdr_auto σ = [] -> tx_open σ = [journey_tx] ->
  exists σ',
    exec_steps s e l σ = Ok tt σ'
    /\ log σ' = log σ ++ steps_events s e l (params σ) (n_requests σ)
    /\ params σ' = steps_params l (params σ)
    /\ n_requests σ' = (n_requests σ + length l)%nat
    /\ hdr_next σ' = [] /\ hdr_auto σ' = [] /\ tx_open σ' = [journey_tx]
    /\ dt_test_header σ' = steps_header s e l (dt_test_header σ)
    /\ correlation_id σ' = correlation_id σ
    /\ customer_id σ' = customer_id σ
    /\ session_id σ' = session_id σ
    /\ trace_id σ' = trace_id σ
    /\ n_time σ' = n_time σ.
Proof.
  induction l as [|st l IH]; intros σ Hok Hfit Hn Ha Ht.
  - exists σ. simpl. rewrite app_nil_r, Nat.add_0_r. repeat split; assumption.
  - simpl in Hok, Hfit.
    apply andb_true_iff in Hok as [Hst Hok].
    apply andb_true_iff in Hfit as [Hh Hfit].
    destruct (exec_step_run s e st σ Hst Hh Hn Ha Ht)
      as (σ1 & E1 & L1 & P1 & R1 & Hn1 & Ha1 & Ht1 & D1 & C1 & U1 & S1 & T1 & N1
          & _).
    destruct (IH σ1 Hok Hfit Hn1 Ha1 Ht1)
      as (σ2 & E2 & L2 & P2 & R2 & Hn2 & Ha2 & Ht2 & D2 & C2 & U2 & S2 & T2 & N2).
    exists σ2. simpl exec_steps. rewrite run_bind, E1.
    split; [exact E2|].
    rewrite L2, L1, P2, P1, R2, R1, D2, D1, C2, C1, U2, U1, S2, S1, T2, T1, N2, N1.
    simpl. rewrite <- app_assoc, Nat.add_succ_r.
    repeat split; assumption.
Qed.

(** *** The identifiers *)

Lemma generate_ids_run s e σ :
  ids_fit s e (n_time σ) = true ->
  exists σ',
    generate_ids s e σ = Ok tt σ'
    /\ params σ' = ids_params s e (n_time σ) (params σ)
    /\ correlation_id σ' = correlation_text s e (n_time σ)
    /\ customer_id σ' = customer_text e (n_time σ)
    /\ session_id σ' = session_text s e
    /\ trace_id σ' = trace_text s e (n_time σ)
    /\ log σ' = log σ /\ n_requests σ' = n_requests σ
    /\ hdr_next σ' = hdr_next σ /\ hdr_auto σ' = hdr_auto σ
    /\ tx_open σ' = tx_open σ
    /\ dt_test_header σ' = dt_test_header σ
    /\ n_time σ' = S (S (S (n_time σ))).
Proof.
  unfold ids_fit. intros Hfit.
  apply andb_true_iff in Hfit as [Hfit Htr].
  apply andb_true_iff in Hfit as [Hfit Hse].
  apply andb_true_iff in Hfit as [Hco Hcu].
  destruct σ as [P hn ha ck tx se lg nr nt nrd sd dt co cu ss tr].
  unfold ids_params, trace_text, correlation_text, customer_text,
    session_text in *.
  cbn [n_time] in *.
  unfold generate_ids. run_calls. run_fields.
  unfold sprintf. rewrite Hco. run_calls. run_fields.
  rewrite Hcu. run_calls. run_fields.
  rewrite Hse. run_calls. run_fields.
  rewrite Htr. run_calls. run_fields.
  eexists; split; [reflexivity|]. run_fields.
  repeat split; reflexivity.
Qed.

(** *** The whole iteration *)

Lemma Action_run s e σ :
  forallb step_ok (steps s) = true ->
  buffers_fit s e σ = true ->
  at_iteration_start σ ->
  exists σ',
    Action s e σ = Ok 0 σ'
    /\ log σ' = log σ ++ action_events s e σ
    /\ params σ'
       = steps_params (steps s) (journey_params s e (n_time σ) (params σ))
    /\ correlation_id σ' = correlation_text s e (n_time σ)
    /\ customer_id σ' = customer_text e (n_time σ)
    /\ session_id σ' = session_text s e
    /\ trace_id σ' = trace_text s e (n_time σ)
    /\ hdr_next σ' = [] /\ hdr_auto σ' = [] /\ tx_open σ' = []
    /\ n_requests σ' = S (n_requests σ + length (steps s))
    /\ n_time σ' = S (S (S (n_time σ))).
Proof.
  intros Hok Hfit (Hn & Ha & Ht & _).
  apply andb_true_iff in Hfit as [Hids Hhdr].
  destruct (generate_ids_run s e σ Hids)
    as (σ1 & E1 & P1 & C1 & U1 & S1 & T1 & L1 & R1 & Hn1 & Ha1 & Ht1 & D1 & N1).
  unfold Action. rewrite run_bind, E1.
  destruct σ1 as [P' hn ha ck tx se lg nr nt nrd sd dt co cu ss tr].
  cbn [params correlation_id customer_id session_id trace_id log n_requests
       hdr_next hdr_auto tx_open dt_test_header n_time] in *.
  subst P' co cu ss tr lg nr hn ha tx dt nt. rewrite Hn, Ha, Ht.
  run_calls. run_fields. cbn [existsb app].
  match goal with
  | |- context [exec_steps s e (steps s) ?Σ] =>
      destruct (exec_steps_run s e (steps s) Σ Hok Hhdr eq_refl eq_refl eq_refl)
        as (σ3 & E3 & L3 & P3 & R3 & Hn3 & Ha3 & Ht3 & D3 & C3 & U3 & S3 & T3 & N3);
      rewrite E3
  end.
  destruct σ3 as [P' hn ha ck' tx se' lg nr nt' nrd' sd' dt co cu ss tr].
  cbn [params correlation_id customer_id session_id trace_id log n_requests
       hdr_next hdr_auto tx_open dt_test_header n_time] in *.
  subst P' co cu ss tr lg nr hn ha tx dt nt'.
  run_fields. cbn [existsb app List.filter].
  rewrite String.eqb_refl. cbn [orb negb].
  eexists; split; [reflexivity|]. run_fields.
  unfold action_events. cbn [n_time params n_requests dt_test_header].
  rewrite <- !app_assoc. repeat split; reflexivity.
Qed.

(** The block that clears the headers only empties the cookie jar when
    no automatic header is registered: the headers attached with
    [web_add_header] went with the request. *)
Lemma clear_headers_run σ :
  hdr_auto σ = [] ->
  clear_headers σ = Ok tt (set_cookie_jar (fun _ => []) σ).
Proof.
  intros Ha. destruct σ as [P hn ha ck tx se lg nr nt nrd sd dt co cu ss tr].
  cbn [hdr_auto] in Ha. subst ha.
  unfold clear_headers. run_calls. run_fields. reflexivity.
Qed.

End Run.

(** ** Parameter substitution and the observations of a run *)

Module Facts.
Import LR CLib CLibFacts Script Trace Obs.

Lemma append_cons c a b : String c a +:+ b = String c (a +:+ b).
Proof. reflexivity. Qed.

Lemma append_nil_r s : s +:+ EmptyString = s.
Proof.
  induction s as [|c s IH]; [reflexivity|].
  rewrite append_cons, IH. reflexivity.
Qed.

Lemma append_assoc a b c : (a +:+ b) +:+ c = a +:+ (b +:+ c).
Proof.
  induction a as [|x a IH]; [reflexivity|].
  rewrite !append_cons, IH. reflexivity.
Qed.

Lemma append_length a b :
  String.length (a +:+ b) = (String.length a + String.length b)%nat.
Proof.
  induction a as [|x a IH]; [reflexivity|].
  rewrite append_cons. simpl. rewrite IH. reflexivity.
Qed.

(** *** Substitution *)

Lemma subst_plain value a b :
  brace_free a = true ->
  subst_params value (a +:+ b) None = a +:+ subst_params value b None.
Proof.
  unfold brace_free. induction a as [|c a IH]; [reflexivity|].
  rewrite !append_cons. simpl.
  intros [Hc Ha]%andb_true_iff. apply negb_true_iff in Hc.
  rewrite Hc, (IH Ha). reflexivity.
Qed.

Lemma subst_brace_free value a :
  brace_free a = true -> subst_params value a None = a.
Proof.
  intros H. rewrite <- (append_nil_r a) at 1.
  rewrite subst_plain by exact H. apply append_nil_r.
Qed.

Lemma subst_name value n : forall acc rest,
  name_chars n = true ->
  subst_params value (n +:+ String "}" rest) (Some acc)
  = param_or_text value (acc +:+ n) +:+ subst_params value rest None.
Proof.
  unfold name_chars. induction n as [|c n IH]; intros acc rest.
  - intros _. simpl. rewrite append_nil_r. reflexivity.
  - rewrite append_cons. simpl.
    intros [[Ho Hc]%andb_true_iff Hn]%andb_true_iff.
    apply negb_true_iff in Ho, Hc. rewrite Ho, Hc.
    rewrite (IH _ _ Hn), append_assoc. reflexivity.
Qed.

Lemma subst_ext v1 v2 s : forall pending,
  (forall n, v1 n = v2 n) ->
  subst_params v1 s pending = subst_params v2 s pending.
Proof.
  intros pending H. revert pending.
  induction s as [|c s IH]; intros pending; simpl; [reflexivity|].
  destruct pending as [nm|]; rewrite ?IH, ?H; reflexivity.
Qed.

(** [{name}] evaluates to the parameter, or stays as it is. *)
Lemma eval_param e P k n :
  name_chars n = true ->
  eval_with e P k ("{" +:+ n +:+ "}") = param_or_text (param_value e P k) n.
Proof.
  intros H. unfold eval_with. simpl.
  rewrite (subst_name _ n EmptyString EmptyString H).
  simpl. apply append_nil_r.
Qed.

Lemma eval_bound e P k n v :
  name_chars n = true -> P !! n = Some v ->
  eval_with e P k ("{" +:+ n +:+ "}") = v.
Proof.
  intros H Hv. rewrite eval_param by exact H.
  unfold param_or_text, param_value. rewrite Hv. reflexivity.
Qed.

Lemma eval_plain e P k a :
  brace_free a = true -> eval_with e P k a = a.
Proof. apply subst_brace_free. Qed.

Lemma fmt_d_brace_free z : brace_free (fmt_d z) = true.
Proof.
  apply all_chars_weaken with (p := decimal_char); [|apply fmt_d_chars].
  intros c Hc. destruct (Ascii.eqb_spec c "{") as [->|]; [discriminate Hc|reflexivity].
Qed.

(** *** The parameter table during the steps *)

Lemma steps_params_other l : forall P n,
  n <> "TSN" -> steps_params l P !! n = P !! n.
Proof.
  induction l as [|st l IH]; intros P n Hn; simpl; [reflexivity|].
  rewrite IH by exact Hn. apply lookup_insert_ne. congruence.
Qed.

Lemma steps_params_snoc l st P :
  steps_params (l ++ [st]) P = <["TSN" := step_name st]> (steps_params l P).
Proof. revert P. induction l as [|x l IH]; intros P; simpl; [reflexivity|]. apply IH. Qed.

Lemma carries_tsn P x c u n t :
  carries P c u n t -> carries (<["TSN" := x]> P) c u n t.
Proof.
  unfold carries. intros (Hc & Hu & Hn & Ht).
  rewrite !lookup_insert_ne by discriminate. auto.
Qed.

Lemma carries_steps l P c u n t :
  carries P c u n t -> carries (steps_params l P) c u n t.
Proof.
  unfold carries. intros (Hc & Hu & Hn & Ht).
  rewrite !steps_params_other by discriminate. auto.
Qed.

Lemma carries_journey s e k P :
  carries (journey_params s e k P) (correlation_text s e k)
    (customer_text e k) (session_text s e) (trace_text s e k).
Proof.
  unfold carries, journey_params, ids_params.
  repeat split;
    repeat (first [ rewrite lookup_insert_eq; reflexivity
                  | rewrite lookup_insert_ne by discriminate ]).
Qed.

Lemma journey_params_other s e k P n :
  n <> "LTN" -> n <> "LSN" -> n <> "trace_id" -> n <> "session_id" ->
  n <> "customer_id" -> n <> "correlation_id" ->
  journey_params s e k P !! n = P !! n.
Proof.
  intros. unfold journey_params, ids_params.
  rewrite !lookup_insert_ne by congruence. reflexivity.
Qed.

(** *** Requests, verdicts and errors of the step events *)

Lemma collect_app {A} (f : event -> option A) l1 l2 :
  collect f (l1 ++ l2) = collect f l1 ++ collect f l2.
Proof.
  induction l1 as [|ev l1 IH]; simpl; [reflexivity|].
  rewrite IH. destruct (f ev); reflexivity.
Qed.

Lemma requests_step_events s e st P k :
  requests (step_events s e st P k) = [step_request s e st P k].
Proof.
  unfold step_events, verdict_events.
  destruct (400 <=? _); reflexivity.
Qed.

Lemma tx_ends_step_events s e st P k :
  tx_ends (step_events s e st P k) = [(step_name st, step_verdict e P (S k))].
Proof.
  unfold step_events, verdict_events, step_verdict.
  destruct (400 <=? _); reflexivity.
Qed.

Lemma requests_steps_events s e l : forall P k,
  requests (steps_events s e l P k) = steps_requests s e l P k.
Proof.
  induction l as [|st l IH]; intros P k;
    cbn [steps_events steps_requests]; [reflexivity|].
  unfold requests in *. rewrite collect_app, IH.
  fold (requests (step_events s e st (<["TSN":=step_name st]> P) k)).
  rewrite requests_step_events. reflexivity.
Qed.

Lemma tx_ends_steps_events s e l : forall P k,
  tx_ends (steps_events s e l P k) = steps_verdicts e l P k.
Proof.
  induction l as [|st l IH]; intros P k;
    cbn [steps_events steps_verdicts]; [reflexivity|].
  unfold tx_ends in *. rewrite collect_app, IH.
  fold (tx_ends (step_events s e st (<["TSN":=step_name st]> P) k)).
  rewrite tx_ends_step_events. reflexivity.
Qed.

Lemma requests_action_events s e σ :
  requests (action_events s e σ)
  = steps_requests s e (steps s)
      (journey_params s e (n_time σ) (params σ)) (n_requests σ)
    ++ [completion_request s e
          (steps_params (steps s) (journey_params s e (n_time σ) (params σ)))
          (n_requests σ + length (steps s))
          (steps_header s e (steps s) (dt_test_header σ))].
Proof.
  unfold action_events. cbv zeta. unfold requests. rewrite !collect_app.
  fold (requests (steps_events s e (steps s)
          (journey_params s e (n_time σ) (params σ)) (n_requests σ))).
  rewrite requests_steps_events. reflexivity.
Qed.

Lemma tx_ends_action_events s e σ :
  tx_ends (action_events s e σ)
  = steps_verdicts e (steps s)
      (journey_params s e (n_time σ) (params σ)) (n_requests σ)
    ++ [(journey_tx, LR_AUTO)].
Proof.
  unfold action_events. cbv zeta. unfold tx_ends. rewrite !collect_app.
  fold (tx_ends (steps_events s e (steps s)
          (journey_params s e (n_time σ) (params σ)) (n_requests σ))).
  rewrite tx_ends_steps_events. reflexivity.
Qed.

(** The [i]-th step request is the request of the [i]-th step, made
    after [k + i] requests with the [TSN] of that step. *)
Lemma steps_requests_lookup s e l : forall P k i,
  steps_requests s e l P k !! i
  = (fun st => step_request s e st (steps_params (take (S i) l) P) (k + i))
      <$> l !! i.
Proof.
  induction l as [|st l IH]; intros P k i; [reflexivity|].
  destruct i as [|i]; simpl.
  - rewrite Nat.add_0_r. reflexivity.
  - rewrite IH, Nat.add_succ_r. reflexivity.
Qed.

Lemma steps_verdicts_lookup e l : forall P k i,
  steps_verdicts e l P k !! i
  = (fun st => (step_name st,
                step_verdict e (steps_params (take (S i) l) P) (S (k + i))))
      <$> l !! i.
Proof.
  induction l as [|st l IH]; intros P k i; [reflexivity|].
  destruct i as [|i]; simpl.
  - rewrite Nat.add_0_r. reflexivity.
  - rewrite IH, Nat.add_succ_r. reflexivity.
Qed.

Lemma steps_requests_length s e l : forall P k,
  length (steps_requests s e l P k) = length l.
Proof. induction l as [|st l IH]; intros P k; simpl; [|rewrite IH]; reflexivity. Qed.

Lemma steps_verdicts_length e l : forall P k,
  length (steps_verdicts e l P k) = length l.
Proof. induction l as [|st l IH]; intros P k; simpl; [|rewrite IH]; reflexivity. Qed.

End Facts.

(** ** The identifiers of an iteration *)

Module Identifiers.
Import LR CLib CLibFacts Script Trace Obs Facts Run Inputs Tactics.

Lemma cast_int_id t : 0 <= t <= INT_MAX -> cast_int t = t.
Proof.
  unfold cast_int, INT_MAX. intros H.
  rewrite Z.mod_small by lia. lia.
Qed.

Lemma c_rem_mod t : 0 <= t -> c_rem t 10000 = t mod 10000.
Proof. intros H. unfold c_rem. apply Z.rem_mod_nonneg; lia. Qed.

(** C3: the generator reads the clock three times and writes
    [LR_{runLabel}_{workerId}_{iterationNumber}_{(int)t1}],
    [customer_{workerId}_{iterationNumber}_{(int)t2 % 10000}],
    [session_{journeyLabel}_{workerId}_{iterationNumber}] and
    [trace_{correlationId}_{(int)t3}], [t1], [t2], [t3] being the three
    readings in the order of the calls and [%] the remainder of C; it
    saves them as the parameters [correlation_id], [customer_id],
    [session_id] and [trace_id], and they depend on nothing else.  When
    the three readings are one value [t] with [0 <= t <= INT_MAX],
    these are the four strings of the contract for
    [wallClockSeconds = t].  The four texts are assumed to fit their
    arrays. *)
Theorem identifier_contract s e σ :
  ids_fit s e (n_time σ) = true ->
  exists σ',
    generate_ids s e σ = Ok tt σ'
    /\ correlation_id σ'
       = Spec.correlationId (ltn s) (vuser_id e) (iteration_number e)
           (cast_int (time_now e (n_time σ)))
    /\ customer_id σ'
       = "customer_" +:+ Spec.dec (vuser_id e) +:+ "_"
           +:+ Spec.dec (iteration_number e) +:+ "_"
           +:+ Spec.dec (c_rem (cast_int (time_now e (S (n_time σ)))) 10000)
    /\ session_id σ' = Spec.sessionId (lsn s) (vuser_id e) (iteration_number e)
    /\ trace_id σ'
       = Spec.traceId (correlation_id σ')
           (cast_int (time_now e (S (S (n_time σ)))))
    /\ params σ' !! "correlation_id" = Some (correlation_id σ')
    /\ params σ' !! "customer_id" = Some (customer_id σ')
    /\ params σ' !! "session_id" = Some (session_id σ')
    /\ params σ' !! "trace_id" = Some (trace_id σ')
    /\ forall t,
         0 <= t <= INT_MAX ->
         time_now e (n_time σ) = t ->
         time_now e (S (n_time σ)) = t ->
         time_now e (S (S (n_time σ))) = t ->
         correlation_id σ'
         = Spec.correlationId (ltn s) (vuser_id e) (iteration_number e) t
         /\ customer_id σ'
            = Spec.customerId (vuser_id e) (iteration_number e) t
         /\ trace_id σ' = Spec.traceId (correlation_id σ') t.
Proof.
  intros Hfit.
  destruct (generate_ids_run s e σ Hfit)
    as (σ' & E & P & C & U & S' & T & _).
  exists σ'. split; [exact E|].
  rewrite C, U, S', T, P. unfold ids_params.
  split; [reflexivity|]. split; [reflexivity|]. split; [reflexivity|].
  split; [reflexivity|].
  do 4 (split;
        [repeat (first [ rewrite lookup_insert_eq; reflexivity
                       | rewrite lookup_insert_ne by discriminate ])|]).
  intros t Ht H1 H2 H3.
  unfold trace_text, correlation_text, customer_text.
  rewrite H1, H2, H3, (cast_int_id t Ht), (c_rem_mod t (proj1 Ht)).
  repeat split; reflexivity.
Qed.

Lemma identifier_contract_witness :
  exists σ',
    generate_ids argos sample_env initial_state = Ok tt σ'
    /\ correlation_id σ' = "LR_Argos_LoadTest_20260106_7_3_1767707283"
    /\ customer_id σ' = "customer_7_3_7283"
    /\ session_id σ' = "session_BizObs_Argos_www.Argos.co.uk_Journey_7_3"
    /\ trace_id σ'
       = "trace_LR_Argos_LoadTest_20260106_7_3_1767707283_1767707283".
Proof.
  destruct (identifier_contract argos sample_env initial_state)
    as (σ' & E & _ & _ & S' & _ & _ & _ & _ & _ & H);
    [vm_compute; reflexivity|].
  destruct (H 1767707283) as (C & U & T);
    [unfold INT_MAX; lia | reflexivity | reflexivity | reflexivity |].
  exists σ'. rewrite T, C, U, S'. repeat split; try exact E; reflexivity.
Defined.

(** *** Distinct workers and iterations *)

Lemma split_at_sep a : forall a' r r',
  all_chars not_sep a = true -> all_chars not_sep a' = true ->
  a +:+ String "_" r = a' +:+ String "_" r' -> a = a' /\ r = r'.
Proof.
  induction a as [|c a IH]; intros [|c' a'] r r' Ha Ha' H.
  - change (String "_" r = String "_" r') in H. injection H as H. auto.
  - change (String "_" r = String c' (a' +:+ String "_" r')) in H.
    injection H as Hc _. subst c'. discriminate Ha'.
  - change (String c (a +:+ String "_" r) = String "_" r') in H.
    injection H as Hc _. subst c. discriminate Ha.
  - change (String c (a +:+ String "_" r) = String c' (a' +:+ String "_" r')) in H.
    injection H as Hc H. subst c'.
    simpl in Ha, Ha'.
    apply andb_true_iff in Ha as [_ Ha]. apply andb_true_iff in Ha' as [_ Ha'].
    destruct (IH _ _ _ Ha Ha' H) as [-> ->]. auto.
Qed.

Lemma fmt_d_no_sep z : all_chars not_sep (fmt_d z) = true.
Proof.
  apply all_chars_weaken with (p := decimal_char); [|apply fmt_d_chars].
  intros c Hc. unfold not_sep.
  destruct (Ascii.eqb_spec c "_") as [->|]; [discriminate Hc|reflexivity].
Qed.



(** *** The 64-byte arrays *)

(** C9: worker 1000 in its iteration 1000 makes the Argos script write
    a trace id of 64 characters, which with its terminating NUL does
    not fit [char trace_id[64]]: [Action] overruns the array in
    whatever state it is entered. *)
Theorem trace_id_overflow :
  in_int_range (vuser_id busy_env)
  /\ in_int_range (iteration_number busy_env)
  /\ 0 <= time_now busy_env 0 <= INT_MAX
  /\ String.length (trace_text argos busy_env 0) = 64%nat
  /\ forall σ,
       Action argos busy_env σ
       = Fault (BufferOverflow Buf_trace_id
                  "trace_LR_Argos_LoadTest_20260106_1000_1000_1767707283_1767707283").
Proof.
  split; [vm_compute; split; discriminate|].
  split; [vm_compute; split; discriminate|].
  split; [vm_compute; split; discriminate|].
  split; [vm_compute; reflexivity|].
  intros σ. unfold Action. rewrite run_bind.
  unfold generate_ids. run_calls. unfold sprintf.
  replace (fits (capacity Buf_correlation_id) _) with true
    by (vm_compute; reflexivity).
  run_calls.
  replace (fits (capacity Buf_customer_id) _) with true
    by (vm_compute; reflexivity).
  run_calls.
  replace (fits (capacity Buf_session_id) _) with true
    by (vm_compute; reflexivity).
  run_calls. destruct σ; run_fields.
  reflexivity.
Qed.

(** The same script keeps within its arrays for the sample user. *)
Lemma sample_ids_fit :
  buffers_fit argos sample_env initial_state = true.
Proof. vm_compute. reflexivity. Qed.

(** *** Where the contract of the identifiers stops *)

(** The contract as worded, for every [wallClockSeconds], fails past
    [INT_MAX]: with the clock at 2147483748 at all three readings the
    generator writes [-2147483548] for the clock and [-3548] for the
    last field of the customer id, where the contract has 2147483748
    and 3748. *)
Lemma identifier_contract_fails_past_int_max :
  exists σ',
    generate_ids argos late_env initial_state = Ok tt σ'
    /\ time_now late_env 0 = 2147483748
    /\ time_now late_env 1 = 2147483748
    /\ time_now late_env 2 = 2147483748
    /\ correlation_id σ' = "LR_Argos_LoadTest_20260106_7_3_-2147483548"
    /\ Spec.correlationId (ltn argos) 7 3 2147483748
       = "LR_Argos_LoadTest_20260106_7_3_2147483748"
    /\ customer_id σ' = "customer_7_3_-3548"
    /\ Spec.customerId 7 3 2147483748 = "customer_7_3_3748"
    /\ correlation_id σ' <> Spec.correlationId (ltn argos) 7 3 2147483748
    /\ customer_id σ' <> Spec.customerId 7 3 2147483748.
Proof.
  destruct (generate_ids_run argos late_env initial_state)
    as (σ' & E & _ & C & U & _); [vm_compute; reflexivity|].
  exists σ'. rewrite C, U.
  repeat split; try exact E; try reflexivity;
    intros H; vm_compute in H; discriminate H.
Qed.

Lemma correlation_id_clock s v i t1 t2 :
  fmt_correlation_id s v i t1 = fmt_correlation_id s v i t2 -> t1 = t2.
Proof.
  unfold fmt_correlation_id. intros H.
  apply (inj (String.append "LR_")) in H.
  apply (inj (String.append (ltn s))) in H.
  apply (inj (String.append "_")) in H.
  apply (inj (String.append (fmt_d v))) in H.
  apply (inj (String.append "_")) in H.
  apply (inj (String.append (fmt_d i))) in H.
  apply (inj (String.append "_")) in H.
  apply fmt_d_inj. exact H.
Qed.

(** Nor is there one [wallClockSeconds] when the clock moves on between
    the readings: read at 1767709999, 1767710000 and 1767710001, it
    gives a correlation id of second 1767709999 with a customer id
    ending in 0 and a trace id of second 1767710001, and no value fits
    the correlation id and the customer id together. *)
Lemma ticking_clock_has_no_single_second :
  exists σ',
    generate_ids argos ticking_env initial_state = Ok tt σ'
    /\ correlation_id σ' = "LR_Argos_LoadTest_20260106_12_3_1767709999"
    /\ customer_id σ' = "customer_12_3_0"
    /\ trace_id σ'
       = "trace_LR_Argos_LoadTest_20260106_12_3_1767709999_1767710001"
    /\ forall t,
         correlation_id σ' = Spec.correlationId (ltn argos) 12 3 t ->
         customer_id σ' <> Spec.customerId 12 3 t.
Proof.
  destruct (generate_ids_run argos ticking_env initial_state)
    as (σ' & E & _ & C & U & _ & T & _); [vm_compute; reflexivity|].
  exists σ'. rewrite C, U, T.
  split; [exact E|]. split; [reflexivity|]. split; [reflexivity|].
  split; [reflexivity|].
  intros t Ht.
  change (fmt_correlation_id argos 12 3 1767709999
          = fmt_correlation_id argos 12 3 t) in Ht.
  apply correlation_id_clock in Ht. subst t.
  intros H. vm_compute in H. discriminate H.
Qed.

End Identifiers.

(** ** The customer profile of a virtual user *)

Module Profile.
Import LR CLib Script Trace Run Inputs Tactics.

Lemma catalog_paired i :
  (i < 16)%nat ->
  exists name,
    nth_error customer_names i = Some name
    /\ nth_error customer_emails i = Some (Spec.email_of_name name).
Proof.
  intros H.
  do 16 (destruct i as [|i]; [eexists; split; reflexivity|]).
  lia.
Qed.

Lemma catalog_entry (l : list string) i :
  (i < length l)%nat -> exists x, nth_error l i = Some x.
Proof.
  intros H. destruct (nth_error l i) eqn:E; [eauto|].
  apply nth_error_None in E. lia.
Qed.

Lemma rem_index r n :
  0 <= r -> 0 < n -> (0 <=? c_rem r n) = true /\ (Z.to_nat (c_rem r n) < Z.to_nat n)%nat.
Proof.
  intros Hr Hn. unfold c_rem. rewrite Z.rem_mod_nonneg by lia.
  pose proof (Z.mod_pos_bound r n Hn). split; [apply Z.leb_le|]; lia.
Qed.

(** The state [vuser_init] leaves when the three random numbers select
    the catalog entries [name], [email], [segment] and [source]. *)
Lemma vuser_init_run s e σ name email segment source :
  let seed := cast_uint (time_now e (n_time σ) + vuser_id e) in
  0 <= rand_out e seed 0 -> 0 <= rand_out e seed 1 -> 0 <= rand_out e seed 2 ->
  nth_error customer_names (Z.to_nat (c_rem (rand_out e seed 0) 16)) = Some name ->
  nth_error customer_emails (Z.to_nat (c_rem (rand_out e seed 0) 16)) = Some email ->
  nth_error customer_segments (Z.to_nat (c_rem (rand_out e seed 1) 6)) = Some segment ->
  nth_error traffic_sources (Z.to_nat (c_rem (rand_out e seed 2) 8)) = Some source ->
  exists σ',
    vuser_init s e σ = Ok 0 σ'
    /\ params σ'
       = <["traffic_source" := source]>
           (<["customer_segment" := segment]>
              (<["customer_email" := email]>
                 (<["customer_name" := name]>
                    (<["LTN" := init_ltn s]>
                       (<["LSN" := init_lsn s]> (params σ))))))
    /\ hdr_next σ' = hdr_next σ /\ hdr_auto σ' = hdr_auto σ
    /\ tx_open σ' = tx_open σ.
Proof.
  intros seed P1 P2 P3 Hn He Hs Hr. subst seed.
  destruct (rem_index _ 16 P1 eq_refl) as [B1 _].
  destruct (rem_index _ 6 P2 eq_refl) as [B2 _].
  destruct (rem_index _ 8 P3 eq_refl) as [B3 _].
  unfold vuser_init.
  destruct σ as [P hn ha ck tx se lg nr nt nrd sd dt co cu ss tr].
  cbn [n_time] in *.
  run_calls. run_fields. unfold index_array.
  rewrite B1, Hn. run_calls. run_fields.
  rewrite He. run_calls. run_fields.
  rewrite B2, Hs. run_calls. run_fields.
  rewrite B3, Hr. run_calls. run_fields.
  eexists. split; [reflexivity|]. run_fields. repeat split; reflexivity.
Qed.

(** A virtual user starts its first iteration in the state [Action]
    expects. *)
Lemma vuser_init_ready s e σ' :
  (forall seed k, 0 <= rand_out e seed k) ->
  vuser_init s e initial_state = Ok 0 σ' ->
  at_iteration_start σ'.
Proof.
  intros Hrand E.
  set (seed := cast_uint (time_now e (n_time initial_state) + vuser_id e)).
  destruct (rem_index _ 16 (Hrand seed 0%nat) eq_refl) as [_ L1].
  destruct (rem_index _ 6 (Hrand seed 1%nat) eq_refl) as [_ L2].
  destruct (rem_index _ 8 (Hrand seed 2%nat) eq_refl) as [_ L3].
  destruct (catalog_entry customer_names _ L1) as (name & Hn).
  destruct (catalog_entry customer_emails _ L1) as (email & He).
  destruct (catalog_entry customer_segments _ L2) as (seg & Hs).
  destruct (catalog_entry traffic_sources _ L3) as (src & Hr).
  destruct (vuser_init_run s e initial_state name email seg src
              (Hrand _ _) (Hrand _ _) (Hrand _ _) Hn He Hs Hr)
    as (σ1 & E1 & P & H1 & H2 & H3).
  rewrite E in E1. injection E1 as <-.
  unfold at_iteration_start. rewrite H1, H2, H3, P.
  repeat split; reflexivity.
Qed.

(** C10: [vuser_init] seeds the generator with
    [(unsigned)(time(NULL) + lr_get_vuser_id())] and reads the name and
    the address of the virtual
    user at one and the same index ([rand() % 16]) of the 16-entry
    catalogs, so the address saved is the one that goes with the name
    saved (Sarah Johnson gets sarah.johnson@email.com), whereas the
    segment and the traffic source each come from a [rand()] call of
    their own ([% 6] and [% 8]). *)
Theorem init_profile_paired s e σ r1 r2 r3 :
  rand_out e (cast_uint (time_now e (n_time σ) + vuser_id e)) 0 = r1 ->
  rand_out e (cast_uint (time_now e (n_time σ) + vuser_id e)) 1 = r2 ->
  rand_out e (cast_uint (time_now e (n_time σ) + vuser_id e)) 2 = r3 ->
  0 <= r1 -> 0 <= r2 -> 0 <= r3 ->
  exists σ' name,
    vuser_init s e σ = Ok 0 σ'
    /\ length customer_names = 16%nat /\ length customer_emails = 16%nat
    /\ nth_error customer_names (Z.to_nat (r1 mod 16)) = Some name
    /\ nth_error customer_emails (Z.to_nat (r1 mod 16))
       = Some (Spec.email_of_name name)
    /\ params σ' !! "customer_name" = Some name
    /\ params σ' !! "customer_email" = Some (Spec.email_of_name name)
    /\ params σ' !! "customer_segment"
       = nth_error customer_segments (Z.to_nat (r2 mod 6))
    /\ params σ' !! "traffic_source"
       = nth_error traffic_sources (Z.to_nat (r3 mod 8)).
Proof.
  intros H1 H2 H3 P1 P2 P3.
  destruct (rem_index r1 16 P1 eq_refl) as [_ L1].
  destruct (rem_index r2 6 P2 eq_refl) as [_ L2].
  destruct (rem_index r3 8 P3 eq_refl) as [_ L3].
  destruct (catalog_paired _ L1) as (name & Hn & He).
  destruct (catalog_entry customer_segments _ L2) as (seg & Hs).
  destruct (catalog_entry traffic_sources _ L3) as (src & Hr).
  destruct (vuser_init_run s e σ name (Spec.email_of_name name) seg src)
    as (σ' & E & P & _); rewrite ?H1, ?H2, ?H3; try assumption.
  assert (M1 : r1 mod 16 = c_rem r1 16)
    by (unfold c_rem; rewrite Z.rem_mod_nonneg by lia; reflexivity).
  assert (M2 : r2 mod 6 = c_rem r2 6)
    by (unfold c_rem; rewrite Z.rem_mod_nonneg by lia; reflexivity).
  assert (M3 : r3 mod 8 = c_rem r3 8)
    by (unfold c_rem; rewrite Z.rem_mod_nonneg by lia; reflexivity).
  exists σ', name. rewrite M1, M2, M3, Hs, Hr, P.
  repeat split; try assumption;
    repeat (first [ rewrite lookup_insert_eq; reflexivity
                  | rewrite lookup_insert_ne by discriminate ]).
Qed.

Lemma init_profile_paired_witness :
  exists σ',
    vuser_init argos sample_env initial_state = Ok 0 σ'
    /\ params σ' !! "customer_name" = Some "Robert Martinez"
    /\ params σ' !! "customer_email" = Some "robert.martinez@email.com".
Proof.
  destruct (init_profile_paired argos sample_env initial_state 5 42 79)
    as (σ' & name & E & _ & _ & Hn & _ & Pn & Pe & _);
    [reflexivity | reflexivity | reflexivity | lia | lia | lia |].
  injection Hn as <-. exists σ'. repeat split; assumption.
Defined.

End Profile.

(** ** The journey of one iteration *)

Module Journey.
Import LR CLib CLibFacts Script Trace Obs Facts Run Inputs Tactics.

Lemma well_formed_parts s :
  well_formed s = true ->
  forallb step_ok (steps s) = true
  /\ brace_free (lsn s) = true /\ brace_free (ltn s) = true
  /\ brace_free (company s) = true
  /\ List.map step_number (steps s)
     = List.map Z.of_nat (seq 1 (length (steps s)))
  /\ NoDup (List.map step_name (steps s))
  /\ NoDup (List.map service_name (steps s))
  /\ total_steps s = Z.of_nat (length (steps s)).
Proof.
  unfold well_formed. intros H.
  repeat (apply andb_true_iff in H as [H ?]).
  repeat split; try assumption.
  - eapply bool_decide_eq_true_1; eassumption.
  - eapply bool_decide_eq_true_1; eassumption.
  - eapply bool_decide_eq_true_1; eassumption.
  - apply Z.eqb_eq. assumption.
Qed.

Lemma step_ok_lookup l i st :
  forallb step_ok l = true -> l !! i = Some st ->
  brace_free (step_name st) = true /\ brace_free (service_name st) = true.
Proof.
  intros Hall Hi. rewrite forallb_forall in Hall.
  assert (Hin : In st l).
  { apply list_elem_of_In. eapply list_elem_of_lookup_2. exact Hi. }
  specialize (Hall st Hin). unfold step_ok in Hall.
  apply andb_true_iff in Hall as [Hall _].
  apply andb_true_iff in Hall as [? ?]. auto.
Qed.

(** The iteration as the claims below look at it: [Action] returns,
    and the requests and closed transactions it adds to the log are
    those of the steps, in order, followed by the completion event and
    the journey transaction. *)
Lemma iteration_observed s e σ :
  In s generated_scripts ->
  buffers_fit s e σ = true ->
  at_iteration_start σ ->
  exists σ',
    Action s e σ = Ok 0 σ'
    /\ log σ' = log σ ++ action_events s e σ
    /\ requests (log σ')
       = requests (log σ)
         ++ steps_requests s e (steps s)
              (journey_params s e (n_time σ) (params σ)) (n_requests σ)
         ++ [completion_request s e (params σ')
               (n_requests σ + length (steps s))
               (steps_header s e (steps s) (dt_test_header σ))]
    /\ tx_ends (log σ')
       = tx_ends (log σ)
         ++ steps_verdicts e (steps s)
              (journey_params s e (n_time σ) (params σ)) (n_requests σ)
         ++ [(journey_tx, LR_AUTO)]
    /\ carries (params σ') (correlation_id σ') (customer_id σ')
         (session_id σ') (trace_id σ')
    /\ correlation_id σ' = correlation_text s e (n_time σ)
    /\ customer_id σ' = customer_text e (n_time σ)
    /\ session_id σ' = session_text s e
    /\ trace_id σ' = trace_text s e (n_time σ)
    /\ n_time σ' = S (S (S (n_time σ)))
    /\ at_iteration_start σ'.
Proof.
  intros Hs Hfit Hstart.
  destruct (well_formed_parts s (generated_well_formed s Hs)) as (Hok & _).
  destruct (Action_run s e σ Hok Hfit Hstart)
    as (σ' & E & L & P & C & U & S' & T & Hn & Ha & Ht & R & N).
  exists σ'. split; [exact E|]. split; [exact L|].
  rewrite L. unfold requests, tx_ends. rewrite !collect_app.
  fold (requests (action_events s e σ)). fold (tx_ends (action_events s e σ)).
  rewrite requests_action_events, tx_ends_action_events, P, C, U, S', T.
  destruct (carries_steps (steps s) _ _ _ _ _
              (carries_journey s e (n_time σ) (params σ)))
    as (H1 & H2 & H3 & H4).
  repeat split; try assumption; try reflexivity.
  rewrite P, steps_params_other, journey_params_other by discriminate.
  apply Hstart.
Qed.

(** *** Order of the steps *)

Lemma step_request_number s e st P k :
  step_number_of (step_request s e st P k) = Some (step_number st).
Proof. reflexivity. Qed.

Lemma steps_requests_numbers s e l : forall P k,
  List.map step_number_of (steps_requests s e l P k)
  = List.map Some (List.map step_number l).
Proof.
  induction l as [|st l IH]; intros P k; [reflexivity|].
  cbn [steps_requests List.map]. rewrite IH, step_request_number. reflexivity.
Qed.

Lemma steps_requests_names s e l : forall P k,
  List.map req_name (steps_requests s e l P k)
  = List.map (fun st => step_name st +:+ "_Journey_Step") l.
Proof.
  induction l as [|st l IH]; intros P k; [reflexivity|].
  cbn [steps_requests List.map]. rewrite IH. reflexivity.
Qed.

(** C5: whatever the environment answers (so whatever the outcome of
    each step), the iteration sends the requests of all the steps of
    the journey, one per step, in the order of the journey, with the
    step numbers 1, 2, ..., N, and only then the completion event. *)
Theorem steps_in_order s e σ :
  In s generated_scripts ->
  buffers_fit s e σ = true ->
  at_iteration_start σ ->
  exists σ' reqs completion,
    Action s e σ = Ok 0 σ'
    /\ requests (log σ') = requests (log σ) ++ reqs ++ [completion]
    /\ List.map req_name reqs
       = List.map (fun st => step_name st +:+ "_Journey_Step") (steps s)
    /\ List.map step_number_of reqs
       = List.map Some (List.map Z.of_nat (seq 1 (length (steps s))))
    /\ step_number_of completion = None.
Proof.
  intros Hs Hfit Hstart.
  destruct (well_formed_parts s (generated_well_formed s Hs))
    as (_ & _ & _ & _ & Hnum & _).
  destruct (iteration_observed s e σ Hs Hfit Hstart) as (σ' & E & _ & R & _).
  eexists σ', _, _. split; [exact E|]. split; [exact R|].
  rewrite steps_requests_names, steps_requests_numbers, Hnum.
  repeat split; reflexivity.
Qed.

Lemma steps_in_order_witness :
  exists σ' reqs completion,
    Action argos sample_env initial_state = Ok 0 σ'
    /\ requests (log σ') = reqs ++ [completion]
    /\ List.map step_number_of reqs
       = [Some 1; Some 2; Some 3; Some 4; Some 5; Some 6].
Proof.
  destruct (steps_in_order argos sample_env initial_state)
    as (σ' & reqs & completion & E & R & _ & Hn & _);
    [left; reflexivity | vm_compute; reflexivity
    | repeat split; reflexivity |].
  exists σ', reqs, completion. repeat split; assumption.
Defined.

(** *** Outcome of a step *)

Lemma classify_pass c : Spec.classify c = LR_PASS <-> c < 400.
Proof.
  unfold Spec.classify. destruct (Z.ltb_spec c 400); split; intros H';
    try reflexivity; try assumption; try discriminate; lia.
Qed.

Lemma classify_fail c : Spec.classify c = LR_FAIL <-> 400 <= c.
Proof.
  unfold Spec.classify. destruct (Z.ltb_spec c 400); split; intros H';
    try reflexivity; try assumption; try discriminate; lia.
Qed.

Lemma status_text_reported e P k code :
  P !! "status" = None ->
  ext_param e "status" k = Some (fmt_d code) ->
  status_text e P k = fmt_d code.
Proof.
  intros HP Hext.
  pose proof (eval_param e P k "status" eq_refl) as H.
  change ("{" +:+ "status" +:+ "}") with "{status}" in H.
  unfold status_text. rewrite H. unfold param_or_text, param_value.
  rewrite HP, Hext. reflexivity.
Qed.

Lemma step_verdict_reported e P k code :
  P !! "status" = None ->
  ext_param e "status" k = Some (fmt_d code) ->
  in_int_range code ->
  step_verdict e P k = Spec.classify code.
Proof.
  intros HP Hext Hint. unfold step_verdict, Spec.classify.
  rewrite (status_text_reported e P k code HP Hext), atoi_fmt_d by exact Hint.
  destruct (Z.leb_spec 400 code), (Z.ltb_spec code 400); try reflexivity; lia.
Qed.

Lemma steps_events_in s e l : forall P k i st ev,
  l !! i = Some st ->
  In ev (step_events s e st (steps_params (take (S i) l) P) (k + i)) ->
  In ev (steps_events s e l P k).
Proof.
  induction l as [|x l IH]; intros P k i st ev Hi Hev; [discriminate Hi|].
  cbn [steps_events]. apply in_or_app.
  destruct i as [|i].
  - injection Hi as ->. left. rewrite Nat.add_0_r in Hev. exact Hev.
  - right. apply (IH _ _ i st); [exact Hi|].
    rewrite Nat.add_succ_r in Hev. exact Hev.
Qed.

Lemma step_error_logged s e st P k code :
  P !! "status" = None ->
  ext_param e "status" (S k) = Some (fmt_d code) ->
  in_int_range code ->
  400 <= code ->
  In (EvError ("Step " +:+ step_name st +:+ " failed with status: "
                 +:+ fmt_d code))
     (step_events s e st P k).
Proof.
  intros HP Hext Hint Hc. unfold step_events, verdict_events.
  rewrite (status_text_reported e P (S k) code HP Hext), atoi_fmt_d
    by exact Hint.
  destruct (Z.leb_spec 400 code); [|lia].
  cbn. auto.
Qed.

(** The status check itself is as the journey requires: were each
    response's status held in [{status}] when the check runs, every
    step would be closed Pass below 400 and Fail from 400 on, with the
    status logged.  The scripts never bind [{status}], though, so this
    rests on a parameter they do not provide. *)
Lemma outcome_by_status_parameter s e σ :
  In s generated_scripts ->
  buffers_fit s e σ = true ->
  at_iteration_start σ ->
  (forall k, ext_param e "status" k = Some (fmt_d (http_status e k))) ->
  (forall k, in_int_range (http_status e k)) ->
  exists σ' verdicts,
    Action s e σ = Ok 0 σ'
    /\ tx_ends (log σ')
       = tx_ends (log σ) ++ verdicts ++ [(journey_tx, LR_AUTO)]
    /\ length verdicts = length (steps s)
    /\ (forall i st,
          steps s !! i = Some st ->
          let status := http_status e (n_requests σ + S i)%nat in
          verdicts !! i = Some (step_name st, Spec.classify status)
          /\ (Spec.classify status = LR_PASS <-> status < 400)
          /\ (Spec.classify status = LR_FAIL <-> 400 <= status)
          /\ (400 <= status ->
              In (EvError ("Step " +:+ step_name st
                             +:+ " failed with status: " +:+ fmt_d status))
                 (log σ'))).
Proof.
  intros Hs Hfit Hstart Hcode Hint.
  destruct (iteration_observed s e σ Hs Hfit Hstart)
    as (σ' & E & L & _ & T & _).
  eexists σ', _. split; [exact E|]. split; [exact T|].
  split; [apply steps_verdicts_length|].
  intros i st Hi status.
  assert (HP : steps_params (take (S i) (steps s))
                 (journey_params s e (n_time σ) (params σ)) !! "status" = None).
  { rewrite steps_params_other, journey_params_other by discriminate.
    apply Hstart. }
  split; [|split; [apply classify_pass|split; [apply classify_fail|]]].
  - rewrite steps_verdicts_lookup, Hi. cbn [fmap option_fmap option_map].
    rewrite (step_verdict_reported _ _ _
               (http_status e (S (n_requests σ + i))) HP (Hcode _) (Hint _)).
    unfold status. rewrite Nat.add_succ_r. reflexivity.
  - intros Hfail. rewrite L. apply in_or_app. right.
    unfold action_events. cbv zeta.
    apply in_or_app. right. apply in_or_app. left.
    apply (steps_events_in s e (steps s) _ _ i st _ Hi).
    unfold status in *. rewrite Nat.add_succ_r in *.
    apply step_error_logged; [exact HP|apply Hcode|apply Hint|exact Hfail].
Qed.

(** *** Headers of a step request *)

Lemma eval_header_text s e st P k c :
  brace_free (step_name st) = true -> brace_free (lsn s) = true ->
  brace_free (ltn s) = true -> brace_free (company s) = true ->
  P !! "correlation_id" = Some c ->
  eval_with e P k (header_text s e st)
  = fmt_dt_test_header s (step_name st) (vuser_id e) c.
Proof.
  intros Hn Hl Ht Hc HP.
  pose proof (eval_bound e P k "correlation_id" c eq_refl HP) as Hcid.
  change ("{" +:+ "correlation_id" +:+ "}") with "{correlation_id}" in Hcid.
  unfold header_text, fmt_dt_test_header, eval_with in *.
  rewrite (subst_plain _ "TSN=") by reflexivity.
  rewrite (subst_plain _ (step_name st)) by exact Hn.
  rewrite (subst_plain _ ";LSN=") by reflexivity.
  rewrite (subst_plain _ (lsn s)) by exact Hl.
  rewrite (subst_plain _ ";LTN=") by reflexivity.
  rewrite (subst_plain _ (ltn s)) by exact Ht.
  rewrite (subst_plain _ ";VU=") by reflexivity.
  rewrite (subst_plain _ (fmt_d (vuser_id e))) by apply fmt_d_brace_free.
  rewrite (subst_plain _ ";SI=LoadRunner;PC=BizObs-Demo;AN=") by reflexivity.
  rewrite (subst_plain _ (company s)) by exact Hc.
  rewrite (subst_plain _ ";CID=") by reflexivity.
  rewrite Hcid. reflexivity.
Qed.

Lemma tracing_header_spec s tsn vuser c :
  fmt_dt_test_header s tsn vuser c
  = Spec.tracing_header tsn (lsn s) (ltn s) vuser (company s) c.
Proof. reflexivity. Qed.

Lemma step_request_headers s e st P k :
  header_names (step_request s e st P k) = step_header_names
  /\ header "X-dynaTrace" (step_request s e st P k)
     = Some (eval_with e P k (header_text s e st))
  /\ header "x-correlation-id" (step_request s e st P k)
     = Some (eval_with e P k "{correlation_id}")
  /\ header "x-customer-id" (step_request s e st P k)
     = Some (eval_with e P k "{customer_id}")
  /\ header "x-session-id" (step_request s e st P k)
     = Some (eval_with e P k "{session_id}")
  /\ header "x-trace-id" (step_request s e st P k)
     = Some (eval_with e P k "{trace_id}")
  /\ header "x-step-name" (step_request s e st P k)
     = Some (eval_with e P k (step_name st))
  /\ header "x-service-name" (step_request s e st P k)
     = Some (eval_with e P k (service_name st)).
Proof. repeat split; reflexivity. Qed.

(** The [i]-th step of the journey and its request. *)
Lemma step_request_at s e σ i st :
  steps s !! i = Some st ->
  steps_requests s e (steps s)
    (journey_params s e (n_time σ) (params σ)) (n_requests σ) !! i
  = Some (step_request s e st
            (steps_params (take (S i) (steps s))
               (journey_params s e (n_time σ) (params σ)))
            (n_requests σ + i)).
Proof. intros Hi. rewrite steps_requests_lookup, Hi. reflexivity. Qed.

(** C6: the tracing header of every step request is
    [TSN=..;LSN=..;LTN=..;VU=..;SI=..;PC=..;AN=..;CID=..], the keys in
    this order, with the step name, the journey label, the run label,
    the worker id, [LoadRunner], [BizObs-Demo], the company name and
    the correlation id of the iteration. *)
Theorem tracing_header_format s e σ :
  In s generated_scripts ->
  buffers_fit s e σ = true ->
  at_iteration_start σ ->
  exists σ' reqs completion,
    Action s e σ = Ok 0 σ'
    /\ requests (log σ') = requests (log σ) ++ reqs ++ [completion]
    /\ forall i st,
         steps s !! i = Some st ->
         exists r,
           reqs !! i = Some r
           /\ header "X-dynaTrace" r
              = Some (Spec.tracing_header (step_name st) (lsn s) (ltn s)
                        (vuser_id e) (company s) (correlation_id σ')).
Proof.
  intros Hs Hfit Hstart.
  destruct (well_formed_parts s (generated_well_formed s Hs))
    as (Hok & Hl & Ht & Hc & _).
  destruct (iteration_observed s e σ Hs Hfit Hstart)
    as (σ' & E & _ & R & _ & _ & C & _).
  eexists σ', _, _. split; [exact E|]. split; [exact R|].
  intros i st Hi. eexists. split; [apply step_request_at; exact Hi|].
  destruct (step_ok_lookup _ _ _ Hok Hi) as [Hn _].
  destruct (step_request_headers s e st
              (steps_params (take (S i) (steps s))
                 (journey_params s e (n_time σ) (params σ)))
              (n_requests σ + i)) as (_ & -> & _).
  rewrite <- tracing_header_spec. f_equal.
  apply eval_header_text; try assumption.
  rewrite C.
  apply (carries_steps (take (S i) (steps s)) _ _ _ _ _
           (carries_journey s e (n_time σ) (params σ))).
Qed.

Lemma tracing_header_format_witness :
  exists σ' reqs completion r,
    Action argos sample_env initial_state = Ok 0 σ'
    /\ requests (log σ') = reqs ++ [completion]
    /\ reqs !! 1%nat = Some r
    /\ header "X-dynaTrace" r
       = Some ("TSN=BasketManagement;LSN=BizObs_Argos_www.Argos.co.uk_Journey;"
               +:+ "LTN=Argos_LoadTest_20260106;VU=7;SI=LoadRunner;"
               +:+ "PC=BizObs-Demo;AN=Argos;"
               +:+ "CID=" +:+ correlation_id σ').
Proof.
  destruct (tracing_header_format argos sample_env initial_state)
    as (σ' & reqs & completion & E & R & H);
    [left; reflexivity | vm_compute; reflexivity
    | repeat split; reflexivity |].
  destruct (H 1%nat argos_step2 eq_refl) as (r & Hr & Hh).
  exists σ', reqs, completion, r. repeat split; assumption.
Defined.

(** *** The identifiers during the iteration *)

Lemma eval_ids e P k c u n t :
  carries P c u n t ->
  eval_with e P k "{correlation_id}" = c
  /\ eval_with e P k "{customer_id}" = u
  /\ eval_with e P k "{session_id}" = n
  /\ eval_with e P k "{trace_id}" = t.
Proof.
  intros (Hc & Hu & Hn & Ht).
  repeat split.
  - exact (eval_bound e P k "correlation_id" c eq_refl Hc).
  - exact (eval_bound e P k "customer_id" u eq_refl Hu).
  - exact (eval_bound e P k "session_id" n eq_refl Hn).
  - exact (eval_bound e P k "trace_id" t eq_refl Ht).
Qed.

Lemma step_request_body_ids s e st P k :
  body_field "journeyId" (step_request s e st P k)
  = Some (JStr (eval_with e P k "{correlation_id}"))
  /\ body_field "customerId" (step_request s e st P k)
     = Some (JStr (eval_with e P k "{customer_id}"))
  /\ body_field "sessionId" (step_request s e st P k)
     = Some (JStr (eval_with e P k "{session_id}"))
  /\ body_field "traceId" (step_request s e st P k)
     = Some (JStr (eval_with e P k "{trace_id}")).
Proof. repeat split; reflexivity. Qed.

Lemma step_request_shows_ids s e st P k c u n t :
  carries P c u n t -> shows_ids (step_request s e st P k) c u n t.
Proof.
  intros HP. destruct (eval_ids e P k c u n t HP) as (Ec & Eu & En & Et).
  destruct (step_request_headers s e st P k)
    as (_ & _ & Hc & Hu & Hn & Ht & _).
  destruct (step_request_body_ids s e st P k) as (Bc & Bu & Bn & Bt).
  unfold shows_ids.
  rewrite Hc, Hu, Hn, Ht, Bc, Bu, Bn, Bt, Ec, Eu, En, Et.
  repeat split; reflexivity.
Qed.

Lemma completion_request_correlation_header s e P k h :
  header "x-correlation-id" (completion_request s e P k h)
  = Some (eval_with e P k "{correlation_id}").
Proof. reflexivity. Qed.

(** C7: the four identifiers are written once, by the three readings of
    the clock that open the iteration and before any request is sent;
    every step request of the iteration then shows these same four
    values, in its headers and in its body, and they are still the
    contents of the arrays and of the parameters when the iteration
    ends. *)
Theorem identifiers_fixed_in_iteration s e σ :
  In s generated_scripts ->
  buffers_fit s e σ = true ->
  at_iteration_start σ ->
  exists σ' reqs completion,
    Action s e σ = Ok 0 σ'
    /\ requests (log σ') = requests (log σ) ++ reqs ++ [completion]
    /\ length reqs = length (steps s)
    /\ n_time σ' = S (S (S (n_time σ)))
    /\ correlation_id σ' = correlation_text s e (n_time σ)
    /\ customer_id σ' = customer_text e (n_time σ)
    /\ session_id σ' = session_text s e
    /\ trace_id σ' = trace_text s e (n_time σ)
    /\ carries (params σ') (correlation_id σ') (customer_id σ')
         (session_id σ') (trace_id σ')
    /\ (forall r, In r reqs ->
          shows_ids r (correlation_id σ') (customer_id σ') (session_id σ')
            (trace_id σ'))
    /\ header "x-correlation-id" completion = Some (correlation_id σ').
Proof.
  intros Hs Hfit Hstart.
  destruct (iteration_observed s e σ Hs Hfit Hstart)
    as (σ' & E & _ & R & _ & Hcar & C & U & S' & T & N & _).
  eexists σ', _, _. split; [exact E|]. split; [exact R|].
  split; [apply steps_requests_length|].
  repeat (split; [assumption|]).
  split.
  - intros r Hr. apply list_elem_of_In, list_elem_of_lookup in Hr as [i Hi].
    rewrite steps_requests_lookup in Hi.
    destruct (steps s !! i) as [st|] eqn:Hst; [|discriminate Hi].
    injection Hi as <-. apply step_request_shows_ids.
    rewrite C, U, S', T.
    apply carries_steps, carries_journey.
  - rewrite completion_request_correlation_header. f_equal.
    exact (proj1 (eval_ids e _ _ _ _ _ _ Hcar)).
Qed.

Lemma identifiers_fixed_in_iteration_witness :
  exists σ' reqs completion,
    Action argos sample_env initial_state = Ok 0 σ'
    /\ requests (log σ') = reqs ++ [completion]
    /\ correlation_id σ' = "LR_Argos_LoadTest_20260106_7_3_1767707283"
    /\ forall r, In r reqs ->
         header "x-correlation-id" r
         = Some "LR_Argos_LoadTest_20260106_7_3_1767707283".
Proof.
  destruct (identifiers_fixed_in_iteration argos sample_env initial_state)
    as (σ' & reqs & completion & E & R & _ & _ & C & _ & _ & _ & _ & H & _);
    [left; reflexivity | vm_compute; reflexivity
    | repeat split; reflexivity |].
  exists σ', reqs, completion. split; [exact E|]. split; [exact R|].
  split; [exact C|].
  intros r Hr. destruct (H r Hr) as (Hc & _). rewrite Hc, C. reflexivity.
Defined.

(** *** Headers from one step to the next *)

Lemma assoc_in (l : list (string * string)) n v :
  NoDup (List.map fst l) -> In (n, v) l -> assoc n l = Some v.
Proof.
  induction l as [|[k w] l IH]; intros Hnd Hin; [destruct Hin|].
  cbn [List.map fst] in Hnd. apply NoDup_cons in Hnd as [Hk Hnd].
  cbn [assoc]. destruct Hin as [Heq|Hin].
  - injection Heq as -> ->. rewrite String.eqb_refl. reflexivity.
  - destruct (String.eqb_spec n k) as [->|_]; [|apply IH; assumption].
    exfalso. apply Hk. apply list_elem_of_In.
    apply (in_map fst) in Hin. exact Hin.
Qed.

Lemma assoc_found (l : list (string * string)) n v :
  assoc n l = Some v -> In (n, v) l.
Proof.
  induction l as [|[k w] l IH]; intros H; [discriminate H|].
  cbn [assoc] in H. destruct (String.eqb_spec n k) as [->|_].
  - injection H as ->. left. reflexivity.
  - right. apply IH. exact H.
Qed.

Lemma append_inj_r a : forall b r, a +:+ r = b +:+ r -> a = b.
Proof.
  assert (Hlen : forall x r, String.length (x +:+ r)
                             = (String.length x + String.length r)%nat)
    by apply append_length.
  induction a as [|c a IH]; intros [|c' b] r H.
  - reflexivity.
  - apply (f_equal String.length) in H. rewrite Hlen in H.
    change (String.length r = S (String.length (b +:+ r))) in H.
    rewrite Hlen in H. lia.
  - apply (f_equal String.length) in H. rewrite (Hlen EmptyString) in H.
    change (S (String.length (a +:+ r)) = (0 + String.length r)%nat) in H.
    rewrite Hlen in H. lia.
  - change (String c (a +:+ r) = String c' (b +:+ r)) in H.
    injection H as -> H. f_equal. exact (IH _ _ H).
Qed.

Lemma fmt_dt_test_header_inj s a b vuser c :
  fmt_dt_test_header s a vuser c = fmt_dt_test_header s b vuser c -> a = b.
Proof.
  unfold fmt_dt_test_header. intros H.
  apply (inj (String.append "TSN=")) in H.
  exact (append_inj_r _ _ _ H).
Qed.

Lemma consecutive_differ {A} (f : A -> string) (l : list A) i a b :
  NoDup (List.map f l) -> l !! i = Some a -> l !! (S i) = Some b -> f a <> f b.
Proof.
  intros Hnd Ha Hb Heq.
  assert (H1 : List.map f l !! i = Some (f a))
    by (change (List.map f l) with (f <$> l); rewrite list_lookup_fmap, Ha; reflexivity).
  assert (H2 : List.map f l !! (S i) = Some (f a))
    by (change (List.map f l) with (f <$> l); rewrite list_lookup_fmap, Hb, Heq; reflexivity).
  pose proof (NoDup_lookup _ _ _ _ Hnd H1 H2). lia.
Qed.

Lemma step_header_names_nodup : NoDup step_header_names.
Proof.
  apply (bool_decide_eq_true_1 (NoDup step_header_names)).
  vm_compute. reflexivity.
Qed.

(** C2: headers attached with [web_add_header] go with the next
    request and no further.  So every step request carries exactly the
    twelve headers attached in its own block, each once; when a step
    block ends no header is pending or automatic and the cookie jar is
    empty; the values that step K attached under [X-dynaTrace],
    [x-step-name] and [x-service-name] are not on the request of step
    K+1; and the four identifier headers are on the request of step
    K+1 with the very values step K sent, step K+1 having attached them
    again.  It is the request that uses the pending headers up: the
    block that follows it leaves pending headers as they are, finds no
    automatic header to revert and empties the cookie jar. *)
Theorem step_headers_not_carried_over s e σ :
  In s generated_scripts ->
  buffers_fit s e σ = true ->
  at_iteration_start σ ->
  exists σ' reqs completion,
    Action s e σ = Ok 0 σ'
    /\ requests (log σ') = requests (log σ) ++ reqs ++ [completion]
    /\ (forall st σk,
          In st (steps s) ->
          hdr_next σk = [] -> hdr_auto σk = [] -> tx_open σk = [journey_tx] ->
          exists σk',
            exec_step s e st σk = Ok tt σk'
            /\ hdr_next σk' = [] /\ hdr_auto σk' = [] /\ cookies σk' = [])
    /\ (forall i st,
          steps s !! i = Some st ->
          exists r,
            reqs !! i = Some r
            /\ header_names r = step_header_names
            /\ header "x-step-name" r = Some (step_name st)
            /\ header "x-service-name" r = Some (service_name st))
    /\ (forall i rK rK1 name value,
          reqs !! i = Some rK -> reqs !! (S i) = Some rK1 ->
          In name ["X-dynaTrace"; "x-step-name"; "x-service-name"] ->
          In (name, value) (req_headers rK) ->
          ~ In (name, value) (req_headers rK1))
    /\ (forall i rK rK1,
          reqs !! i = Some rK -> reqs !! (S i) = Some rK1 ->
          shows_ids rK (correlation_id σ') (customer_id σ') (session_id σ')
            (trace_id σ')
          /\ shows_ids rK1 (correlation_id σ') (customer_id σ')
               (session_id σ') (trace_id σ'))
    /\ (forall name url method body σk,
          req_headers (make_request e name url method body σk)
          = hdr_auto σk ++ hdr_next σk
          /\ hdr_next (send_request e name url method body σk) = [])
    /\ (forall σk,
          exists σk',
            clear_headers σk = Ok tt σk'
            /\ hdr_next σk' = hdr_next σk
            /\ cookies σk' = []
            /\ (hdr_auto σk = [] -> hdr_auto σk' = [])).
Proof.
  intros Hs Hfit Hstart.
  destruct (well_formed_parts s (generated_well_formed s Hs))
    as (Hok & Hl & Ht & Hc & _ & Hnames & Hservices & _).
  destruct (iteration_observed s e σ Hs Hfit Hstart)
    as (σ' & E & _ & R & _ & _ & C & U & S' & T & _).
  eexists σ', _, _. split; [exact E|]. split; [exact R|].
  pose proof Hfit as Hfit'. apply andb_true_iff in Hfit' as [_ Hhdr].
  set (P := journey_params s e (n_time σ) (params σ)) in *.
  assert (Hcar : forall i,
            carries (steps_params (take (S i) (steps s)) P)
              (correlation_id σ') (customer_id σ') (session_id σ')
              (trace_id σ')).
  { intros i. rewrite C, U, S', T.
    apply (carries_steps (take (S i) (steps s)) _ _ _ _ _
             (carries_journey s e (n_time σ) (params σ))). }
  assert (Hreq : forall i st, steps s !! i = Some st ->
            let r := step_request s e st (steps_params (take (S i) (steps s)) P)
                       (n_requests σ + i) in
            steps_requests s e (steps s) P (n_requests σ) !! i = Some r
            /\ header_names r = step_header_names
            /\ header "X-dynaTrace" r
               = Some (fmt_dt_test_header s (step_name st) (vuser_id e)
                         (correlation_id σ'))
            /\ header "x-step-name" r = Some (step_name st)
            /\ header "x-service-name" r = Some (service_name st)).
  { intros i st Hi r.
    destruct (step_ok_lookup _ _ _ Hok Hi) as [Hn Hsv].
    destruct (step_request_headers s e st
                (steps_params (take (S i) (steps s)) P) (n_requests σ + i))
      as (H0 & H1 & _ & _ & _ & _ & H6 & H7).
    split; [apply step_request_at; exact Hi|]. split; [exact H0|].
    subst r. rewrite H1, H6, H7.
    rewrite (eval_plain _ _ _ (step_name st)) by exact Hn.
    rewrite (eval_plain _ _ _ (service_name st)) by exact Hsv.
    rewrite (eval_header_text s e st _ _ (correlation_id σ')); try assumption.
    - repeat split; reflexivity.
    - apply (Hcar i). }
  split; [|split; [|split; [|split; [|split]]]].
  - intros st σk Hin Hn Ha Htx.
    rewrite forallb_forall in Hok. unfold headers_fit in Hhdr.
    rewrite forallb_forall in Hhdr.
    destruct (exec_step_run s e st σk (Hok st Hin) (Hhdr st Hin) Hn Ha Htx)
      as (σk' & Ek & _ & _ & _ & Hn' & Ha' & _ & _ & _ & _ & _ & _ & _ & Hck).
    exists σk'. auto.
  - intros i st Hi. destruct (Hreq i st Hi) as (H0 & H1 & _ & H3 & H4).
    eexists. split; [exact H0|]. auto.
  - intros i rK rK1 name value HK HK1 Hname HinK HinK1.
    rewrite steps_requests_lookup in HK, HK1.
    destruct (steps s !! i) as [stK|] eqn:EK; [|discriminate HK].
    destruct (steps s !! S i) as [stK1|] eqn:EK1; [|discriminate HK1].
    destruct (Hreq i stK EK) as (_ & N0 & D0 & S0 & V0).
    destruct (Hreq (S i) stK1 EK1) as (_ & N1 & D1 & S1 & V1).
    cbn [fmap option_fmap option_map] in HK, HK1.
    injection HK as <-. injection HK1 as <-.
    assert (A0 := fun n v Hin => assoc_in (req_headers _) n v
               (eq_ind_r NoDup step_header_names_nodup N0) Hin).
    assert (A1 := fun n v Hin => assoc_in (req_headers _) n v
               (eq_ind_r NoDup step_header_names_nodup N1) Hin).
    apply A0 in HinK. apply A1 in HinK1.
    unfold header in *.
    destruct Hname as [<-|[<-|[<-|[]]]].
    + rewrite D0 in HinK. rewrite D1 in HinK1.
      assert (Heq : fmt_dt_test_header s (step_name stK) (vuser_id e) (correlation_id σ')
                    = fmt_dt_test_header s (step_name stK1) (vuser_id e) (correlation_id σ'))
        by congruence.
      apply fmt_dt_test_header_inj in Heq.
      exact (consecutive_differ step_name _ _ _ _ Hnames EK EK1 Heq).
    + rewrite S0 in HinK. rewrite S1 in HinK1.
      apply (consecutive_differ step_name _ _ _ _ Hnames EK EK1). congruence.
    + rewrite V0 in HinK. rewrite V1 in HinK1.
      apply (consecutive_differ service_name _ _ _ _ Hservices EK EK1). congruence.
  - intros i rK rK1 HK HK1.
    rewrite steps_requests_lookup in HK, HK1.
    destruct (steps s !! i) as [stK|]; [|discriminate HK].
    destruct (steps s !! S i) as [stK1|]; [|discriminate HK1].
    cbn [fmap option_fmap option_map] in HK, HK1.
    injection HK as <-. injection HK1 as <-.
    split; apply step_request_shows_ids; apply Hcar.
  - intros name url method body σk. split; reflexivity.
  - intros σk.
    destruct σk as [P0 hn ha ck tx se lg nr nt nrd sd dt co cu ss tr].
    eexists. split; [unfold clear_headers; run_calls; run_fields; reflexivity|].
    run_fields. repeat split; try reflexivity.
    intros ->. reflexivity.
Qed.

Lemma step_headers_not_carried_over_witness :
  exists σ' reqs completion rB,
    Action argos sample_env initial_state = Ok 0 σ'
    /\ requests (log σ') = reqs ++ [completion]
    /\ reqs !! 1%nat = Some rB
    /\ header "x-step-name" rB = Some "BasketManagement"
    /\ ~ In ("x-step-name", "ProductDiscovery") (req_headers rB).
Proof.
  destruct (step_headers_not_carried_over argos sample_env initial_state)
    as (σ' & reqs & completion & E & R & _ & Hown & Hleak & _);
    [left; reflexivity | vm_compute; reflexivity
    | repeat split; reflexivity |].
  destruct (Hown 0%nat argos_step1 eq_refl) as (rA & HA & NA & SA & _).
  destruct (Hown 1%nat argos_step2 eq_refl) as (rB & HB & _ & SB & _).
  exists σ', reqs, completion, rB.
  split; [exact E|]. split; [exact R|]. split; [exact HB|]. split; [exact SB|].
  apply (Hleak 0%nat rA rB "x-step-name" "ProductDiscovery" HA HB);
    [right; left; reflexivity|].
  apply assoc_found. exact SA.
Defined.

(** The claim as worded fails: [x-correlation-id] is one of the headers
    attached for the first step, and the value it was attached with is
    on the request of the second step. *)
Lemma step_header_value_on_next_request :
  exists σ' rA rB rest,
    Action argos sample_env initial_state = Ok 0 σ'
    /\ requests (log σ') = rA :: rB :: rest
    /\ req_name rA = "ProductDiscovery_Journey_Step"
    /\ req_name rB = "BasketManagement_Journey_Step"
    /\ In ("x-correlation-id", "LR_Argos_LoadTest_20260106_7_3_1767707283")
         (req_headers rA)
    /\ In ("x-correlation-id", "LR_Argos_LoadTest_20260106_7_3_1767707283")
         (req_headers rB).
Proof.
  destruct (iteration_observed argos sample_env initial_state)
    as (σ' & E & _ & R & _);
    [left; reflexivity | vm_compute; reflexivity
    | repeat split; reflexivity |].
  exists σ'. eexists _, _, _. split; [exact E|].
  split; [rewrite R; cbn [steps argos steps_requests requests collect log
                          initial_state app]; reflexivity|].
  split; [reflexivity|]. split; [reflexivity|].
  split; vm_compute; right; left; reflexivity.
Qed.

(** *** The completion event *)

Lemma json_map_ext f g :
  (forall x, f x = g x) -> forall j, json_map f j = json_map g j.
Proof.
  intros H. fix IH 1. intros [x|z|b|items|fields]; cbn [json_map].
  - rewrite H. reflexivity.
  - reflexivity.
  - reflexivity.
  - f_equal. induction items as [|j items IHl]; [reflexivity|].
    cbn [List.map]. rewrite (IH j), IHl. reflexivity.
  - f_equal. induction fields as [|[k j] fields IHl]; [reflexivity|].
    cbn [List.map fst snd]. rewrite (IH j), IHl. reflexivity.
Qed.

Section Agreement.
Variables (n : nat) (e e' : env).
Hypothesis Hagree : agree_until n e e'.

Lemma eval_with_agree P k t :
  (k <= n)%nat -> eval_with e P k t = eval_with e' P k t.
Proof.
  intros Hk. unfold eval_with. apply subst_ext. intros nm.
  unfold param_value. destruct (P !! nm); [reflexivity|].
  apply Hagree. exact Hk.
Qed.

Lemma header_text_agree s st : header_text s e st = header_text s e' st.
Proof.
  unfold header_text. destruct Hagree as (-> & _). reflexivity.
Qed.

Lemma step_request_agree s st P k :
  (k <= n)%nat -> step_request s e st P k = step_request s e' st P k.
Proof.
  intros Hk. unfold step_request, step_headers.
  rewrite (header_text_agree s st).
  rewrite !(eval_with_agree P k) by exact Hk.
  rewrite (json_map_ext _ _ (fun t => eval_with_agree P k t Hk)).
  reflexivity.
Qed.

Lemma step_events_agree s st P k :
  (S k <= n)%nat -> step_events s e st P k = step_events s e' st P k.
Proof.
  intros Hk. unfold step_events, verdict_events, status_text.
  rewrite step_request_agree by lia.
  rewrite !(eval_with_agree P (S k)) by exact Hk.
  destruct Hagree as (_ & _ & _ & _ & Hd). rewrite (Hd _ _ Hk).
  reflexivity.
Qed.

Lemma steps_events_agree s l : forall P k,
  (k + length l <= n)%nat ->
  steps_events s e l P k = steps_events s e' l P k.
Proof.
  induction l as [|st l IH]; intros P k Hk; [reflexivity|].
  cbn [steps_events length] in *.
  rewrite step_events_agree by lia. rewrite IH by lia. reflexivity.
Qed.

Lemma steps_header_agree s l : forall h,
  steps_header s e l h = steps_header s e' l h.
Proof.
  induction l as [|st l IH]; intros h; [reflexivity|].
  cbn [steps_header]. rewrite header_text_agree. apply IH.
Qed.

Lemma ids_agree s k :
  correlation_text s e k = correlation_text s e' k
  /\ customer_text e k = customer_text e' k
  /\ session_text s e = session_text s e'
  /\ trace_text s e k = trace_text s e' k.
Proof.
  destruct Hagree as (Hv & Hi & Ht & _).
  unfold trace_text, correlation_text, customer_text, session_text.
  rewrite Hv, Hi, !Ht. repeat split; reflexivity.
Qed.

Lemma journey_params_agree s k P :
  journey_params s e k P = journey_params s e' k P.
Proof.
  unfold journey_params, ids_params.
  destruct (ids_agree s k) as (-> & -> & -> & ->). reflexivity.
Qed.

Lemma completion_request_agree s P k h :
  (k <= n)%nat ->
  completion_request s e P k h = completion_request s e' P k h.
Proof.
  intros Hk. unfold completion_request.
  rewrite !(eval_with_agree P k) by exact Hk.
  rewrite (json_map_ext _ _ (fun t => eval_with_agree P k t Hk)).
  reflexivity.
Qed.

Lemma action_events_agree s σ :
  n = (n_requests σ + length (steps s))%nat ->
  action_events s e σ = action_events s e' σ.
Proof.
  intros Hn. unfold action_events. cbv zeta.
  rewrite journey_params_agree.
  rewrite steps_events_agree by lia.
  rewrite steps_header_agree.
  rewrite completion_request_agree by lia.
  destruct (ids_agree s (n_time σ)) as (-> & _).
  destruct Hagree as (_ & _ & _ & _ & Hd). rewrite (Hd _ _ (Nat.eq_le_incl _ _ (eq_sym Hn))).
  reflexivity.
Qed.

Lemma buffers_fit_agree s σ : buffers_fit s e σ = buffers_fit s e' σ.
Proof.
  unfold buffers_fit, ids_fit, headers_fit.
  destruct (ids_agree s (n_time σ)) as (-> & -> & -> & ->).
  f_equal. induction (steps s) as [|st l IH]; [reflexivity|].
  cbn [forallb]. rewrite header_text_agree, IH. reflexivity.
Qed.

End Agreement.

Lemma completion_request_fields s e P k h :
  req_name (completion_request s e P k h) = "Journey_Completion_Event"
  /\ body_field "eventType" (completion_request s e P k h)
     = Some (JStr (eval_with e P k "journey_completed"))
  /\ body_field "correlationId" (completion_request s e P k h)
     = Some (JStr (eval_with e P k "{correlation_id}"))
  /\ body_field "customerId" (completion_request s e P k h)
     = Some (JStr (eval_with e P k "{customer_id}"))
  /\ body_field "companyName" (completion_request s e P k h)
     = Some (JStr (eval_with e P k (company s)))
  /\ body_field "customerName" (completion_request s e P k h)
     = Some (JStr (eval_with e P k "{customer_name}"))
  /\ body_field "customerSegment" (completion_request s e P k h)
     = Some (JStr (eval_with e P k "{customer_segment}"))
  /\ body_field "totalSteps" (completion_request s e P k h)
     = Some (JNum (total_steps s))
  /\ body_field "loadTest" (completion_request s e P k h) = Some (JBool true).
Proof. repeat split; reflexivity. Qed.

Lemma step_request_names s :
  In s generated_scripts ->
  forall st, In st (steps s) ->
    step_name st +:+ "_Journey_Step" <> "Journey_Completion_Event".
Proof.
  intros Hs.
  assert (H : forallb (fun st => negb (String.eqb (step_name st +:+ "_Journey_Step")
                                         "Journey_Completion_Event")) (steps s) = true).
  { destruct Hs as [<-|[<-|[<-|[]]]]; vm_compute; reflexivity. }
  rewrite forallb_forall in H. intros st Hin Heq.
  specialize (H st Hin). rewrite Heq in H. discriminate H.
Qed.

(** C8: after the last step the script closes the
    [Full_Customer_Journey] transaction and only then sends one
    completion event, its last action; the event carries the
    correlation id, the customer id, the company, the customer name and
    segment, the number of steps of the journey and [loadTest = true].
    Nothing is read back from its response: two runs that differ only
    in how the completion event is answered leave the same log, with
    the same transaction outcomes. *)
Theorem completion_event_fire_and_forget s e σ :
  In s generated_scripts ->
  buffers_fit s e σ = true ->
  at_iteration_start σ ->
  exists σ' pre msg completion,
    Action s e σ = Ok 0 σ'
    /\ log σ' = log σ ++ pre
                 ++ [EvTxEnd journey_tx LR_AUTO; EvOutput msg;
                     EvRequest completion]
    /\ length (requests pre) = length (steps s)
    /\ (forall r, In r (requests pre) ->
          req_name r <> "Journey_Completion_Event")
    /\ req_name completion = "Journey_Completion_Event"
    /\ body_field "eventType" completion = Some (JStr "journey_completed")
    /\ body_field "correlationId" completion = Some (JStr (correlation_id σ'))
    /\ body_field "customerId" completion = Some (JStr (customer_id σ'))
    /\ body_field "companyName" completion = Some (JStr (company s))
    /\ (forall v, params σ !! "customer_name" = Some v ->
          body_field "customerName" completion = Some (JStr v))
    /\ (forall v, params σ !! "customer_segment" = Some v ->
          body_field "customerSegment" completion = Some (JStr v))
    /\ body_field "totalSteps" completion
       = Some (JNum (Z.of_nat (length (steps s))))
    /\ body_field "loadTest" completion = Some (JBool true)
    /\ (forall e',
          agree_until (n_requests σ + length (steps s)) e e' ->
          exists σ'',
            Action s e' σ = Ok 0 σ''
            /\ log σ'' = log σ'
            /\ tx_ends (log σ'') = tx_ends (log σ')).
Proof.
  intros Hs Hfit Hstart.
  destruct (well_formed_parts s (generated_well_formed s Hs))
    as (Hok & _ & _ & Hc & _ & _ & _ & Htotal).
  destruct (Action_run s e σ Hok Hfit Hstart)
    as (σ' & E & L & P & C & U & _).
  set (P0 := journey_params s e (n_time σ) (params σ)) in *.
  exists σ',
    ([EvTxStart journey_tx;
      EvOutput ("Starting journey for customer: {customer_name} ({customer_segment}) - Journey: "
                  +:+ correlation_text s e (n_time σ))]
     ++ steps_events s e (steps s) P0 (n_requests σ)).
  eexists _, _. split; [exact E|].
  split; [rewrite L; unfold action_events; cbv zeta; fold P0;
          rewrite <- !app_assoc; reflexivity|].
  assert (Hreqs : requests
            ([EvTxStart journey_tx;
              EvOutput ("Starting journey for customer: {customer_name} ({customer_segment}) - Journey: "
                          +:+ correlation_text s e (n_time σ))]
             ++ steps_events s e (steps s) P0 (n_requests σ))
          = steps_requests s e (steps s) P0 (n_requests σ)).
  { unfold requests. rewrite collect_app. apply requests_steps_events. }
  rewrite Hreqs.
  destruct (completion_request_fields s e (steps_params (steps s) P0)
              (n_requests σ + length (steps s))
              (steps_header s e (steps s) (dt_test_header σ)))
    as (F0 & F1 & F2 & F3 & F4 & F5 & F6 & F7 & F8).
  assert (Hcar : carries (steps_params (steps s) P0) (correlation_id σ')
                   (customer_id σ') (session_id σ') (trace_id σ')).
  { rewrite C, U.
    destruct (carries_steps (steps s) _ _ _ _ _
                (carries_journey s e (n_time σ) (params σ))) as (H1 & H2 & _).
    unfold carries. fold P0 in H1, H2. rewrite H1, H2.
    destruct (Action_run s e σ Hok Hfit Hstart)
      as (σ2 & E2 & _ & _ & _ & _ & S2 & T2 & _).
    rewrite E in E2. injection E2 as <-. rewrite S2, T2.
    destruct (carries_steps (steps s) _ _ _ _ _
                (carries_journey s e (n_time σ) (params σ))) as (_ & _ & H3 & H4).
    auto. }
  destruct (eval_ids e _ (n_requests σ + length (steps s)) _ _ _ _ Hcar)
    as (Ec & Eu & _).
  split; [apply steps_requests_length|].
  split.
  { intros r Hr. apply list_elem_of_In, list_elem_of_lookup in Hr as [i Hi].
    rewrite steps_requests_lookup in Hi.
    destruct (steps s !! i) as [st|] eqn:Hst; [|discriminate Hi].
    injection Hi as <-. cbn [req_name step_request].
    apply (step_request_names s Hs).
    apply list_elem_of_In. eapply list_elem_of_lookup_2. exact Hst. }
  split; [exact F0|].
  split; [rewrite F1, eval_plain by reflexivity; reflexivity|].
  split; [rewrite F2, Ec; reflexivity|].
  split; [rewrite F3, Eu; reflexivity|].
  split; [rewrite F4, eval_plain by exact Hc; reflexivity|].
  split.
  { intros v Hv. rewrite F5. f_equal. f_equal.
    apply (eval_bound e _ _ "customer_name" v eq_refl).
    unfold P0. rewrite steps_params_other, journey_params_other by discriminate.
    exact Hv. }
  split.
  { intros v Hv. rewrite F6. f_equal. f_equal.
    apply (eval_bound e _ _ "customer_segment" v eq_refl).
    unfold P0. rewrite steps_params_other, journey_params_other by discriminate.
    exact Hv. }
  split; [rewrite F7, Htotal; reflexivity|].
  split; [exact F8|].
  intros e' Hagree.
  assert (Hfit' : buffers_fit s e' σ = true)
    by (rewrite <- (buffers_fit_agree _ e e' Hagree); exact Hfit).
  destruct (Action_run s e' σ Hok Hfit' Hstart) as (σ'' & E' & L' & _).
  exists σ''. split; [exact E'|].
  assert (Hlog : log σ'' = log σ').
  { rewrite L', L.
    rewrite (action_events_agree _ e e' Hagree s σ eq_refl). reflexivity. }
  split; [exact Hlog|]. rewrite Hlog. reflexivity.
Qed.

Lemma completion_event_fire_and_forget_witness :
  exists σ' σ'' completion,
    Action argos sample_env initial_state = Ok 0 σ'
    /\ Action argos sample_env_completion_fails initial_state = Ok 0 σ''
    /\ log σ'' = log σ'
    /\ body_field "totalSteps" completion = Some (JNum 6)
    /\ In (EvRequest completion) (log σ').
Proof.
  destruct (completion_event_fire_and_forget argos sample_env initial_state)
    as (σ' & pre & msg & completion & E & L & _ & _ & _ & _ & _ & _ & _
        & _ & _ & Ht & _ & Hforget);
    [left; reflexivity | vm_compute; reflexivity
    | repeat split; reflexivity |].
  destruct (Hforget sample_env_completion_fails) as (σ'' & E' & L' & _).
  { repeat split; try reflexivity.
    intros name k Hk. cbn in Hk. cbn [ext_param sample_env sample_env_completion_fails].
    destruct (String.eqb name "status"); [|reflexivity].
    do 7 (destruct k as [|k]; [reflexivity|]). lia. }
  exists σ', σ'', completion.
  split; [exact E|]. split; [exact E'|]. split; [exact L'|].
  split; [exact Ht|].
  rewrite L. apply in_or_app. right. apply in_or_app. right.
  right. right. left. reflexivity.
Defined.

End Journey.

(** ** The state after each block *)

Module States.
Import LR CLib CLibFacts Script Trace Obs Facts Run Inputs Tactics Lifecycle.

Lemma exec_step_state s e st σ :
  step_ok st = true ->
  fits (capacity Buf_dt_test_header) (header_text s e st) = true ->
  hdr_next σ = [] -> hdr_auto σ = [] -> tx_open σ = [journey_tx] ->
  exec_step s e st σ = Ok tt (step_state s e st σ).
Proof.
  intros Hok Hfit Hn Ha Ht.
  apply andb_true_iff in Hok as [Hok Hne]. apply negb_true_iff in Hne.
  apply andb_true_iff in Hok as [Hname Hservice].
  pose proof (brace_free_not_tsn _ Hname) as Htsn.
  assert (Hj : String.eqb "{TSN}" journey_tx = false) by reflexivity.
  destruct σ as [P hn ha ck tx se lg nr nt nrd sd dt co cu ss tr].
  simpl in Hn, Ha, Ht. subst hn ha tx.
  unfold exec_step, add_step_headers, check_response, clear_headers, step_state.
  unfold header_text in *.
  run_calls. unfold sprintf. rewrite Hfit. run_calls. run_fields.
  unfold step_events, verdict_events, status_text.
  destruct (400 <=? atoi _) eqn:E; run_fields;
    repeat (progress (rewrite ?Hne, ?String.eqb_refl, ?Htsn, ?Hj;
                      cbn [orb negb app List.filter existsb]));
    rewrite <- ?app_assoc; reflexivity.
Qed.

Lemma step_state_frame s e st σ :
  hdr_next (step_state s e st σ) = []
  /\ hdr_auto (step_state s e st σ) = []
  /\ tx_open (step_state s e st σ) = [journey_tx].
Proof. repeat split; reflexivity. Qed.

Lemma steps_state_frame s e l : forall σ,
  hdr_next σ = [] -> hdr_auto σ = [] -> tx_open σ = [journey_tx] ->
  hdr_next (steps_state s e l σ) = []
  /\ hdr_auto (steps_state s e l σ) = []
  /\ tx_open (steps_state s e l σ) = [journey_tx].
Proof.
  induction l as [|st l IH]; intros σ Hn Ha Ht; [auto|].
  cbn [steps_state]. apply IH; reflexivity.
Qed.

Lemma exec_steps_state s e l : forall σ,
  forallb step_ok l = true ->
  headers_fit s e l = true ->
  hdr_next σ = [] -> hdr_auto σ = [] -> tx_open σ = [journey_tx] ->
  exec_steps s e l σ = Ok tt (steps_state s e l σ).
Proof.
  induction l as [|st l IH]; intros σ Hok Hfit Hn Ha Ht; [reflexivity|].
  cbn [forallb headers_fit] in Hok, Hfit. unfold headers_fit in IH.
  apply andb_true_iff in Hok as [Hst Hok].
  apply andb_true_iff in Hfit as [Hh Hfit].
  cbn [exec_steps steps_state]. rewrite run_bind.
  rewrite (exec_step_state s e st σ Hst Hh Hn Ha Ht).
  apply IH; try assumption; reflexivity.
Qed.

Lemma generate_ids_state s e σ :
  ids_fit s e (n_time σ) = true ->
  generate_ids s e σ = Ok tt (ids_state s e σ).
Proof.
  unfold ids_fit. intros Hfit.
  apply andb_true_iff in Hfit as [Hfit Htr].
  apply andb_true_iff in Hfit as [Hfit Hse].
  apply andb_true_iff in Hfit as [Hco Hcu].
  destruct σ as [P hn ha ck tx se lg nr nt nrd sd dt co cu ss tr].
  unfold ids_state, ids_params, trace_text, correlation_text, customer_text,
    session_text in *.
  cbn [n_time] in *.
  unfold generate_ids. run_calls. run_fields.
  unfold sprintf. rewrite Hco. run_calls. run_fields.
  rewrite Hcu. run_calls. run_fields.
  rewrite Hse. run_calls. run_fields.
  rewrite Htr. run_calls. run_fields.
  reflexivity.
Qed.

Lemma Action_state s e σ :
  forallb step_ok (steps s) = true ->
  buffers_fit s e σ = true ->
  at_iteration_start σ ->
  Action s e σ = Ok 0 (action_state s e σ).
Proof.
  intros Hok Hfit (Hn & Ha & Ht & _).
  apply andb_true_iff in Hfit as [Hids Hhdr].
  unfold Action. rewrite run_bind, (generate_ids_state s e σ Hids).
  assert (Hnext :
    (lr_save_string (lsn s) "LSN";;
     lr_save_string (ltn s) "LTN";;
     lr_start_transaction "Full_Customer_Journey";;
     c ← gets correlation_id;
     lr_output_message
       ("Starting journey for customer: {customer_name} ({customer_segment}) - Journey: "
          +:+ c);;
     exec_steps s e (steps s);;
     lr_end_transaction "Full_Customer_Journey" LR_AUTO;;
     d ← lr_get_transaction_duration e "Full_Customer_Journey";
     lr_output_message
       ("Journey completed for {customer_name} - Total time: " +:+ fmt_d d
          +:+ " ms, Correlation: {correlation_id}");;
     completion_event s e;; mret 0) (ids_state s e σ)
    = Ok 0 (action_state s e σ)); [|exact Hnext].
  destruct σ as [P hn ha ck tx se lg nr nt nrd sd dt co cu ss tr].
  cbn [hdr_next hdr_auto tx_open] in Hn, Ha, Ht. subst hn ha tx.
  unfold ids_state. run_calls. run_fields. cbn [existsb app].
  match goal with
  | |- context [exec_steps s e (steps s) ?Σ] =>
      replace Σ with (journey_state s e
        {| params := P; hdr_next := []; hdr_auto := []; cookies := ck;
           tx_open := []; settings := se; log := lg; n_requests := nr;
           n_time := nt; n_rand := nrd; rand_seed := sd;
           dt_test_header := dt; correlation_id := co; customer_id := cu;
           session_id := ss; trace_id := tr |})
        by (unfold journey_state, journey_params; run_fields;
            rewrite <- app_assoc; reflexivity)
  end.
  match goal with
  | |- context [exec_steps s e (steps s) ?Σ] =>
      rewrite (exec_steps_state s e (steps s) Σ Hok Hhdr eq_refl eq_refl eq_refl)
  end.
  unfold action_state. cbv zeta.
  destruct (steps_state_frame s e (steps s)
              (journey_state s e
                 {| params := P; hdr_next := []; hdr_auto := []; cookies := ck;
                    tx_open := []; settings := se; log := lg; n_requests := nr;
                    n_time := nt; n_rand := nrd; rand_seed := sd;
                    dt_test_header := dt; correlation_id := co; customer_id := cu;
                    session_id := ss; trace_id := tr |})
              eq_refl eq_refl eq_refl) as (Hn3 & Ha3 & Ht3).
  destruct (steps_state s e (steps s) _)
    as [P3 hn3 ha3 ck3 tx3 se3 lg3 nr3 nt3 nrd3 sd3 dt3 co3 cu3 ss3 tr3].
  cbn [hdr_next hdr_auto tx_open] in Hn3, Ha3, Ht3. subst hn3 ha3 tx3.
  unfold completion_event. run_calls. run_fields.
  cbn [existsb app List.filter].
  rewrite String.eqb_refl. cbn [orb negb app].
  rewrite <- !app_assoc. reflexivity.
Qed.

End States.

(** ** More on one iteration *)

Module Iteration.
Import LR CLib CLibFacts Script Trace Obs Facts Run Inputs Tactics Lifecycle
  States.

Lemma generated_steps_ok s :
  In s generated_scripts -> forallb step_ok (steps s) = true.
Proof.
  intros Hs. pose proof (generated_well_formed s Hs) as H.
  unfold well_formed in H.
  repeat (apply andb_true_iff in H as [H _]). exact H.
Qed.

Lemma generated_steps_nonempty s :
  In s generated_scripts -> steps s <> [].
Proof. intros [<-|[<-|[<-|[]]]]; discriminate. Qed.

Lemma iteration_state s e σ :
  In s generated_scripts ->
  buffers_fit s e σ = true ->
  at_iteration_start σ ->
  Action s e σ = Ok 0 (action_state s e σ).
Proof.
  intros Hs. apply Action_state. apply generated_steps_ok. exact Hs.
Qed.

(** *** Fields of the state after the steps *)

Lemma steps_state_fields s e l : forall σ,
  log (steps_state s e l σ)
  = log σ ++ steps_events s e l (params σ) (n_requests σ)
  /\ params (steps_state s e l σ) = steps_params l (params σ)
  /\ n_requests (steps_state s e l σ) = (n_requests σ + length l)%nat
  /\ cookies (steps_state s e l σ) = jar_after_steps l (cookies σ)
  /\ settings (steps_state s e l σ) = settings σ
  /\ dt_test_header (steps_state s e l σ)
     = steps_header s e l (dt_test_header σ)
  /\ n_time (steps_state s e l σ) = n_time σ.
Proof.
  induction l as [|st l IH]; intros σ.
  - cbn [steps_state steps_events steps_params length jar_after_steps steps_header].
    rewrite app_nil_r, Nat.add_0_r. repeat split; reflexivity.
  - cbn [steps_state steps_events steps_params length steps_header].
    destruct (IH (step_state s e st σ)) as (L & P & R & C & S' & D & N).
    rewrite L, P, R, C, S', D, N.
    cbn [log params n_requests cookies settings dt_test_header n_time step_state].
    rewrite <- app_assoc, Nat.add_succ_r.
    repeat split; try reflexivity.
    destruct l; reflexivity.
Qed.

Lemma action_state_log s e σ :
  log (action_state s e σ) = log σ ++ action_events s e σ.
Proof.
  unfold action_state, action_events. cbv zeta. cbn [log].
  destruct (steps_state_fields s e (steps s) (journey_state s e σ))
    as (L & P & R & _ & _ & D & _).
  rewrite L, P, R, D.
  cbn [log params n_requests dt_test_header journey_state].
  rewrite <- !app_assoc. reflexivity.
Qed.

(** *** Pauses *)

Lemma thinks_step_events s e st P k :
  thinks (step_events s e st P k) = [think_time st].
Proof.
  unfold step_events, verdict_events. destruct (400 <=? _); reflexivity.
Qed.

Lemma thinks_steps_events s e l : forall P k,
  thinks (steps_events s e l P k) = List.map think_time l.
Proof.
  induction l as [|st l IH]; intros P k; [reflexivity|].
  cbn [steps_events List.map]. unfold thinks in *.
  rewrite collect_app, IH.
  fold (thinks (step_events s e st (<["TSN":=step_name st]> P) k)).
  rewrite thinks_step_events. reflexivity.
Qed.

Lemma timeline_step_events s e st P k :
  timeline (step_events s e st P k) = step_marks st.
Proof.
  unfold step_events, verdict_events. destruct (400 <=? _); reflexivity.
Qed.

Lemma timeline_steps_events s e l : forall P k,
  timeline (steps_events s e l P k) = concat (List.map step_marks l).
Proof.
  induction l as [|st l IH]; intros P k; [reflexivity|].
  cbn [steps_events List.map concat]. unfold timeline in *.
  rewrite collect_app, IH.
  fold (timeline (step_events s e st (<["TSN":=step_name st]> P) k)).
  rewrite timeline_step_events. reflexivity.
Qed.

(** X1: In the course of an iteration each step sends its request, has
    its transaction closed and then pauses for its think time, before
    the request of the next step; the steps come in their order, and
    after the pause of the last one the journey transaction is closed
    and the completion event sent, with no pause after it.  So the
    pauses of an iteration are the think times of its steps, one after
    each step. *)
Theorem think_times_of_iteration s e σ :
  In s generated_scripts ->
  buffers_fit s e σ = true ->
  at_iteration_start σ ->
  exists σ' events,
    Action s e σ = Ok 0 σ'
    /\ log σ' = log σ ++ events
    /\ timeline events
       = concat (List.map step_marks (steps s))
         ++ [Closed journey_tx; Sent "Journey_Completion_Event"]
    /\ thinks events = List.map think_time (steps s).
Proof.
  intros Hs Hfit Hstart.
  exists (action_state s e σ), (action_events s e σ).
  split; [apply iteration_state; assumption|].
  split; [apply action_state_log|].
  unfold action_events. cbv zeta. split.
  - unfold timeline. rewrite !collect_app.
    fold (timeline (steps_events s e (steps s)
            (journey_params s e (n_time σ) (params σ)) (n_requests σ))).
    rewrite timeline_steps_events. reflexivity.
  - unfold thinks. rewrite !collect_app.
    fold (thinks (steps_events s e (steps s)
            (journey_params s e (n_time σ) (params σ)) (n_requests σ))).
    rewrite thinks_steps_events. cbn [collect think_of app].
    apply app_nil_r.
Qed.

Lemma think_times_of_iteration_witness :
  exists σ' events,
    Action argos_short sample_env initial_state = Ok 0 σ'
    /\ log σ' = events
    /\ timeline events
       = [Sent "ProductDiscovery_Journey_Step"; Closed "ProductDiscovery";
          Paused 4;
          Sent "BasketManagement_Journey_Step"; Closed "BasketManagement";
          Paused 3;
          Closed "Full_Customer_Journey"; Sent "Journey_Completion_Event"]
    /\ thinks events = [4; 3].
Proof.
  destruct (think_times_of_iteration argos_short sample_env initial_state)
    as (σ' & events & E & L & H & T);
    [right; left; reflexivity | vm_compute; reflexivity
    | repeat split; reflexivity |].
  exists σ', events. split; [exact E|]. split; [exact L|].
  split; [exact H|exact T].
Defined.

(** *** Cookies *)

(** X2: Each step block empties the cookie jar, but nothing does after the
    completion event: when the iteration ends the jar holds exactly the
    cookies set by the answer to the completion event. *)
Theorem cookies_after_iteration s e σ :
  In s generated_scripts ->
  buffers_fit s e σ = true ->
  at_iteration_start σ ->
  exists σ',
    Action s e σ = Ok 0 σ'
    /\ cookies σ' = set_cookies e (n_requests σ + length (steps s)).
Proof.
  intros Hs Hfit Hstart. exists (action_state s e σ).
  split; [apply iteration_state; assumption|].
  unfold action_state. cbv zeta. cbn [cookies].
  destruct (steps_state_fields s e (steps s) (journey_state s e σ))
    as (_ & _ & R & C & _).
  rewrite R, C. cbn [n_requests journey_state].
  pose proof (generated_steps_nonempty s Hs) as Hne.
  destruct (steps s); [contradiction|]. reflexivity.
Qed.

Lemma cookies_after_iteration_witness :
  exists σ',
    Action argos sample_env initial_state = Ok 0 σ'
    /\ cookies σ' = ["JSESSIONID=1"].
Proof.
  destruct (cookies_after_iteration argos sample_env initial_state)
    as (σ' & E & H);
    [left; reflexivity | vm_compute; reflexivity
    | repeat split; reflexivity |].
  exists σ'. split; [exact E|exact H].
Defined.

(** *** Transactions around the requests *)

Lemma open_at_requests_app l1 : forall l2 open,
  open_at_requests (l1 ++ l2) open
  = open_at_requests l1 open ++ open_at_requests l2 (open_after l1 open).
Proof.
  induction l1 as [|ev l1 IH]; intros l2 open; [reflexivity|].
  cbn [app open_at_requests open_after].
  destruct ev; rewrite ?IH; reflexivity.
Qed.

Lemma open_after_app l1 : forall l2 open,
  open_after (l1 ++ l2) open = open_after l2 (open_after l1 open).
Proof.
  induction l1 as [|ev l1 IH]; intros l2 open; [reflexivity|].
  cbn [app open_after]. destruct ev; rewrite ?IH; reflexivity.
Qed.

Lemma step_events_open s e st P k :
  step_ok st = true ->
  open_at_requests (step_events s e st P k) [journey_tx]
  = [(step_name st +:+ "_Journey_Step", [step_name st; journey_tx])]
  /\ open_after (step_events s e st P k) [journey_tx] = [journey_tx].
Proof.
  intros Hok. apply andb_true_iff in Hok as [_ Hne].
  apply negb_true_iff in Hne.
  unfold step_events, verdict_events.
  destruct (400 <=? _);
    cbn [app open_at_requests open_after List.filter req_name step_request];
    rewrite String.eqb_refl, Hne; cbn [negb]; split; reflexivity.
Qed.

Lemma steps_events_open s e l : forall P k,
  forallb step_ok l = true ->
  open_at_requests (steps_events s e l P k) [journey_tx]
  = List.map (fun st => (step_name st +:+ "_Journey_Step",
                         [step_name st; journey_tx])) l
  /\ open_after (steps_events s e l P k) [journey_tx] = [journey_tx].
Proof.
  induction l as [|st l IH]; intros P k Hok; [split; reflexivity|].
  cbn [forallb] in Hok. apply andb_true_iff in Hok as [Hst Hok].
  cbn [steps_events List.map].
  rewrite open_at_requests_app, open_after_app.
  destruct (step_events_open s e st (<["TSN":=step_name st]> P) k Hst)
    as [-> ->].
  destruct (IH (<["TSN":=step_name st]> P) (S k) Hok) as [-> ->].
  split; reflexivity.
Qed.

(** X3: Every step request is sent while exactly two transactions are open,
    that of its step inside [Full_Customer_Journey]; the completion
    event is sent when no transaction is open, and none is left open
    when the iteration ends. *)
Theorem requests_inside_transactions s e σ :
  In s generated_scripts ->
  buffers_fit s e σ = true ->
  at_iteration_start σ ->
  exists σ' events,
    Action s e σ = Ok 0 σ'
    /\ log σ' = log σ ++ events
    /\ open_at_requests events []
       = List.map (fun st => (step_name st +:+ "_Journey_Step",
                              [step_name st; journey_tx])) (steps s)
         ++ [("Journey_Completion_Event", [])]
    /\ open_after events [] = []
    /\ tx_open σ' = [].
Proof.
  intros Hs Hfit Hstart.
  exists (action_state s e σ), (action_events s e σ).
  split; [apply iteration_state; assumption|].
  split; [apply action_state_log|].
  destruct (steps_events_open s e (steps s)
              (journey_params s e (n_time σ) (params σ)) (n_requests σ)
              (generated_steps_ok s Hs)) as [Hreq Hopen].
  unfold action_events. cbv zeta.
  cbn [app open_at_requests open_after].
  rewrite open_at_requests_app, open_after_app, Hreq, Hopen.
  cbn [open_at_requests open_after List.filter req_name completion_request].
  change (String.eqb journey_tx journey_tx) with true. cbn [negb].
  repeat split; reflexivity.
Qed.

Lemma requests_inside_transactions_witness :
  exists σ' events,
    Action argos_short sample_env initial_state = Ok 0 σ'
    /\ log σ' = events
    /\ open_at_requests events []
       = [("ProductDiscovery_Journey_Step",
           ["ProductDiscovery"; "Full_Customer_Journey"]);
          ("BasketManagement_Journey_Step",
           ["BasketManagement"; "Full_Customer_Journey"]);
          ("Journey_Completion_Event", [])].
Proof.
  destruct (requests_inside_transactions argos_short sample_env initial_state)
    as (σ' & events & E & L & H & _);
    [right; left; reflexivity | vm_compute; reflexivity
    | repeat split; reflexivity |].
  exists σ', events. split; [exact E|]. split; [exact L|exact H].
Defined.

(** *** Where the requests go *)

Lemma eval_simulate_url e P k : eval_with e P k simulate_url = simulate_url.
Proof. apply eval_plain. reflexivity. Qed.

(** X4: An iteration sends one request per step and one more, each a POST
    to the one simulate-journey address. *)
Theorem requests_are_posts s e σ :
  In s generated_scripts ->
  buffers_fit s e σ = true ->
  at_iteration_start σ ->
  exists σ' sent,
    Action s e σ = Ok 0 σ'
    /\ requests (log σ') = requests (log σ) ++ sent
    /\ length sent = S (length (steps s))
    /\ n_requests σ' = (n_requests σ + S (length (steps s)))%nat
    /\ forall r, In r sent ->
         req_method r = "POST" /\ req_url r = simulate_url.
Proof.
  intros Hs Hfit Hstart.
  exists (action_state s e σ). eexists.
  split; [apply iteration_state; assumption|].
  split.
  { rewrite action_state_log. unfold requests. rewrite collect_app.
    fold (requests (action_events s e σ)).
    rewrite requests_action_events. reflexivity. }
  split; [rewrite length_app, steps_requests_length; cbn [length]; lia|].
  split.
  { unfold action_state. cbv zeta. cbn [n_requests].
    destruct (steps_state_fields s e (steps s) (journey_state s e σ))
      as (_ & _ & R & _).
    rewrite R. cbn [n_requests journey_state]. lia. }
  intros r Hr. apply in_app_or in Hr as [Hr|[<-|[]]].
  - apply list_elem_of_In, list_elem_of_lookup in Hr as [i Hi].
    rewrite steps_requests_lookup in Hi.
    destruct (steps s !! i) as [st|]; [|discriminate Hi].
    injection Hi as <-. cbn [req_method req_url step_request].
    split; [reflexivity|apply eval_simulate_url].
  - cbn [req_method req_url completion_request].
    split; [reflexivity|apply eval_simulate_url].
Qed.

Lemma requests_are_posts_witness :
  exists σ' sent,
    Action bt sample_env initial_state = Ok 0 σ'
    /\ requests (log σ') = sent
    /\ length sent = 7%nat.
Proof.
  destruct (requests_are_posts bt sample_env initial_state)
    as (σ' & sent & E & R & L & _);
    [right; right; left; reflexivity | vm_compute; reflexivity
    | repeat split; reflexivity |].
  exists σ', sent. split; [exact E|]. split; [exact R|exact L].
Defined.

(** *** The headers of the completion event *)

Lemma steps_state_ids s e l : forall σ,
  correlation_id (steps_state s e l σ) = correlation_id σ
  /\ customer_id (steps_state s e l σ) = customer_id σ
  /\ session_id (steps_state s e l σ) = session_id σ
  /\ trace_id (steps_state s e l σ) = trace_id σ.
Proof.
  induction l as [|st l IH]; intros σ; [repeat split; reflexivity|].
  cbn [steps_state]. destruct (IH (step_state s e st σ)) as (-> & -> & -> & ->).
  repeat split; reflexivity.
Qed.

Lemma steps_header_last s e l : forall h st,
  last l = Some st -> steps_header s e l h = header_text s e st.
Proof.
  induction l as [|x l IH]; intros h st Hl; [discriminate Hl|].
  cbn [steps_header]. destruct l as [|y l].
  - injection Hl as <-. reflexivity.
  - apply IH. exact Hl.
Qed.

Lemma brace_free_forall l st :
  forallb step_ok l = true -> In st l -> brace_free (step_name st) = true.
Proof.
  intros Hall Hin. rewrite forallb_forall in Hall.
  specialize (Hall st Hin). unfold step_ok in Hall.
  apply andb_true_iff in Hall as [Hall _].
  apply andb_true_iff in Hall as [? _]. assumption.
Qed.

Lemma last_in {A} (l : list A) x : last l = Some x -> In x l.
Proof.
  induction l as [|y l IH]; [discriminate|].
  destruct l as [|z l].
  - intros [= <-]. left. reflexivity.
  - intros H. right. apply IH. exact H.
Qed.

(** X5: The completion event carries three headers only:
    [x-dynatrace-test], whose value is the tracing header built for the
    last step (its [TSN] is the name of that step), [x-correlation-id]
    and [Content-Type].  It has none of the customer, session, trace or
    step headers of the step requests. *)
Theorem completion_event_headers s e σ last_step :
  In s generated_scripts ->
  buffers_fit s e σ = true ->
  at_iteration_start σ ->
  last (steps s) = Some last_step ->
  exists σ' sent completion,
    Action s e σ = Ok 0 σ'
    /\ requests (log σ') = requests (log σ) ++ sent ++ [completion]
    /\ req_headers completion
       = [("x-dynatrace-test",
           fmt_dt_test_header s (step_name last_step) (vuser_id e)
             (correlation_id σ'));
          ("x-correlation-id", correlation_id σ');
          ("Content-Type", "application/json")].
Proof.
  intros Hs Hfit Hstart Hlast.
  destruct (Journey.well_formed_parts s (generated_well_formed s Hs))
    as (Hok & Hl & Ht & Hc & _).
  exists (action_state s e σ). eexists _, _.
  split; [apply iteration_state; assumption|].
  split.
  { rewrite action_state_log. unfold requests. rewrite collect_app.
    fold (requests (action_events s e σ)).
    rewrite requests_action_events. reflexivity. }
  cbn [req_headers completion_request].
  rewrite (steps_header_last s e (steps s) _ last_step Hlast).
  set (P := steps_params (steps s) (journey_params s e (n_time σ) (params σ))).
  assert (Hcid : correlation_id (action_state s e σ)
                 = correlation_text s e (n_time σ)).
  { unfold action_state. cbv zeta. cbn [correlation_id].
    rewrite (proj1 (steps_state_ids s e (steps s) (journey_state s e σ))).
    reflexivity. }
  assert (HP : P !! "correlation_id" = Some (correlation_id (action_state s e σ))).
  { rewrite Hcid. unfold P.
    apply (carries_steps (steps s) _ _ _ _ _
             (carries_journey s e (n_time σ) (params σ))). }
  rewrite (Journey.eval_header_text s e last_step P _ _
             (brace_free_forall _ _ Hok (last_in _ _ Hlast)) Hl Ht Hc HP).
  pose proof (eval_bound e P (n_requests σ + length (steps s))
                "correlation_id" _ eq_refl HP) as Ec.
  change ("{" +:+ "correlation_id" +:+ "}") with "{correlation_id}" in Ec.
  rewrite Ec, eval_plain by reflexivity. reflexivity.
Qed.

Lemma completion_event_headers_witness :
  exists σ' sent completion,
    Action argos sample_env initial_state = Ok 0 σ'
    /\ requests (log σ') = sent ++ [completion]
    /\ header_names completion
       = ["x-dynatrace-test"; "x-correlation-id"; "Content-Type"]
    /\ header "x-dynatrace-test" completion
       = Some (fmt_dt_test_header argos "DeliveryCompletion" 7
                 (correlation_id σ')).
Proof.
  destruct (completion_event_headers argos sample_env initial_state argos_step6)
    as (σ' & sent & completion & E & R & H);
    [left; reflexivity | vm_compute; reflexivity
    | repeat split; reflexivity | reflexivity |].
  exists σ', sent, completion.
  split; [exact E|]. split; [exact R|].
  unfold header_names, header. rewrite H. split; reflexivity.
Defined.

End Iteration.

(** ** What the log shows of the steps *)

Module Outcomes.
Import LR CLib CLibFacts Script Trace Obs Facts Run Inputs Tactics Lifecycle
  States Iteration.

(** *** Errors *)

Lemma errors_step_events s e st P k :
  errors (step_events s e st P k)
  = if 400 <=? atoi (status_text e P (S k))
    then ["Step " +:+ step_name st +:+ " failed with status: "
            +:+ status_text e P (S k)]
    else [].
Proof.
  unfold step_events, verdict_events. destruct (400 <=? _); reflexivity.
Qed.

Lemma errors_steps_events s e code l : forall P k,
  P !! "status" = None ->
  (forall j, ext_param e "status" j = Some (fmt_d (code j))) ->
  (forall j, in_int_range (code j)) ->
  errors (steps_events s e l P k) = failure_messages code l k.
Proof.
  induction l as [|st l IH]; intros P k HP Hcode Hint; [reflexivity|].
  assert (HP' : <["TSN" := step_name st]> P !! "status" = None)
    by (rewrite lookup_insert_ne by discriminate; exact HP).
  cbn [steps_events failure_messages]. unfold errors in *.
  rewrite collect_app, (IH _ _ HP' Hcode Hint).
  fold (errors (step_events s e st (<["TSN":=step_name st]> P) k)).
  rewrite errors_step_events.
  rewrite (Journey.status_text_reported e _ (S k) (code (S k)) HP' (Hcode _)).
  rewrite atoi_fmt_d by apply Hint. reflexivity.
Qed.

Lemma errors_action_events s e σ :
  errors (action_events s e σ)
  = errors (steps_events s e (steps s)
              (journey_params s e (n_time σ) (params σ)) (n_requests σ)).
Proof.
  unfold action_events. cbv zeta. unfold errors. rewrite !collect_app.
  cbn [collect error_of app]. apply app_nil_r.
Qed.

Lemma journey_status_unbound s e σ :
  at_iteration_start σ ->
  journey_params s e (n_time σ) (params σ) !! "status" = None.
Proof.
  intros Hstart. rewrite journey_params_other by discriminate. apply Hstart.
Qed.

(** X6: When the runtime holds in [{status}] the decimal text of a
    status [code k] that is an [int], the errors an iteration logs are
    the messages of its failed steps,
    one for each step whose status is 400 or more, in the
    order of the steps; nothing else logs an error, and the answer to
    the completion event is not looked at. *)
Theorem errors_are_failed_steps s e σ (code : nat -> Z) :
  In s generated_scripts ->
  buffers_fit s e σ = true ->
  at_iteration_start σ ->
  (forall k, ext_param e "status" k = Some (fmt_d (code k))) ->
  (forall k, in_int_range (code k)) ->
  exists σ',
    Action s e σ = Ok 0 σ'
    /\ errors (log σ')
       = errors (log σ) ++ failure_messages code (steps s) (n_requests σ).
Proof.
  intros Hs Hfit Hstart Hcode Hint. exists (action_state s e σ).
  split; [apply iteration_state; assumption|].
  rewrite action_state_log. unfold errors. rewrite collect_app. f_equal.
  fold (errors (action_events s e σ)).
  rewrite errors_action_events.
  apply errors_steps_events; [apply journey_status_unbound; exact Hstart| |];
    assumption.
Qed.

Lemma errors_are_failed_steps_witness :
  exists σ',
    Action argos sample_env initial_state = Ok 0 σ'
    /\ errors (log σ') = ["Step PaymentProcessing failed with status: 503"].
Proof.
  destruct (errors_are_failed_steps argos sample_env initial_state sample_codes)
    as (σ' & E & H);
    [left; reflexivity | vm_compute; reflexivity
    | repeat split; reflexivity
    | intros k; unfold sample_codes; cbn; destruct (Nat.eqb k 4); reflexivity
    | intros k; unfold sample_codes; destruct (Nat.eqb k 4);
      vm_compute; split; discriminate |].
  exists σ'. split; [exact E|exact H].
Defined.

(** *** A status the runtime does not supply *)

Lemma status_text_unbound e P k :
  P !! "status" = None -> ext_param e "status" k = None ->
  status_text e P k = "{status}".
Proof.
  intros HP Hext.
  pose proof (eval_param e P k "status" eq_refl) as H.
  change ("{" +:+ "status" +:+ "}") with "{status}" in H.
  unfold status_text. rewrite H. unfold param_or_text, param_value.
  rewrite HP, Hext. reflexivity.
Qed.

Lemma steps_verdicts_unbound e l : forall P k,
  P !! "status" = None ->
  (forall j, ext_param e "status" j = None) ->
  steps_verdicts e l P k = List.map (fun st => (step_name st, LR_PASS)) l.
Proof.
  induction l as [|st l IH]; intros P k HP Hext; [reflexivity|].
  assert (HP' : <["TSN" := step_name st]> P !! "status" = None)
    by (rewrite lookup_insert_ne by discriminate; exact HP).
  cbn [steps_verdicts List.map]. rewrite (IH _ _ HP' Hext).
  unfold step_verdict. rewrite (status_text_unbound e _ _ HP' (Hext _)).
  reflexivity.
Qed.

Lemma errors_steps_unbound s e l : forall P k,
  P !! "status" = None ->
  (forall j, ext_param e "status" j = None) ->
  errors (steps_events s e l P k) = [].
Proof.
  induction l as [|st l IH]; intros P k HP Hext; [reflexivity|].
  assert (HP' : <["TSN" := step_name st]> P !! "status" = None)
    by (rewrite lookup_insert_ne by discriminate; exact HP).
  cbn [steps_events]. unfold errors in *.
  rewrite collect_app, (IH _ _ HP' Hext).
  fold (errors (step_events s e st (<["TSN":=step_name st]> P) k)).
  rewrite errors_step_events, (status_text_unbound e _ _ HP' (Hext _)).
  reflexivity.
Qed.

(** X7: The scripts never bind [{status}] themselves.  When the runtime
    does not supply it either, [lr_eval_string] returns the text
    [{status}], which [atoi] reads as 0: every step is closed Pass and
    no error is logged, whatever the server answered. *)
Theorem unbound_status_never_fails s e σ :
  In s generated_scripts ->
  buffers_fit s e σ = true ->
  at_iteration_start σ ->
  (forall k, ext_param e "status" k = None) ->
  exists σ',
    Action s e σ = Ok 0 σ'
    /\ tx_ends (log σ')
       = tx_ends (log σ)
         ++ List.map (fun st => (step_name st, LR_PASS)) (steps s)
         ++ [(journey_tx, LR_AUTO)]
    /\ errors (log σ') = errors (log σ).
Proof.
  intros Hs Hfit Hstart Hext. exists (action_state s e σ).
  split; [apply iteration_state; assumption|].
  pose proof (journey_status_unbound s e σ Hstart) as HP.
  rewrite action_state_log. split.
  - unfold tx_ends. rewrite collect_app. f_equal.
    fold (tx_ends (action_events s e σ)).
    rewrite tx_ends_action_events, (steps_verdicts_unbound e _ _ _ HP Hext).
    reflexivity.
  - unfold errors. rewrite collect_app.
    fold (errors (action_events s e σ)).
    rewrite errors_action_events, (errors_steps_unbound s e _ _ _ HP Hext).
    apply app_nil_r.
Qed.

Lemma unbound_status_never_fails_witness :
  exists σ',
    Action bt busy_env initial_state = Ok 0 σ'
    /\ tx_ends (log σ')
       = [("ComparisonClickthrough", LR_PASS); ("PlanSelection", LR_PASS);
          ("IdentityVerification", LR_PASS); ("BasketReview", LR_PASS);
          ("CheckoutPayment", LR_PASS);
          ("OrderConfirmationProvisioning", LR_PASS);
          ("Full_Customer_Journey", LR_AUTO)]
    /\ errors (log σ') = [].
Proof.
  destruct (unbound_status_never_fails bt busy_env initial_state)
    as (σ' & E & T & R);
    [right; right; left; reflexivity | vm_compute; reflexivity
    | repeat split; reflexivity | reflexivity |].
  exists σ'. split; [exact E|]. split; [exact T|exact R].
Defined.

(** C1: the status check reads the parameter [status], which no
    statement of the scripts binds.  Under a runtime that holds no such
    parameter the check sees the text [{status}], which [atoi] reads as
    0: whatever status the server answers, every step transaction is
    closed Pass and nothing is logged, also where the status of the
    response is 400 or more and the outcome should be Fail. *)
Theorem step_outcome_ignores_response s e σ :
  In s generated_scripts ->
  buffers_fit s e σ = true ->
  at_iteration_start σ ->
  (forall k, ext_param e "status" k = None) ->
  exists σ' verdicts,
    Action s e σ = Ok 0 σ'
    /\ tx_ends (log σ')
       = tx_ends (log σ) ++ verdicts ++ [(journey_tx, LR_AUTO)]
    /\ length verdicts = length (steps s)
    /\ errors (log σ') = errors (log σ)
    /\ forall i st,
         steps s !! i = Some st ->
         let status := http_status e (n_requests σ + S i)%nat in
         verdicts !! i = Some (step_name st, LR_PASS)
         /\ (400 <= status -> Spec.classify status = LR_FAIL).
Proof.
  intros Hs Hfit Hstart Hext.
  exists (action_state s e σ),
    (List.map (fun st => (step_name st, LR_PASS)) (steps s)).
  split; [apply iteration_state; assumption|].
  pose proof (journey_status_unbound s e σ Hstart) as HP.
  rewrite action_state_log. split; [|split; [apply length_map|split]].
  - unfold tx_ends. rewrite collect_app. f_equal.
    fold (tx_ends (action_events s e σ)).
    rewrite tx_ends_action_events, (steps_verdicts_unbound e _ _ _ HP Hext).
    reflexivity.
  - unfold errors. rewrite collect_app.
    fold (errors (action_events s e σ)).
    rewrite errors_action_events, (errors_steps_unbound s e _ _ _ HP Hext).
    apply app_nil_r.
  - intros i st Hi status. split.
    + change (List.map (fun st0 => (step_name st0, LR_PASS)) (steps s))
        with ((fun st0 => (step_name st0, LR_PASS)) <$> steps s).
      rewrite list_lookup_fmap, Hi. reflexivity.
    + apply Journey.classify_fail.
Qed.

Lemma step_outcome_ignores_response_witness :
  exists σ' verdicts,
    Action argos failing_server_env initial_state = Ok 0 σ'
    /\ tx_ends (log σ') = verdicts ++ [(journey_tx, LR_AUTO)]
    /\ errors (log σ') = []
    /\ http_status failing_server_env 1 = 500
    /\ Spec.classify 500 = LR_FAIL
    /\ verdicts !! 0%nat = Some ("ProductDiscovery", LR_PASS).
Proof.
  destruct (step_outcome_ignores_response argos failing_server_env
              initial_state)
    as (σ' & verdicts & E & T & _ & R & H);
    [left; reflexivity | vm_compute; reflexivity
    | repeat split; reflexivity | reflexivity |].
  exists σ', verdicts. split; [exact E|]. split; [exact T|].
  split; [exact R|]. split; [reflexivity|]. split; [reflexivity|].
  exact (proj1 (H 0%nat argos_step1 eq_refl)).
Defined.

(** *** The transaction named after the parameter *)

Lemma starts_step_events s e st P k :
  tx_starts (step_events s e st P k) = [step_name st]
  /\ misuses (step_events s e st P k) = ["{TSN}"].
Proof.
  unfold step_events, verdict_events.
  destruct (400 <=? _); split; reflexivity.
Qed.

Lemma starts_steps_events s e l : forall P k,
  tx_starts (steps_events s e l P k) = List.map step_name l
  /\ misuses (steps_events s e l P k)
     = List.map (fun _ => "{TSN}") l.
Proof.
  induction l as [|st l IH]; intros P k; [split; reflexivity|].
  cbn [steps_events List.map]. unfold tx_starts, misuses in *.
  rewrite !collect_app.
  destruct (IH (<["TSN":=step_name st]> P) (S k)) as [-> ->].
  destruct (starts_step_events s e st (<["TSN":=step_name st]> P) k)
    as [H1 H2].
  unfold tx_starts, misuses in H1, H2. rewrite H1, H2.
  split; reflexivity.
Qed.

Lemma completed_message_in s e l : forall P k i st,
  l !! i = Some st ->
  In (EvOutput ("Completed step: {TSN} - Response time: "
                  +:+ fmt_d (tx_duration e "{TSN}" (k + S i)) +:+ " ms"))
     (steps_events s e l P k).
Proof.
  intros P k i st Hi.
  apply (Journey.steps_events_in s e l P k i st _ Hi).
  unfold step_events. rewrite Nat.add_succ_r.
  apply in_or_app. right. apply in_or_app. right.
  right. left. reflexivity.
Qed.

(** X8: Each step block ends with [lr_end_transaction("{TSN}", LR_AUTO)]
    and reports [lr_get_transaction_duration("{TSN}")].  The name is
    not evaluated: the transactions opened are those of the journey and
    of the steps, none is called [{TSN}], so the call closes nothing
    (the step transaction was closed by the status check) and the
    response time in the message is that of a transaction that never
    ran. *)
Theorem step_duration_of_unopened_transaction s e σ :
  In s generated_scripts ->
  buffers_fit s e σ = true ->
  at_iteration_start σ ->
  exists σ' events,
    Action s e σ = Ok 0 σ'
    /\ log σ' = log σ ++ events
    /\ tx_starts events = journey_tx :: List.map step_name (steps s)
    /\ ~ In "{TSN}" (tx_starts events)
    /\ misuses events = List.map (fun _ => "{TSN}") (steps s)
    /\ forall i st,
         steps s !! i = Some st ->
         In (EvOutput ("Completed step: {TSN} - Response time: "
                         +:+ fmt_d (tx_duration e "{TSN}" (n_requests σ + S i))
                         +:+ " ms")) events.
Proof.
  intros Hs Hfit Hstart.
  exists (action_state s e σ), (action_events s e σ).
  split; [apply iteration_state; assumption|].
  split; [apply action_state_log|].
  destruct (starts_steps_events s e (steps s)
              (journey_params s e (n_time σ) (params σ)) (n_requests σ))
    as [Hst Hmis].
  assert (Hstarts : tx_starts (action_events s e σ)
                    = journey_tx :: List.map step_name (steps s)).
  { unfold action_events. cbv zeta. unfold tx_starts in *.
    rewrite !collect_app, Hst. cbn [collect tx_start_of app].
    rewrite app_nil_r. reflexivity. }
  split; [exact Hstarts|]. split; [|split].
  - rewrite Hstarts. intros [H|H]; [discriminate H|].
    apply in_map_iff in H as (st & Hname & Hin).
    pose proof (brace_free_forall _ _ (generated_steps_ok s Hs) Hin) as Hb.
    rewrite Hname in Hb. discriminate Hb.
  - unfold action_events. cbv zeta. unfold misuses in *.
    rewrite !collect_app, Hmis. cbn [collect misuse_of app].
    apply app_nil_r.
  - intros i st Hi. unfold action_events. cbv zeta.
    apply in_or_app. right. apply in_or_app. left.
    apply (completed_message_in s e _ _ _ i st Hi).
Qed.

Lemma step_duration_of_unopened_transaction_witness :
  exists σ' events,
    Action argos_short sample_env initial_state = Ok 0 σ'
    /\ log σ' = events
    /\ tx_starts events
       = ["Full_Customer_Journey"; "ProductDiscovery"; "BasketManagement"]
    /\ misuses events = ["{TSN}"; "{TSN}"].
Proof.
  destruct (step_duration_of_unopened_transaction argos_short sample_env
              initial_state)
    as (σ' & events & E & L & S' & _ & M' & _);
    [right; left; reflexivity | vm_compute; reflexivity
    | repeat split; reflexivity |].
  exists σ', events. split; [exact E|]. split; [exact L|].
  split; [exact S'|exact M'].
Defined.

(** *** The iteration header *)

Lemma eval_twice_unbound e P k n :
  name_chars n = true -> P !! n = None -> ext_param e n k = None ->
  eval_with e P k (eval_with e P k ("{" +:+ n +:+ "}")) = "{" +:+ n +:+ "}".
Proof.
  intros Hn HP Hext.
  assert (H : eval_with e P k ("{" +:+ n +:+ "}") = "{" +:+ n +:+ "}").
  { rewrite eval_param by exact Hn. unfold param_or_text, param_value.
    rewrite HP, Hext. reflexivity. }
  rewrite H. exact H.
Qed.

Lemma eval_twice_plain e P k n v :
  name_chars n = true -> P !! n = None -> ext_param e n k = Some v ->
  brace_free v = true ->
  eval_with e P k (eval_with e P k ("{" +:+ n +:+ "}")) = v.
Proof.
  intros Hn HP Hext Hv.
  assert (H : eval_with e P k ("{" +:+ n +:+ "}") = v).
  { rewrite eval_param by exact Hn. unfold param_or_text, param_value.
    rewrite HP, Hext. reflexivity. }
  rewrite H. apply eval_plain. exact Hv.
Qed.

(** X9: [x-test-iteration] is attached with
    [lr_eval_string("{pIteration}")]: every step request carries the
    value the runtime gives [pIteration], or the text [{pIteration}]
    itself when the test defines no such parameter; the completion
    event does not carry the header. *)
Theorem test_iteration_header s e σ (value : option string) :
  In s generated_scripts ->
  buffers_fit s e σ = true ->
  at_iteration_start σ ->
  params σ !! "pIteration" = None ->
  (forall k, ext_param e "pIteration" k = value) ->
  (forall v, value = Some v -> brace_free v = true) ->
  exists σ' sent completion,
    Action s e σ = Ok 0 σ'
    /\ requests (log σ') = requests (log σ) ++ sent ++ [completion]
    /\ length sent = length (steps s)
    /\ (forall r, In r sent ->
          header "x-test-iteration" r
          = Some (match value with Some v => v | None => "{pIteration}" end))
    /\ header "x-test-iteration" completion = None.
Proof.
  intros Hs Hfit Hstart HP Hext Hplain.
  exists (action_state s e σ). eexists _, _.
  split; [apply iteration_state; assumption|].
  split.
  { rewrite action_state_log. unfold requests. rewrite collect_app.
    fold (requests (action_events s e σ)).
    rewrite requests_action_events. reflexivity. }
  split; [apply steps_requests_length|].
  split; [|reflexivity].
  intros r Hr.
  apply list_elem_of_In, list_elem_of_lookup in Hr as [i Hi].
  rewrite steps_requests_lookup in Hi.
  destruct (steps s !! i) as [st|]; [|discriminate Hi].
  injection Hi as <-.
  change (Some (eval_with e
                  (steps_params (take (S i) (steps s))
                     (journey_params s e (n_time σ) (params σ)))
                  (n_requests σ + i)
                  (eval_with e
                     (steps_params (take (S i) (steps s))
                        (journey_params s e (n_time σ) (params σ)))
                     (n_requests σ + i) ("{" +:+ "pIteration" +:+ "}")))
          = Some (match value with Some v => v | None => "{pIteration}" end)).
  f_equal.
  assert (HP' : steps_params (take (S i) (steps s))
                  (journey_params s e (n_time σ) (params σ)) !! "pIteration"
                = None).
  { rewrite steps_params_other, journey_params_other by discriminate.
    exact HP. }
  destruct value as [v|].
  - apply eval_twice_plain; auto.
  - apply eval_twice_unbound; auto.
Qed.

Lemma test_iteration_header_witness :
  exists σ' sent completion,
    Action argos sample_env initial_state = Ok 0 σ'
    /\ requests (log σ') = sent ++ [completion]
    /\ (forall r, In r sent -> header "x-test-iteration" r = Some "3").
Proof.
  destruct (test_iteration_header argos sample_env initial_state (Some "3"))
    as (σ' & sent & completion & E & R & _ & H & _);
    [left; reflexivity | vm_compute; reflexivity
    | repeat split; reflexivity | reflexivity | reflexivity
    | intros v [= <-]; reflexivity |].
  exists σ', sent, completion. split; [exact E|]. split; [exact R|exact H].
Defined.

End Outcomes.

(** ** The arrays of the script *)

Module Buffers.
Import LR CLib CLibFacts Script Trace Obs Facts Run Inputs Tactics Lifecycle
  States Iteration.

(** *** Where an iteration stops *)

Lemma exec_step_overflow s e st σ :
  fits (capacity Buf_dt_test_header) (header_text s e st) = false ->
  exec_step s e st σ
  = Fault (BufferOverflow Buf_dt_test_header (header_text s e st)).
Proof.
  intros H. unfold header_text in *. unfold exec_step.
  run_calls. unfold sprintf. rewrite H. reflexivity.
Qed.

Lemma exec_steps_first_overflow s e l : forall σ,
  forallb step_ok l = true ->
  hdr_next σ = [] -> hdr_auto σ = [] -> tx_open σ = [journey_tx] ->
  exec_steps s e l σ
  = match List.find overflows
            (List.map (fun st => (Buf_dt_test_header, header_text s e st)) l)
    with
    | Some bt => Fault (BufferOverflow (fst bt) (snd bt))
    | None => Ok tt (steps_state s e l σ)
    end.
Proof.
  induction l as [|st l IH]; intros σ Hok Hn Ha Ht; [reflexivity|].
  cbn [forallb] in Hok. apply andb_true_iff in Hok as [Hst Hok].
  cbn [exec_steps List.map List.find steps_state]. rewrite run_bind.
  unfold overflows at 1. cbn [fst snd].
  destruct (fits (capacity Buf_dt_test_header) (header_text s e st)) eqn:Hfit;
    cbn [negb].
  - rewrite (exec_step_state s e st σ Hst Hfit Hn Ha Ht).
    apply IH; [exact Hok|reflexivity..].
  - rewrite (exec_step_overflow s e st σ Hfit). reflexivity.
Qed.

Lemma generate_ids_first_overflow s e σ :
  generate_ids s e σ
  = match List.find overflows
            [(Buf_correlation_id, correlation_text s e (n_time σ));
             (Buf_customer_id, customer_text e (n_time σ));
             (Buf_session_id, session_text s e);
             (Buf_trace_id, trace_text s e (n_time σ))]
    with
    | Some bt => Fault (BufferOverflow (fst bt) (snd bt))
    | None => Ok tt (ids_state s e σ)
    end.
Proof.
  destruct σ as [P hn ha ck tx se lg nr nt nrd sd dt co cu ss tr].
  unfold ids_state, ids_params, trace_text, correlation_text, customer_text,
    session_text, overflows.
  cbn [n_time List.find fst snd].
  unfold generate_ids. run_calls. run_fields. unfold sprintf.
  destruct (fits (capacity Buf_correlation_id) _) eqn:Hco; cbn [negb];
    [|reflexivity].
  run_calls. run_fields.
  destruct (fits (capacity Buf_customer_id) _) eqn:Hcu; cbn [negb];
    [|reflexivity].
  run_calls. run_fields.
  destruct (fits (capacity Buf_session_id) _) eqn:Hse; cbn [negb];
    [|reflexivity].
  run_calls. run_fields.
  destruct (fits (capacity Buf_trace_id) _) eqn:Htr; cbn [negb];
    [|reflexivity].
  run_calls. run_fields. reflexivity.
Qed.

Lemma find_headers_none s e l :
  List.find overflows
    (List.map (fun st => (Buf_dt_test_header, header_text s e st)) l) = None ->
  headers_fit s e l = true.
Proof.
  induction l as [|st l IH]; [reflexivity|].
  cbn [List.map List.find headers_fit forallb].
  unfold headers_fit in IH. unfold overflows at 1. cbn [fst snd].
  destruct (fits _ _); cbn [negb andb]; [exact IH|discriminate].
Qed.

Lemma find_overflows bt l : List.find overflows l = Some bt ->
  fits (capacity (fst bt)) (snd bt) = false.
Proof.
  intros H. apply find_some in H as [_ H]. unfold overflows in H.
  apply negb_true_iff in H. exact H.
Qed.

Lemma Action_first_overflow s e σ :
  forallb step_ok (steps s) = true ->
  at_iteration_start σ ->
  Action s e σ
  = match first_overflow s e (n_time σ) with
    | Some bt => Fault (BufferOverflow (fst bt) (snd bt))
    | None => Ok 0 (action_state s e σ)
    end.
Proof.
  intros Hok Hstart.
  unfold first_overflow, formatted_texts. cbn [app List.find].
  pose proof (generate_ids_first_overflow s e σ) as Hids.
  cbn [List.find] in Hids.
  destruct (overflows (Buf_correlation_id, _)) eqn:Hco;
    [unfold Action; rewrite run_bind, Hids; reflexivity|].
  destruct (overflows (Buf_customer_id, _)) eqn:Hcu;
    [unfold Action; rewrite run_bind, Hids; reflexivity|].
  destruct (overflows (Buf_session_id, _)) eqn:Hse;
    [unfold Action; rewrite run_bind, Hids; reflexivity|].
  destruct (overflows (Buf_trace_id, _)) eqn:Htr;
    [unfold Action; rewrite run_bind, Hids; reflexivity|].
  unfold overflows in Hco, Hcu, Hse, Htr. cbn [fst snd] in *.
  apply negb_false_iff in Hco, Hcu, Hse, Htr.
  assert (Hfit : ids_fit s e (n_time σ) = true)
    by (unfold ids_fit; rewrite Hco, Hcu, Hse, Htr; reflexivity).
  destruct (List.find overflows _) as [bt|] eqn:Hfind.
  - destruct Hstart as (Hn & Ha & Ht & _).
    unfold Action. rewrite run_bind, Hids.
    destruct σ as [P hn ha ck tx se lg nr nt nrd sd dt co cu ss tr].
    cbn [hdr_next hdr_auto tx_open] in Hn, Ha, Ht. subst hn ha tx.
    unfold ids_state. run_calls. run_fields. cbn [existsb app].
    match goal with
    | |- context [exec_steps s e (steps s) ?Σ] =>
        rewrite (exec_steps_first_overflow s e (steps s) Σ Hok
                   eq_refl eq_refl eq_refl)
    end.
    rewrite Hfind. reflexivity.
  - apply Action_state; [exact Hok| |exact Hstart].
    unfold buffers_fit. rewrite Hfit.
    apply (find_headers_none s e _ Hfind).
Qed.

(** X10: An iteration runs to its end exactly when every text it formats
    fits its array.  Otherwise it stops at the first [sprintf] whose
    text does not fit, in the order of the calls: the correlation id,
    the customer id, the session id, the trace id, then the tracing
    header of each step. *)
Theorem iteration_stops_at_first_overflow s e σ :
  In s generated_scripts ->
  at_iteration_start σ ->
  match first_overflow s e (n_time σ) with
  | Some (b, text) =>
      Action s e σ = Fault (BufferOverflow b text)
      /\ fits (capacity b) text = false
      /\ buffers_fit s e σ = false
  | None =>
      (exists σ', Action s e σ = Ok 0 σ') /\ buffers_fit s e σ = true
  end.
Proof.
  intros Hs Hstart.
  pose proof (Action_first_overflow s e σ (generated_steps_ok s Hs) Hstart)
    as HA.
  destruct (first_overflow s e (n_time σ)) as [[b text]|] eqn:Hfirst.
  - split; [exact HA|].
    pose proof (find_overflows _ _ Hfirst) as Hno. split; [exact Hno|].
    destruct (buffers_fit s e σ) eqn:Hfit; [|reflexivity].
    rewrite (iteration_state s e σ Hs Hfit Hstart) in HA. discriminate HA.
  - split; [eexists; exact HA|].
    unfold first_overflow, formatted_texts in Hfirst.
    cbn [app List.find] in Hfirst. unfold buffers_fit, ids_fit.
    unfold overflows at 1 2 3 4 in Hfirst. cbn [fst snd] in Hfirst.
    destruct (fits (capacity Buf_correlation_id) _); [|discriminate Hfirst].
    destruct (fits (capacity Buf_customer_id) _); [|discriminate Hfirst].
    destruct (fits (capacity Buf_session_id) _); [|discriminate Hfirst].
    destruct (fits (capacity Buf_trace_id) _); [|discriminate Hfirst].
    cbn [negb andb] in *. apply (find_headers_none s e _ Hfirst).
Qed.

Lemma iteration_stops_at_first_overflow_witness :
  first_overflow argos busy_env 0
  = Some (Buf_trace_id,
          "trace_LR_Argos_LoadTest_20260106_1000_1000_1767707283_1767707283")
  /\ Action argos busy_env initial_state
     = Fault (BufferOverflow Buf_trace_id
                "trace_LR_Argos_LoadTest_20260106_1000_1000_1767707283_1767707283").
Proof.
  pose proof (iteration_stops_at_first_overflow argos busy_env initial_state
                (or_introl eq_refl)) as H.
  assert (Hfirst : first_overflow argos busy_env 0
            = Some (Buf_trace_id,
                    "trace_LR_Argos_LoadTest_20260106_1000_1000_1767707283_1767707283"))
    by (vm_compute; reflexivity).
  change (n_time initial_state) with 0%nat in H. rewrite Hfirst in H.
  split; [reflexivity|]. apply H. repeat split; reflexivity.
Defined.

End Buffers.

(** ** How long the formatted texts can get *)

Module Lengths.
Import LR CLib CLibFacts Script Trace Obs Facts Run Inputs Tactics Lifecycle
  States Iteration.

(** *** The length of [%d] *)

Lemma digit_val_range c : is_digit c = true -> 0 <= digit_val c <= 9.
Proof.
  unfold is_digit, digit_val.
  intros [H1 H2]%andb_true_iff.
  apply Nat.leb_le in H1, H2. lia.
Qed.

Lemma atoi_digits_lower s : forall acc,
  all_chars is_digit s = true -> 0 <= acc ->
  acc * 10 ^ Z.of_nat (String.length s) <= atoi_digits acc s.
Proof.
  induction s as [|c s IH]; intros acc Hs Hacc.
  - simpl. lia.
  - cbn [all_chars] in Hs. apply andb_true_iff in Hs as [Hc Hs].
    cbn [atoi_digits String.length]. rewrite Hc.
    pose proof (digit_val_range c Hc) as Hd.
    specialize (IH (acc * 10 + digit_val c) Hs ltac:(lia)).
    rewrite Nat2Z.inj_succ, Z.pow_succ_r by lia.
    assert (0 < 10 ^ Z.of_nat (String.length s)) by (apply Z.pow_pos_nonneg; lia).
    nia.
Qed.

(** The decimal digits of a positive number start with a digit other
    than 0. *)
Lemma to_uint_head p :
  exists c s,
    NilEmpty.string_of_uint (Pos.to_uint p) = String c s
    /\ all_chars is_digit s = true /\ 1 <= digit_val c.
Proof.
  pose proof (DecimalPos.Unsigned.to_uint_nonnil p) as Hnil.
  pose proof (DecimalPos.Unsigned.to_uint_nonzero p) as Hzero.
  pose proof (DecimalPos.Unsigned.to_of (Pos.to_uint p)) as Hnorm.
  rewrite DecimalPos.Unsigned.of_to in Hnorm. cbn [N.to_uint] in Hnorm.
  destruct (Pos.to_uint p) as [|u|u|u|u|u|u|u|u|u|u] eqn:E;
    [contradiction| |
     eexists _, _; (split; [reflexivity|]);
     (split; [apply string_of_uint_digits|vm_compute; discriminate])..].
  exfalso.
  change (Decimal.unorm (Decimal.D0 u)) with (Decimal.unorm u) in Hnorm.
  unfold Decimal.unorm in Hnorm.
  pose proof (DecimalFacts.nb_digits_nzhead u) as Hlen.
  destruct (Decimal.nzhead u) eqn:Eh.
  - injection Hnorm as ->. apply Hzero. reflexivity.
  - rewrite <- Hnorm in Hlen. simpl in Hlen. lia.
  - rewrite <- Hnorm in Hlen. simpl in Hlen. lia.
  - rewrite <- Hnorm in Hlen. simpl in Hlen. lia.
  - rewrite <- Hnorm in Hlen. simpl in Hlen. lia.
  - rewrite <- Hnorm in Hlen. simpl in Hlen. lia.
  - rewrite <- Hnorm in Hlen. simpl in Hlen. lia.
  - rewrite <- Hnorm in Hlen. simpl in Hlen. lia.
  - rewrite <- Hnorm in Hlen. simpl in Hlen. lia.
  - rewrite <- Hnorm in Hlen. simpl in Hlen. lia.
  - rewrite <- Hnorm in Hlen. simpl in Hlen. lia.
Qed.

Lemma digits_length p n :
  Z.pos p < 10 ^ Z.of_nat n ->
  (String.length (NilEmpty.string_of_uint (Pos.to_uint p)) <= n)%nat.
Proof.
  intros Hp.
  pose proof (atoi_digits_uint (Pos.to_uint p)) as Hv.
  rewrite DecimalPos.Unsigned.of_to in Hv.
  destruct (to_uint_head p) as (c & s & E & Hs & Hc).
  rewrite E in *. cbn [String.length].
  assert (Hd : is_digit c = true).
  { pose proof (string_of_uint_digits (Pos.to_uint p)) as Ha.
    rewrite E in Ha. cbn [all_chars] in Ha.
    apply andb_true_iff in Ha as [Ha _]. exact Ha. }
  cbn [atoi_digits] in Hv. rewrite Hd in Hv.
  pose proof (atoi_digits_lower s (0 * 10 + digit_val c) Hs ltac:(lia)) as Hlow.
  rewrite Hv in Hlow. change (Z.of_N (N.pos p)) with (Z.pos p) in Hlow.
  assert (H10 : 10 ^ Z.of_nat (String.length s) < 10 ^ Z.of_nat n).
  { assert (0 < 10 ^ Z.of_nat (String.length s))
      by (apply Z.pow_pos_nonneg; lia).
    nia. }
  apply Z.pow_lt_mono_r_iff in H10; lia.
Qed.

Lemma string_of_uint_pos p :
  NilZero.string_of_uint (Pos.to_uint p)
  = NilEmpty.string_of_uint (Pos.to_uint p).
Proof.
  pose proof (DecimalPos.Unsigned.to_uint_nonnil p) as Hnil.
  unfold NilZero.string_of_uint.
  destruct (Pos.to_uint p); [contradiction|reflexivity..].
Qed.

(** A number of at most [n] digits takes at most [n] characters, and
    one more for the sign when it is negative. *)
Lemma fmt_d_length z n :
  (1 <= n)%nat -> - 10 ^ Z.of_nat n < z < 10 ^ Z.of_nat n ->
  (String.length (fmt_d z) <= n + (if (z <? 0)%Z then 1 else 0))%nat.
Proof.
  intros Hn Hz. unfold fmt_d. destruct z as [|p|p].
  - simpl. lia.
  - cbn [Z.to_int NilZero.string_of_int Z.ltb Z.compare].
    rewrite string_of_uint_pos, Nat.add_0_r. apply digits_length. lia.
  - cbn [Z.to_int NilZero.string_of_int Z.ltb Z.compare String.length].
    rewrite string_of_uint_pos.
    pose proof (digits_length p n ltac:(lia)). lia.
Qed.

Lemma fmt_d_length_int z :
  in_int_range z -> (String.length (fmt_d z) <= 11)%nat.
Proof.
  unfold in_int_range, INT_MIN, INT_MAX. intros Hz.
  pose proof (fmt_d_length z 10 ltac:(lia)) as H.
  change (10 ^ Z.of_nat 10) with 10000000000 in H.
  specialize (H ltac:(lia)). destruct (z <? 0); lia.
Qed.

Lemma fmt_d_length_nat z n :
  (1 <= n)%nat -> 0 <= z < 10 ^ Z.of_nat n ->
  (String.length (fmt_d z) <= n)%nat.
Proof.
  intros Hn Hz.
  pose proof (fmt_d_length z n Hn) as H.
  assert (0 < 10 ^ Z.of_nat n) by (apply Z.pow_pos_nonneg; lia).
  specialize (H ltac:(lia)).
  destruct (Z.ltb_spec z 0); lia.
Qed.

Lemma cast_int_range x : in_int_range (cast_int x).
Proof.
  unfold in_int_range, cast_int, INT_MIN, INT_MAX.
  pose proof (Z.mod_pos_bound (x + 2147483648) 4294967296 ltac:(lia)). lia.
Qed.

Lemma salt_length x : (String.length (fmt_d (c_rem x 10000)) <= 5)%nat.
Proof.
  unfold c_rem.
  pose proof (Z.rem_bound_abs x 10000 ltac:(lia)) as Hb.
  pose proof (fmt_d_length (Z.rem x 10000) 4 ltac:(lia)) as H.
  change (10 ^ Z.of_nat 4) with 10000 in H.
  specialize (H ltac:(lia)). destruct (Z.rem x 10000 <? 0); lia.
Qed.

Lemma fits_length cap t : fits cap t = true <-> (String.length t < cap)%nat.
Proof. unfold fits. apply Nat.ltb_lt. Qed.

(** *** Which arrays are large enough *)

Lemma header_length_int s e st :
  In s generated_scripts -> in_int_range (vuser_id e) -> In st (steps s) ->
  (String.length (header_text s e st) <= 167)%nat.
Proof.
  intros Hs Hv Hst. pose proof (fmt_d_length_int _ Hv) as Lv.
  destruct Hs as [<-|[<-|[<-|[]]]]; cbn [steps argos argos_short bt] in Hst;
    repeat (destruct Hst as [<-|Hst]; [count_chars append_length|]);
    destruct Hst.
Qed.

Lemma headers_fit_int s e :
  In s generated_scripts -> in_int_range (vuser_id e) ->
  headers_fit s e (steps s) = true.
Proof.
  intros Hs Hv. unfold headers_fit. apply forallb_forall. intros st Hst.
  apply fits_length. pose proof (header_length_int s e st Hs Hv Hst).
  cbn [capacity]. lia.
Qed.

(** X11: Whatever [int] values the worker id and the iteration number
    take, and whatever the clock shows, the correlation id has at most
    62 characters, the customer id at most 38 and the tracing header of
    a step, as [sprintf] writes it, at most 167, in the three scripts:
    they fit their arrays of 64, 64 and 1024 bytes, and an iteration
    can only overrun [session_id] or [trace_id]. *)
Theorem only_session_and_trace_can_overflow s e k :
  In s generated_scripts ->
  in_int_range (vuser_id e) ->
  in_int_range (iteration_number e) ->
  (String.length (correlation_text s e k) <= 62)%nat
  /\ (String.length (customer_text e k) <= 38)%nat
  /\ (forall st, In st (steps s) ->
        (String.length (header_text s e st) <= 167)%nat)
  /\ fits (capacity Buf_correlation_id) (correlation_text s e k) = true
  /\ fits (capacity Buf_customer_id) (customer_text e k) = true
  /\ headers_fit s e (steps s) = true
  /\ forall b text,
       first_overflow s e k = Some (b, text) ->
       b = Buf_session_id \/ b = Buf_trace_id.
Proof.
  intros Hs Hv Hi.
  pose proof (fmt_d_length_int _ Hv) as Lv.
  pose proof (fmt_d_length_int _ Hi) as Li.
  pose proof (fmt_d_length_int _ (cast_int_range (time_now e k))) as Lt.
  pose proof (salt_length (cast_int (time_now e (S k)))) as Ls.
  assert (Lco : (String.length (correlation_text s e k) <= 62)%nat)
    by (destruct Hs as [<-|[<-|[<-|[]]]]; count_chars append_length).
  assert (Lcu : (String.length (customer_text e k) <= 38)%nat)
    by (count_chars append_length).
  assert (Hco : fits (capacity Buf_correlation_id) (correlation_text s e k)
                = true)
    by (apply fits_length; cbn [capacity]; lia).
  assert (Hcu : fits (capacity Buf_customer_id) (customer_text e k) = true)
    by (apply fits_length; cbn [capacity]; lia).
  pose proof (headers_fit_int s e Hs Hv) as Hh.
  split; [exact Lco|]. split; [exact Lcu|].
  split; [intros st; apply header_length_int; assumption|].
  split; [exact Hco|]. split; [exact Hcu|]. split; [exact Hh|].
  intros b text Hfirst. apply find_some in Hfirst as [Hin Hover].
  unfold overflows in Hover. cbn [fst snd] in Hover.
  apply negb_true_iff in Hover.
  unfold formatted_texts in Hin. cbn [app] in Hin.
  destruct Hin as [[= <- <-]|[[= <- <-]|[[= <- <-]|[[= <- <-]|Hin]]]].
  - rewrite Hco in Hover. discriminate Hover.
  - rewrite Hcu in Hover. discriminate Hover.
  - left. reflexivity.
  - right. reflexivity.
  - apply in_map_iff in Hin as (st & [= <- <-] & Hst).
    unfold headers_fit in Hh. rewrite forallb_forall in Hh.
    rewrite (Hh st Hst) in Hover. discriminate Hover.
Qed.

Lemma only_session_and_trace_can_overflow_witness :
  (String.length (correlation_text argos busy_env 0) <= 62)%nat
  /\ (String.length (customer_text busy_env 0) <= 38)%nat
  /\ headers_fit argos busy_env (steps argos) = true
  /\ first_overflow argos busy_env 0
     = Some (Buf_trace_id, trace_text argos busy_env 0).
Proof.
  destruct (only_session_and_trace_can_overflow argos busy_env 0)
    as (H1 & H2 & _ & _ & _ & H3 & _);
    [left; reflexivity | vm_compute; split; discriminate
    | vm_compute; split; discriminate |].
  split; [exact H1|]. split; [exact H2|]. split; [exact H3|].
  vm_compute. reflexivity.
Defined.

(** X12: While the worker id and the iteration number are not negative and
    have at most seven digits together, and the clock is within [int],
    every text fits and the iteration runs to its end.  (With eight
    digits the Argos trace id has 64 characters.) *)
Theorem seven_digits_fit s e σ (a b : nat) :
  In s generated_scripts ->
  (1 <= a)%nat -> (1 <= b)%nat -> (a + b <= 7)%nat ->
  0 <= vuser_id e < 10 ^ Z.of_nat a ->
  0 <= iteration_number e < 10 ^ Z.of_nat b ->
  (forall k, 0 <= time_now e k <= INT_MAX) ->
  at_iteration_start σ ->
  buffers_fit s e σ = true /\ exists σ', Action s e σ = Ok 0 σ'.
Proof.
  intros Hs Ha Hb Hab Hv Hi Ht Hstart.
  assert (Hfit : buffers_fit s e σ = true).
  { pose proof (fmt_d_length_nat _ a Ha Hv) as Lv.
    pose proof (fmt_d_length_nat _ b Hb Hi) as Li.
    assert (Lt : forall k, (String.length (fmt_d (cast_int (time_now e k)))
                            <= 10)%nat).
    { intros k. rewrite (Identifiers.cast_int_id _ (Ht k)).
      apply fmt_d_length_nat; [lia|].
      change (10 ^ Z.of_nat 10) with 10000000000.
      specialize (Ht k). unfold INT_MAX in Ht. lia. }
    pose proof (Lt (n_time σ)) as L0.
    pose proof (Lt (S (S (n_time σ)))) as L2.
    pose proof (salt_length (cast_int (time_now e (S (n_time σ))))) as Ls.
    assert (Hrange : in_int_range (vuser_id e)).
    { unfold in_int_range, INT_MIN, INT_MAX.
      assert (10 ^ Z.of_nat a <= 10 ^ 7)
        by (apply Z.pow_le_mono_r; lia).
      change (10 ^ 7) with 10000000 in *. lia. }
    unfold buffers_fit, ids_fit.
    rewrite (headers_fit_int s e Hs Hrange), andb_true_r.
    repeat (apply andb_true_iff; split);
      destruct Hs as [<-|[<-|[<-|[]]]]; (apply fits_length; count_chars append_length). }
  split; [exact Hfit|].
  eexists. apply (iteration_state s e σ Hs Hfit Hstart).
Qed.

Lemma seven_digits_fit_witness :
  buffers_fit argos sample_env initial_state = true
  /\ exists σ', Action argos sample_env initial_state = Ok 0 σ'.
Proof.
  apply (seven_digits_fit argos sample_env initial_state 1 1);
    [left; reflexivity | lia | lia | lia
    | vm_compute; split; [discriminate|reflexivity]
    | vm_compute; split; [discriminate|reflexivity]
    | intros k; vm_compute; split; discriminate
    | repeat split; reflexivity].
Defined.

End Lengths.

(** ** The virtual user from [vuser_init] to [vuser_end] *)

Module Vuser.
Import LR CLib CLibFacts Script Trace Obs Facts Run Inputs Tactics Lifecycle
  States Iteration.

(** *** [vuser_init] *)

(** X13: [vuser_init] cannot read outside the catalogs: with [rand()] not
    negative each index is within its array, and the call saves one
    entry of each catalog, logs its message, reads the clock once to
    seed the generator with [(unsigned)(time(NULL) + lr_get_vuser_id())],
    that is the sum modulo 2^32, draws three numbers, records the four replay
    settings, and neither sends a request nor opens a transaction. *)
Theorem vuser_init_effects s e σ :
  (forall k,
     0 <= rand_out e (cast_uint (time_now e (n_time σ) + vuser_id e)) k) ->
  exists σ' name email segment source,
    vuser_init s e σ = Ok 0 σ'
    /\ In name customer_names /\ In email customer_emails
    /\ In segment customer_segments /\ In source traffic_sources
    /\ params σ'
       = <["traffic_source" := source]>
           (<["customer_segment" := segment]>
              (<["customer_email" := email]>
                 (<["customer_name" := name]>
                    (<["LTN" := init_ltn s]>
                       (<["LSN" := init_lsn s]> (params σ))))))
    /\ log σ'
       = log σ ++ [EvOutput ("Starting LoadRunner test for " +:+ company s)]
    /\ settings σ' = settings σ ++ init_settings
    /\ n_requests σ' = n_requests σ
    /\ hdr_next σ' = hdr_next σ /\ hdr_auto σ' = hdr_auto σ
    /\ cookies σ' = cookies σ /\ tx_open σ' = tx_open σ
    /\ n_time σ' = S (n_time σ)
    /\ rand_seed σ' = cast_uint (time_now e (n_time σ) + vuser_id e)
    /\ n_rand σ' = 3%nat.
Proof.
  intros Hrand.
  set (seed := cast_uint (time_now e (n_time σ) + vuser_id e)) in *.
  destruct (Profile.rem_index _ 16 (Hrand 0%nat) eq_refl) as [B1 L1].
  destruct (Profile.rem_index _ 6 (Hrand 1%nat) eq_refl) as [B2 L2].
  destruct (Profile.rem_index _ 8 (Hrand 2%nat) eq_refl) as [B3 L3].
  destruct (Profile.catalog_entry customer_names _ L1) as (name & Hn).
  destruct (Profile.catalog_entry customer_emails _ L1) as (email & He).
  destruct (Profile.catalog_entry customer_segments _ L2) as (seg & Hs).
  destruct (Profile.catalog_entry traffic_sources _ L3) as (src & Hr).
  exists (match vuser_init s e σ with Ok _ σ' => σ' | Fault _ => σ end).
  exists name, email, seg, src.
  split; [|split; [exact (nth_error_In _ _ Hn)|
           split; [exact (nth_error_In _ _ He)|
           split; [exact (nth_error_In _ _ Hs)|
           split; [exact (nth_error_In _ _ Hr)|]]]]];
    subst seed;
    destruct σ as [P hn ha ck tx se lg nr nt nrd sd dt co cu ss tr];
    cbn [n_time] in *;
    unfold vuser_init; run_calls; run_fields; unfold index_array;
    rewrite B1, Hn; run_calls; run_fields;
    rewrite He; run_calls; run_fields;
    rewrite B2, Hs; run_calls; run_fields;
    rewrite B3, Hr; run_calls; run_fields.
  - reflexivity.
  - rewrite <- !app_assoc. repeat split; reflexivity.
Qed.

Lemma vuser_init_effects_witness :
  exists σ',
    vuser_init argos sample_env initial_state = Ok 0 σ'
    /\ settings σ' = init_settings
    /\ n_requests σ' = 0%nat /\ tx_open σ' = [] /\ n_rand σ' = 3%nat.
Proof.
  destruct (vuser_init_effects argos sample_env initial_state)
    as (σ' & name & email & seg & src & E & _ & _ & _ & _ & _ & _ & S'
        & R & _ & _ & _ & T & _ & _ & N);
    [intros k; cbn; lia|].
  exists σ'. split; [exact E|]. rewrite S', R, T, N.
  repeat split; reflexivity.
Defined.

(** *** What an iteration leaves behind *)

Lemma steps_params_tsn l : forall P,
  steps_params l P !! "TSN"
  = match last l with
    | Some st => Some (step_name st)
    | None => P !! "TSN"
    end.
Proof.
  induction l as [|st l IH]; intros P; [reflexivity|].
  cbn [steps_params]. rewrite IH.
  destruct l as [|x l]; [apply lookup_insert_eq|].
  change (last (st :: x :: l)) with (last (x :: l)).
  destruct (last (x :: l)) eqn:El; [reflexivity|].
  apply last_None in El. discriminate El.
Qed.

Lemma action_state_params s e σ :
  params (action_state s e σ)
  = steps_params (steps s) (journey_params s e (n_time σ) (params σ)).
Proof.
  unfold action_state. cbv zeta. cbn [params].
  destruct (steps_state_fields s e (steps s) (journey_state s e σ))
    as (_ & P & _).
  rewrite P. reflexivity.
Qed.

Lemma action_state_counters s e σ :
  n_requests (action_state s e σ) = (n_requests σ + S (length (steps s)))%nat
  /\ n_time (action_state s e σ) = S (S (S (n_time σ)))
  /\ settings (action_state s e σ) = settings σ.
Proof.
  unfold action_state. cbv zeta. cbn [n_requests n_time settings].
  destruct (steps_state_fields s e (steps s) (journey_state s e σ))
    as (_ & _ & R & _ & S' & _ & N).
  rewrite R, S', N. cbn [n_requests n_time settings journey_state].
  repeat split; lia.
Qed.

Lemma not_saved name :
  ~ In name saved_by_action ->
  name <> "correlation_id" /\ name <> "customer_id" /\ name <> "session_id"
  /\ name <> "trace_id" /\ name <> "LSN" /\ name <> "LTN" /\ name <> "TSN".
Proof.
  intros H. repeat split; intros ->; apply H; cbn; tauto.
Qed.

Lemma action_state_other s e σ name :
  ~ In name saved_by_action ->
  params (action_state s e σ) !! name = params σ !! name.
Proof.
  intros H. apply not_saved in H as (? & ? & ? & ? & ? & ? & ?).
  rewrite action_state_params, steps_params_other, journey_params_other
    by assumption.
  reflexivity.
Qed.

Lemma action_state_entry s e σ :
  at_iteration_start σ -> at_iteration_start (action_state s e σ).
Proof.
  intros (_ & _ & _ & Hst). unfold at_iteration_start.
  rewrite (action_state_other s e σ "status")
    by (cbn; intros [H|[H|[H|[H|[H|[H|[H|[]]]]]]]]; discriminate H).
  repeat split; try reflexivity. exact Hst.
Qed.

(** X14: [Action] ends in a state in which it can be entered again: no
    header pending or automatic, no transaction open, [status] still
    unbound.  It overwrites the seven parameters it saves and leaves
    every other one alone, so the customer profile of [vuser_init]
    lasts, whereas the labels that [vuser_init] saved as [LSN] and
    [LTN] are replaced by those of the journey before any request is
    sent; [TSN] is left naming the last step. *)
Theorem action_restores_entry_state s e σ :
  In s generated_scripts ->
  buffers_fit s e σ = true ->
  at_iteration_start σ ->
  exists σ',
    Action s e σ = Ok 0 σ'
    /\ at_iteration_start σ'
    /\ (forall name, ~ In name saved_by_action ->
          params σ' !! name = params σ !! name)
    /\ params σ' !! "LSN" = Some (lsn s)
    /\ params σ' !! "LTN" = Some (ltn s)
    /\ params σ' !! "TSN" = step_name <$> last (steps s)
    /\ settings σ' = settings σ
    /\ n_time σ' = S (S (S (n_time σ))).
Proof.
  intros Hs Hfit Hstart. exists (action_state s e σ).
  split; [apply iteration_state; assumption|].
  split; [apply action_state_entry; exact Hstart|].
  split; [intros name; apply action_state_other|].
  destruct (action_state_counters s e σ) as (_ & N & S').
  rewrite action_state_params.
  split; [|split; [|split; [|split; [exact S'|exact N]]]].
  - rewrite steps_params_other by discriminate.
    unfold journey_params.
    rewrite lookup_insert_ne by discriminate. apply lookup_insert_eq.
  - rewrite steps_params_other by discriminate.
    unfold journey_params. apply lookup_insert_eq.
  - rewrite steps_params_tsn.
    pose proof (generated_steps_nonempty s Hs) as Hne.
    destruct (last (steps s)) eqn:El; [reflexivity|].
    apply last_None in El. contradiction.
Qed.

Lemma action_restores_entry_state_witness :
  exists σ0 σ',
    vuser_init argos sample_env initial_state = Ok 0 σ0
    /\ params σ0 !! "LSN" = Some "BizObs-Journey-LoadTest"
    /\ Action argos sample_env σ0 = Ok 0 σ'
    /\ params σ' !! "LSN" = Some "BizObs_Argos_www.Argos.co.uk_Journey"
    /\ params σ' !! "TSN" = Some "DeliveryCompletion"
    /\ params σ' !! "customer_name" = Some "Robert Martinez".
Proof.
  destruct (Profile.vuser_init_run argos sample_env initial_state
              "Robert Martinez" "robert.martinez@email.com" "Premium"
              "Content_Marketing")
    as (σ0 & E0 & P0 & Hn & Ha & Ht);
    [cbn; lia | cbn; lia | cbn; lia
    | reflexivity | reflexivity | reflexivity | reflexivity |].
  destruct (action_restores_entry_state argos sample_env σ0)
    as (σ' & E & _ & Hother & Hl & _ & Ht' & _);
    [left; reflexivity | vm_compute; reflexivity
    | unfold at_iteration_start; rewrite Hn, Ha, Ht, P0;
      repeat split; reflexivity |].
  exists σ0, σ'. split; [exact E0|].
  split; [rewrite P0; reflexivity|].
  split; [exact E|]. split; [exact Hl|]. split; [exact Ht'|].
  rewrite Hother, P0; [reflexivity|].
  cbn. intros [H|[H|[H|[H|[H|[H|[H|[]]]]]]]]; discriminate H.
Defined.

(** *** Iterations one after the other *)

Lemma iterations_run s e n : forall first σ,
  In s generated_scripts ->
  at_iteration_start σ ->
  run_fits s e first n (n_time σ) = true ->
  exists σ' events,
    iterations s e first n σ = Ok tt σ'
    /\ at_iteration_start σ'
    /\ log σ' = log σ ++ events
    /\ length (requests events) = (n * S (length (steps s)))%nat
    /\ n_requests σ' = (n_requests σ + n * S (length (steps s)))%nat
    /\ n_time σ' = (n_time σ + 3 * n)%nat
    /\ settings σ' = settings σ
    /\ (forall name, ~ In name saved_by_action ->
          params σ' !! name = params σ !! name).
Proof.
  induction n as [|n IH]; intros first σ Hs Hstart Hfit.
  - exists σ, []. cbn [iterations]. rewrite app_nil_r.
    repeat split; try apply Hstart; auto; lia.
  - cbn [run_fits] in Hfit.
    apply andb_true_iff in Hfit as [Hfit Hrest].
    fold (buffers_fit s (with_iteration e first) σ) in Hfit.
    pose proof (iteration_state s (with_iteration e first) σ Hs Hfit Hstart)
      as E1.
    set (σ1 := action_state s (with_iteration e first) σ) in *.
    destruct (action_state_counters s (with_iteration e first) σ)
      as (R1 & N1 & S1).
    fold σ1 in R1, N1, S1.
    rewrite <- N1 in Hrest.
    destruct (IH (first + 1) σ1 Hs
                (action_state_entry s _ σ Hstart) Hrest)
      as (σ' & events & E & Hst & Hlog & Hlen & R & N & S' & Hother).
    exists σ', (action_events s (with_iteration e first) σ ++ events).
    cbn [iterations]. rewrite run_bind, E1.
    split; [exact E|]. split; [exact Hst|].
    split.
    { rewrite Hlog. unfold σ1. rewrite action_state_log.
      symmetry. apply app_assoc. }
    split.
    { unfold requests in *. rewrite collect_app, length_app, Hlen.
      fold (requests (action_events s (with_iteration e first) σ)).
      rewrite requests_action_events, length_app, steps_requests_length.
      cbn [length]. lia. }
    split; [rewrite R, R1; lia|].
    split; [rewrite N, N1; lia|].
    split; [rewrite S', S1; reflexivity|].
    intros name Hname. rewrite (Hother name Hname).
    apply action_state_other. exact Hname.
Qed.

(** X15: A virtual user that runs [n] iterations sends [n] times one
    request per step and one completion event, and nothing else:
    [vuser_init] and [vuser_end] send none.  It ends with no
    transaction open, with the profile chosen by [vuser_init] still in
    the parameters, and its last message, written with
    [lr_output_message], shows the text [{customer_name}] and not the
    name. *)
Theorem vuser_run s e n :
  In s generated_scripts ->
  (forall k, 0 <= rand_out e (cast_uint (time_now e 0 + vuser_id e)) k) ->
  run_fits s e 1 n 1 = true ->
  exists σ' name,
    run_vuser s e n initial_state = Ok 0 σ'
    /\ length (requests (log σ')) = (n * S (length (steps s)))%nat
    /\ tx_open σ' = []
    /\ settings σ' = init_settings
    /\ In name customer_names
    /\ params σ' !! "customer_name" = Some name
    /\ head (log σ')
       = Some (EvOutput ("Starting LoadRunner test for " +:+ company s))
    /\ last (log σ')
       = Some (EvOutput ("Completed LoadRunner test for " +:+ company s
                           +:+ " - Customer: {customer_name}")).
Proof.
  intros Hs Hrand Hfit.
  destruct (Profile.rem_index _ 16 (Hrand 0%nat) eq_refl) as [B1 L1].
  destruct (Profile.rem_index _ 6 (Hrand 1%nat) eq_refl) as [B2 L2].
  destruct (Profile.rem_index _ 8 (Hrand 2%nat) eq_refl) as [B3 L3].
  destruct (Profile.catalog_entry customer_names _ L1) as (name & Hn).
  destruct (Profile.catalog_entry customer_emails _ L1) as (email & He).
  destruct (Profile.catalog_entry customer_segments _ L2) as (seg & Hsg).
  destruct (Profile.catalog_entry traffic_sources _ L3) as (src & Hr).
  assert (E0 : exists σ0,
             vuser_init s e initial_state = Ok 0 σ0
             /\ at_iteration_start σ0 /\ n_time σ0 = 1%nat
             /\ log σ0 = [EvOutput ("Starting LoadRunner test for "
                                      +:+ company s)]
             /\ settings σ0 = init_settings
             /\ params σ0 !! "customer_name" = Some name).
  { eexists. unfold vuser_init, initial_state.
    run_calls. run_fields. unfold index_array.
    rewrite B1, Hn. run_calls. run_fields.
    rewrite He. run_calls. run_fields.
    rewrite B2, Hsg. run_calls. run_fields.
    rewrite B3, Hr. run_calls. run_fields.
    split; [reflexivity|]. unfold at_iteration_start. run_fields.
    repeat split; reflexivity. }
  destruct E0 as (σ0 & E0 & Hstart & N0 & L0 & S0 & P0).
  rewrite <- N0 in Hfit.
  destruct (iterations_run s e n 1 σ0 Hs Hstart Hfit)
    as (σ1 & events & E1 & (Hn1 & Ha1 & Ht1 & _) & Hlog & Hlen & _ & _
        & S1 & Hother).
  exists (emit (EvOutput ("Completed LoadRunner test for " +:+ company s
                            +:+ " - Customer: {customer_name}")) σ1), name.
  split.
  { unfold run_vuser. rewrite run_bind, E0, run_bind, E1.
    unfold vuser_end. run_calls. reflexivity. }
  cbn [log emit tx_open settings params]. rewrite Hlog, L0.
  split.
  { unfold requests in *. rewrite !collect_app, !length_app, Hlen.
    cbn [collect request_of length]. lia. }
  split; [exact Ht1|]. split; [rewrite S1; exact S0|].
  split; [exact (nth_error_In _ _ Hn)|].
  split.
  { rewrite Hother; [exact P0|].
    cbn. intros [H|[H|[H|[H|[H|[H|[H|[]]]]]]]]; discriminate H. }
  split; [reflexivity|apply last_snoc].
Qed.

Lemma vuser_run_witness :
  exists σ',
    run_vuser argos_short sample_env 3 initial_state = Ok 0 σ'
    /\ length (requests (log σ')) = 9%nat
    /\ tx_open σ' = [].
Proof.
  destruct (vuser_run argos_short sample_env 3)
    as (σ' & name & E & L & T & _);
    [right; left; reflexivity | intros k; cbn; lia
    | vm_compute; reflexivity |].
  exists σ'. split; [exact E|]. split; [exact L|exact T].
Defined.

End Vuser.

(** ** What the requests carry of the profile, and the identifiers *)

Module Content.
Import LR CLib CLibFacts Script Trace Obs Facts Run Inputs Tactics Lifecycle
  States Iteration.

(** *** The customer profile *)

Lemma step_request_profile s e st P k :
  header "x-customer-segment" (step_request s e st P k)
  = Some (eval_with e P k "{customer_segment}")
  /\ header "x-traffic-source" (step_request s e st P k)
     = Some (eval_with e P k "{traffic_source}")
  /\ profile_field "name" (step_request s e st P k)
     = Some (JStr (eval_with e P k "{customer_name}"))
  /\ profile_field "email" (step_request s e st P k)
     = Some (JStr (eval_with e P k "{customer_email}"))
  /\ profile_field "segment" (step_request s e st P k)
     = Some (JStr (eval_with e P k "{customer_segment}"))
  /\ profile_field "userId" (step_request s e st P k)
     = Some (JStr (eval_with e P k "{customer_id}")).
Proof. repeat split; reflexivity. Qed.

(** X16: The profile that [vuser_init] saved reaches every step request of
    every iteration unchanged: the segment and the traffic source as
    headers, the name, the address and the segment in
    [journey.customerProfile], next to the customer id of the
    iteration as [userId]. *)
Theorem profile_reaches_requests s e σ name email segment source :
  In s generated_scripts ->
  buffers_fit s e σ = true ->
  at_iteration_start σ ->
  params σ !! "customer_name" = Some name ->
  params σ !! "customer_email" = Some email ->
  params σ !! "customer_segment" = Some segment ->
  params σ !! "traffic_source" = Some source ->
  exists σ' sent completion,
    Action s e σ = Ok 0 σ'
    /\ requests (log σ') = requests (log σ) ++ sent ++ [completion]
    /\ length sent = length (steps s)
    /\ forall r, In r sent ->
         header "x-customer-segment" r = Some segment
         /\ header "x-traffic-source" r = Some source
         /\ profile_field "name" r = Some (JStr name)
         /\ profile_field "email" r = Some (JStr email)
         /\ profile_field "segment" r = Some (JStr segment)
         /\ profile_field "userId" r = Some (JStr (customer_id σ')).
Proof.
  intros Hs Hfit Hstart Hname Hemail Hseg Hsrc.
  exists (action_state s e σ). eexists _, _.
  split; [apply iteration_state; assumption|].
  split.
  { rewrite action_state_log. unfold requests. rewrite collect_app.
    fold (requests (action_events s e σ)).
    rewrite requests_action_events. reflexivity. }
  split; [apply steps_requests_length|].
  intros r Hr.
  apply list_elem_of_In, list_elem_of_lookup in Hr as [i Hi].
  rewrite steps_requests_lookup in Hi.
  destruct (steps s !! i) as [st|]; [|discriminate Hi].
  injection Hi as <-.
  set (P := steps_params (take (S i) (steps s))
              (journey_params s e (n_time σ) (params σ))).
  assert (Hkeep : forall n, n <> "TSN" -> n <> "LTN" -> n <> "LSN" ->
            n <> "trace_id" -> n <> "session_id" -> n <> "customer_id" ->
            n <> "correlation_id" -> P !! n = params σ !! n).
  { intros n ? ? ? ? ? ? ?. unfold P.
    rewrite steps_params_other, journey_params_other by assumption.
    reflexivity. }
  assert (Hcu : customer_id (action_state s e σ) = customer_text e (n_time σ)).
  { unfold action_state. cbv zeta. cbn [customer_id].
    destruct (steps_state_ids s e (steps s) (journey_state s e σ))
      as (_ & -> & _). reflexivity. }
  assert (Hid : P !! "customer_id" = Some (customer_id (action_state s e σ))).
  { rewrite Hcu. unfold P.
    apply (carries_steps _ _ _ _ _ _
             (carries_journey s e (n_time σ) (params σ))). }
  destruct (step_request_profile s e st P (n_requests σ + i))
    as (H1 & H2 & H3 & H4 & H5 & H6).
  rewrite H1, H2, H3, H4, H5, H6.
  pose proof (eval_bound e P (n_requests σ + i) "customer_segment" segment
                eq_refl) as E1.
  pose proof (eval_bound e P (n_requests σ + i) "traffic_source" source
                eq_refl) as E2.
  pose proof (eval_bound e P (n_requests σ + i) "customer_name" name
                eq_refl) as E3.
  pose proof (eval_bound e P (n_requests σ + i) "customer_email" email
                eq_refl) as E4.
  pose proof (eval_bound e P (n_requests σ + i) "customer_id" _
                eq_refl Hid) as E5.
  change ("{" +:+ "customer_segment" +:+ "}") with "{customer_segment}" in E1.
  change ("{" +:+ "traffic_source" +:+ "}") with "{traffic_source}" in E2.
  change ("{" +:+ "customer_name" +:+ "}") with "{customer_name}" in E3.
  change ("{" +:+ "customer_email" +:+ "}") with "{customer_email}" in E4.
  change ("{" +:+ "customer_id" +:+ "}") with "{customer_id}" in E5.
  rewrite E1, E2, E3, E4, E5;
    try (rewrite Hkeep by discriminate; assumption).
  repeat split; reflexivity.
Qed.

Lemma profile_reaches_requests_witness :
  exists σ0 σ' sent completion,
    vuser_init argos sample_env initial_state = Ok 0 σ0
    /\ Action argos sample_env σ0 = Ok 0 σ'
    /\ requests (log σ') = requests (log σ0) ++ sent ++ [completion]
    /\ forall r, In r sent ->
         header "x-customer-segment" r = Some "Premium"
         /\ header "x-traffic-source" r = Some "Content_Marketing"
         /\ profile_field "name" r = Some (JStr "Robert Martinez")
         /\ profile_field "email" r = Some (JStr "robert.martinez@email.com").
Proof.
  destruct (Profile.vuser_init_run argos sample_env initial_state
              "Robert Martinez" "robert.martinez@email.com" "Premium"
              "Content_Marketing")
    as (σ0 & E0 & P0 & Hn & Ha & Ht);
    [cbn; lia | cbn; lia | cbn; lia
    | reflexivity | reflexivity | reflexivity | reflexivity |].
  destruct (profile_reaches_requests argos sample_env σ0
              "Robert Martinez" "robert.martinez@email.com" "Premium"
              "Content_Marketing")
    as (σ' & sent & completion & E & R & _ & H);
    [left; reflexivity | vm_compute; reflexivity
    | unfold at_iteration_start; rewrite Hn, Ha, Ht, P0;
      repeat split; reflexivity
    | rewrite P0; reflexivity | rewrite P0; reflexivity
    | rewrite P0; reflexivity | rewrite P0; reflexivity |].
  exists σ0, σ', sent, completion.
  split; [exact E0|]. split; [exact E|]. split; [exact R|].
  intros r Hr. destruct (H r Hr) as (H1 & H2 & H3 & H4 & _).
  repeat split; assumption.
Defined.

(** *** The block that clears the headers *)

Lemma filter_twice {A} (f g : A -> bool) l :
  List.filter f (List.filter g l) = List.filter (fun x => g x && f x) l.
Proof.
  induction l as [|x l IH]; [reflexivity|].
  cbn [List.filter]. destruct (g x); cbn [List.filter andb];
    [destruct (f x)|]; rewrite IH; reflexivity.
Qed.

Lemma filter_same {A} (f g : A -> bool) l :
  (forall x, f x = g x) -> List.filter f l = List.filter g l.
Proof.
  intros H. induction l as [|x l IH]; [reflexivity|].
  cbn [List.filter]. rewrite H, IH. reflexivity.
Qed.

Lemma filter_keeps {A} (f : A -> bool) l x :
  In x l -> f x = true -> In x (List.filter f l).
Proof. intros Hin Hf. apply filter_In. split; assumption. Qed.

(** X17: The block headed "Clear headers for next request" empties the
    cookie jar and takes nine names off the automatic headers; it
    touches neither the headers attached for the next request nor
    anything else.  [X-dynaTrace] and [x-service-name] are not among
    the nine names (the block names [x-dynatrace-test] instead): an
    automatic header of either name would stay. *)
Theorem clear_headers_reverts_nine_names σ :
  exists σ',
    clear_headers σ = Ok tt σ'
    /\ cookies σ' = []
    /\ hdr_auto σ'
       = List.filter (fun h => negb (is_reverted (fst h))) (hdr_auto σ)
    /\ hdr_next σ' = hdr_next σ
    /\ params σ' = params σ /\ log σ' = log σ /\ tx_open σ' = tx_open σ
    /\ n_requests σ' = n_requests σ
    /\ (forall value,
          In ("X-dynaTrace", value) (hdr_auto σ) ->
          In ("X-dynaTrace", value) (hdr_auto σ'))
    /\ (forall value,
          In ("x-service-name", value) (hdr_auto σ) ->
          In ("x-service-name", value) (hdr_auto σ')).
Proof.
  assert (Hauto : forall l : list (string * string),
    List.filter (fun h => negb (String.eqb "x-test-iteration" (fst h)))
      (List.filter (fun h => negb (String.eqb "x-traffic-source" (fst h)))
      (List.filter (fun h => negb (String.eqb "x-customer-segment" (fst h)))
      (List.filter (fun h => negb (String.eqb "x-step-name" (fst h)))
      (List.filter (fun h => negb (String.eqb "x-trace-id" (fst h)))
      (List.filter (fun h => negb (String.eqb "x-session-id" (fst h)))
      (List.filter (fun h => negb (String.eqb "x-customer-id" (fst h)))
      (List.filter (fun h => negb (String.eqb "x-correlation-id" (fst h)))
      (List.filter (fun h => negb (String.eqb "x-dynatrace-test" (fst h)))
         l))))))))
    = List.filter (fun h => negb (is_reverted (fst h))) l).
  { intros l. rewrite !filter_twice. apply filter_same. intros [n v].
    unfold is_reverted, reverted_names. cbn [fst existsb].
    repeat (destruct (String.eqb _ n); [reflexivity|]). reflexivity. }
  destruct σ as [P hn ha ck tx se lg nr nt nrd sd dt co cu ss tr].
  eexists. split; [unfold clear_headers; run_calls; run_fields; reflexivity|].
  run_fields. rewrite Hauto.
  repeat split; try reflexivity;
    intros value Hin; apply filter_keeps; auto.
Qed.

Lemma clear_headers_reverts_nine_names_witness :
  exists σ',
    clear_headers
      (set_hdr_auto
         (fun _ => [("X-dynaTrace", "a"); ("x-step-name", "b");
                    ("x-service-name", "c"); ("x-dynatrace-test", "d")])
         initial_state)
    = Ok tt σ'
    /\ hdr_auto σ' = [("X-dynaTrace", "a"); ("x-service-name", "c")].
Proof.
  destruct (clear_headers_reverts_nine_names
              (set_hdr_auto
                 (fun _ => [("X-dynaTrace", "a"); ("x-step-name", "b");
                            ("x-service-name", "c"); ("x-dynatrace-test", "d")])
                 initial_state))
    as (σ' & E & _ & H & _).
  exists σ'. split; [exact E|]. rewrite H. reflexivity.
Defined.

(** *** One identifier, one worker and iteration *)

Lemma decimal_fields a b a' b' r r' :
  fmt_d a +:+ String "_" (fmt_d b +:+ r)
  = fmt_d a' +:+ String "_" (fmt_d b' +:+ r') ->
  a = a' /\ fmt_d b +:+ r = fmt_d b' +:+ r'.
Proof.
  intros H.
  apply Identifiers.split_at_sep in H as [Ha H];
    try apply Identifiers.fmt_d_no_sep.
  split; [apply fmt_d_inj; exact Ha|exact H].
Qed.

Lemma decimal_last a a' : fmt_d a +:+ "" = fmt_d a' +:+ "" -> a = a'.
Proof. rewrite !append_nil_r. apply fmt_d_inj. Qed.

Lemma customer_id_fields v1 i1 t1 v2 i2 t2 :
  fmt_customer_id v1 i1 t1 = fmt_customer_id v2 i2 t2 ->
  v1 = v2 /\ i1 = i2 /\ t1 = t2.
Proof.
  unfold fmt_customer_id. intros H.
  apply (inj (String.append "customer_")) in H.
  change (fmt_d v1 +:+ String "_" (fmt_d i1 +:+ String "_" (fmt_d t1))
          = fmt_d v2 +:+ String "_" (fmt_d i2 +:+ String "_" (fmt_d t2))) in H.
  apply decimal_fields in H as [-> H].
  apply Identifiers.split_at_sep in H as [Hi Ht];
    try apply Identifiers.fmt_d_no_sep.
  apply fmt_d_inj in Hi, Ht. auto.
Qed.



(** *** The clock beyond [int] *)

Lemma cast_int_wraps t :
  INT_MAX < t < 4294967296 -> cast_int t = t - 4294967296.
Proof.
  unfold cast_int, INT_MAX. intros H.
  replace (t + 2147483648) with (t - 2147483648 + 1 * 4294967296) by lia.
  rewrite Z.mod_add by lia. rewrite Z.mod_small by lia. lia.
Qed.

Lemma c_rem_negative x :
  0 < x -> c_rem (- x) 10000 = - (x mod 10000).
Proof.
  intros H. unfold c_rem. rewrite Z.rem_opp_l by lia.
  rewrite Z.rem_mod_nonneg by lia. reflexivity.
Qed.

(** X19: [(int)time(NULL)] keeps the low 32 bits of the clock.  Once the
    clock has passed [INT_MAX] (from 19 January 2038 on) the
    identifiers show it as a negative number, and the last field of
    the customer id, [(int)time(NULL) % 10000] with the sign of the
    dividend, is no longer the clock modulo 10000. *)
Theorem clock_past_int_max s e σ t :
  INT_MAX < t < 4294967296 ->
  time_now e (n_time σ) = t ->
  time_now e (S (n_time σ)) = t ->
  time_now e (S (S (n_time σ))) = t ->
  ids_fit s e (n_time σ) = true ->
  exists σ',
    generate_ids s e σ = Ok tt σ'
    /\ t - 4294967296 < 0
    /\ correlation_id σ'
       = fmt_correlation_id s (vuser_id e) (iteration_number e)
           (t - 4294967296)
    /\ trace_id σ' = fmt_trace_id (correlation_id σ') (t - 4294967296)
    /\ customer_id σ'
       = fmt_customer_id (vuser_id e) (iteration_number e)
           (- ((4294967296 - t) mod 10000))
    /\ customer_id σ'
       <> fmt_customer_id (vuser_id e) (iteration_number e) (t mod 10000).
Proof.
  intros Ht H1 H2 H3 Hfit.
  destruct (generate_ids_run s e σ Hfit)
    as (σ' & E & _ & C & U & _ & T & _).
  exists σ'. split; [exact E|]. split; [lia|].
  rewrite C, U, T.
  unfold trace_text, correlation_text, customer_text.
  rewrite H1, H2, H3, (cast_int_wraps t Ht).
  assert (Hrem : c_rem (t - 4294967296) 10000
                 = - ((4294967296 - t) mod 10000)).
  { replace (t - 4294967296) with (- (4294967296 - t)) by lia.
    apply c_rem_negative. lia. }
  rewrite Hrem.
  repeat split; try reflexivity.
  intros H. apply customer_id_fields in H as (_ & _ & H).
  pose proof (Z.div_mod t 10000 ltac:(lia)).
  pose proof (Z.div_mod (4294967296 - t) 10000 ltac:(lia)).
  pose proof (Z.mod_pos_bound t 10000 ltac:(lia)).
  pose proof (Z.mod_pos_bound (4294967296 - t) 10000 ltac:(lia)).
  lia.
Qed.

Lemma clock_past_int_max_witness :
  exists σ',
    generate_ids argos late_env initial_state = Ok tt σ'
    /\ correlation_id σ' = "LR_Argos_LoadTest_20260106_7_3_-2147483548"
    /\ customer_id σ' = "customer_7_3_-3548".
Proof.
  destruct (clock_past_int_max argos late_env initial_state 2147483748)
    as (σ' & E & _ & C & _ & U & _);
    [unfold INT_MAX; lia | reflexivity | reflexivity | reflexivity
    | vm_compute; reflexivity |].
  exists σ'. split; [exact E|]. rewrite C, U. split; reflexivity.
Defined.

End Content.
